(* ===================================================================== *)
(*  MT5Connector (src/mt5-connector.js): the WebSocket client that turns  *)
(*  one duplex channel into a request/response API.                       *)
(*                                                                       *)
(*  The connector object, the browser objects it drives (WebSocket        *)
(*  instances, timers, promises, the console) and the callbacks handed    *)
(*  to it are embedded as one state record.  Every method is a            *)
(*  computation in a state-and-exception monad, and the event loop is a   *)
(*  step function over the events that can reach the connector.           *)
(*                                                                       *)
(*  Layout: values and runtime objects; the methods, in the order of the  *)
(*  source; the event loop; the vocabulary of the properties; then the    *)
(*  lemmas and, per component, the properties C1 to C10.                  *)
(*                                                                       *)
(*  MT5Service, the second client of the same file, is embedded the same  *)
(*  way in a module of its own, after the vocabulary.  The properties     *)
(*  X1 to X8 of the connector and X9 to X21 of the service follow the     *)
(*  properties C1 to C10.                                                 *)
(* ===================================================================== *)

From Stdlib Require Import ZArith String List Lia Ascii.
From stdpp Require Import base option list gmap strings fin_maps.

Set Warnings "-register-all".
Local Open Scope string_scope.
Local Open Scope list_scope.

(* --------------------------------------------------------------------- *)
(** * JavaScript values                                                   *)
(* --------------------------------------------------------------------- *)

(** The values that travel through the connector: what [JSON.parse]
    yields, [undefined], and the opaque event object the browser hands
    to [onerror].  Numbers in frames are used for their truthiness only
    and are kept as integers. *)
Inductive Value : Type :=
| VUndefined
| VNull
| VBool (b : bool)
| VNum (n : Z)
| VStr (s : string)
| VArr (items : list Value)
| VObj (fields : list (string * Value))
| VEvent.

(** What a [throw] can carry here. *)
Inductive Thrown : Type :=
| SyntaxError                (* JSON.parse on an unparsable frame *)
| TypeError                  (* property read on null / undefined *)
| InvalidStateError          (* WebSocket.send while still CONNECTING *)
| ConstructError             (* new WebSocket(url) throwing *)
| CallbackError (cb : nat)   (* whatever user callback [cb] throws *)
| Error (message : string).  (* new Error(message) *)

Inductive Res (A : Type) : Type :=
| Ok (a : A)
| Throw (e : Thrown).
Arguments Ok {A} a.
Arguments Throw {A} e.

(** Truthiness, as used by [||]. *)
Definition truthy (v : Value) : bool :=
  match v with
  | VUndefined | VNull => false
  | VBool b => b
  | VNum n => negb (n =? 0)%Z
  | VStr s => negb (String.eqb s "")
  | VArr _ | VObj _ | VEvent => true
  end.

(** [a || b] *)
Definition js_or (a b : Value) : Value := if truthy a then a else b.

Fixpoint assoc (name : string) (fields : list (string * Value)) : Value :=
  match fields with
  | [] => VUndefined
  | (k, v) :: rest => if String.eqb k name then v else assoc name rest
  end.

(** [v.name]: a TypeError on null and undefined, the property of an
    object, and [undefined] on every other value that reaches this code
    (no primitive, array or event has a [type] or [data] property).
    The fields of an object carry distinct names, as the properties of
    a JavaScript object do. *)
Definition prop (v : Value) (name : string) : Res Value :=
  match v with
  | VUndefined | VNull => Throw TypeError
  | VObj fields => Ok (assoc name fields)
  | _ => Ok VUndefined
  end.

(** A raw inbound frame, given by what [JSON.parse] does with it: it
    throws a SyntaxError, or returns the parsed value. *)
Inductive Frame : Type :=
| Garbled (raw : string)
| Text (parsed : Value).

Definition JSON_parse (data : Frame) : Res Value :=
  match data with
  | Garbled _ => Throw SyntaxError
  | Text v => Ok v
  end.

(** An outbound command: the mandatory [action], the optional
    [requestTimeout] override, and the action-specific fields. *)
Record Command : Type := mkCommand {
  action : string;
  requestTimeout : option Z;
  fields : list (string * Value)
}.

(* --------------------------------------------------------------------- *)
(** * The objects around the connector                                    *)
(* --------------------------------------------------------------------- *)

(** A callback supplied by a feature module.  The connector only calls
    it; the model records the call and whether the callback throws.
    Callbacks do not re-enter the connector: what a feature module does
    with the connector is a separate event of the loop. *)
Record Callback : Type := mkCallback {
  cb_id : nat;
  cb_throws : bool
}.

(** What [messageHandlers] holds: a handler passed to [on] by a feature
    module, or the closure [sendMessage] registers, which captures its
    promise, its timer and its [responseType]. *)
Inductive Handler : Type :=
| UserHandler (cb : Callback)
| Waiter (pid tid : nat) (responseType : string).

(** The two closures this file passes to [setTimeout]. *)
Inductive TimerTask : Type :=
| ReconnectTask
| RequestTimeout (pid : nat) (responseType : string).

Record Timer : Type := mkTimer {
  task : TimerTask;
  delay : Z
}.

Inductive TimerStatus : Type := Armed | Cleared | Fired.

Inductive PromiseState : Type :=
| Pending
| Fulfilled (v : Value)
| Rejected (e : Thrown).

Inductive ReadyState : Type := CONNECTING | OPEN | CLOSING | CLOSED.

(** A WebSocket instance created by [connect]: its ready state and the
    promise whose [resolve] its [onopen] closure captured. *)
Record Socket : Type := mkSocket {
  readyState : ReadyState;
  opener : nat
}.

Inductive LogEntry : Type :=
| LogInfo (text : string)
| LogReconnecting (delayMs : Z) (attempt : nat)
| LogError (text : string)
| LogErrorWith (text : string) (e : Thrown)
| LogNotice (text : string).

(** The connector's fields ([ws], [connected], [reconnectAttempts],
    [messageHandlers], [eventListeners]) followed by the runtime: every
    socket, timer and promise ever created (an id is a position in its
    list), the console, the calls made to user callbacks, the frames
    handed to [WebSocket.send], and the exceptions that escaped an event
    handler. *)
Record State : Type := mkState {
  ws : option nat;
  connected : bool;
  reconnectAttempts : nat;
  messageHandlers : gmap string Handler;
  eventListeners : gmap string (list Callback);
  sockets : list Socket;
  timers : list (Timer * TimerStatus);
  promises : list PromiseState;
  console : list LogEntry;
  calls : list (nat * Value);
  outbox : list (nat * Command);
  uncaught : list Thrown
}.

Definition maxReconnectAttempts : nat := 5.
Definition reconnectDelay : Z := 2000%Z.

(** The constructor (its two lines of console output left out). *)
Definition initial : State :=
  {| ws := None; connected := false; reconnectAttempts := 0;
     messageHandlers := ∅; eventListeners := ∅;
     sockets := []; timers := []; promises := [];
     console := []; calls := []; outbox := []; uncaught := [] |}.

(* Field updates. *)
Definition set_ws (x : option nat) (s : State) : State :=
  {| ws := x; connected := connected s; reconnectAttempts := reconnectAttempts s;
     messageHandlers := messageHandlers s; eventListeners := eventListeners s;
     sockets := sockets s; timers := timers s; promises := promises s;
     console := console s; calls := calls s; outbox := outbox s;
     uncaught := uncaught s |}.
Definition set_connected (x : bool) (s : State) : State :=
  {| ws := ws s; connected := x; reconnectAttempts := reconnectAttempts s;
     messageHandlers := messageHandlers s; eventListeners := eventListeners s;
     sockets := sockets s; timers := timers s; promises := promises s;
     console := console s; calls := calls s; outbox := outbox s;
     uncaught := uncaught s |}.
Definition set_reconnectAttempts (x : nat) (s : State) : State :=
  {| ws := ws s; connected := connected s; reconnectAttempts := x;
     messageHandlers := messageHandlers s; eventListeners := eventListeners s;
     sockets := sockets s; timers := timers s; promises := promises s;
     console := console s; calls := calls s; outbox := outbox s;
     uncaught := uncaught s |}.
Definition set_messageHandlers (x : gmap string Handler) (s : State) : State :=
  {| ws := ws s; connected := connected s; reconnectAttempts := reconnectAttempts s;
     messageHandlers := x; eventListeners := eventListeners s;
     sockets := sockets s; timers := timers s; promises := promises s;
     console := console s; calls := calls s; outbox := outbox s;
     uncaught := uncaught s |}.
Definition set_eventListeners (x : gmap string (list Callback)) (s : State) : State :=
  {| ws := ws s; connected := connected s; reconnectAttempts := reconnectAttempts s;
     messageHandlers := messageHandlers s; eventListeners := x;
     sockets := sockets s; timers := timers s; promises := promises s;
     console := console s; calls := calls s; outbox := outbox s;
     uncaught := uncaught s |}.
Definition set_sockets (x : list Socket) (s : State) : State :=
  {| ws := ws s; connected := connected s; reconnectAttempts := reconnectAttempts s;
     messageHandlers := messageHandlers s; eventListeners := eventListeners s;
     sockets := x; timers := timers s; promises := promises s;
     console := console s; calls := calls s; outbox := outbox s;
     uncaught := uncaught s |}.
Definition set_timers (x : list (Timer * TimerStatus)) (s : State) : State :=
  {| ws := ws s; connected := connected s; reconnectAttempts := reconnectAttempts s;
     messageHandlers := messageHandlers s; eventListeners := eventListeners s;
     sockets := sockets s; timers := x; promises := promises s;
     console := console s; calls := calls s; outbox := outbox s;
     uncaught := uncaught s |}.
Definition set_promises (x : list PromiseState) (s : State) : State :=
  {| ws := ws s; connected := connected s; reconnectAttempts := reconnectAttempts s;
     messageHandlers := messageHandlers s; eventListeners := eventListeners s;
     sockets := sockets s; timers := timers s; promises := x;
     console := console s; calls := calls s; outbox := outbox s;
     uncaught := uncaught s |}.
Definition set_console (x : list LogEntry) (s : State) : State :=
  {| ws := ws s; connected := connected s; reconnectAttempts := reconnectAttempts s;
     messageHandlers := messageHandlers s; eventListeners := eventListeners s;
     sockets := sockets s; timers := timers s; promises := promises s;
     console := x; calls := calls s; outbox := outbox s;
     uncaught := uncaught s |}.
Definition set_calls (x : list (nat * Value)) (s : State) : State :=
  {| ws := ws s; connected := connected s; reconnectAttempts := reconnectAttempts s;
     messageHandlers := messageHandlers s; eventListeners := eventListeners s;
     sockets := sockets s; timers := timers s; promises := promises s;
     console := console s; calls := x; outbox := outbox s;
     uncaught := uncaught s |}.
Definition set_outbox (x : list (nat * Command)) (s : State) : State :=
  {| ws := ws s; connected := connected s; reconnectAttempts := reconnectAttempts s;
     messageHandlers := messageHandlers s; eventListeners := eventListeners s;
     sockets := sockets s; timers := timers s; promises := promises s;
     console := console s; calls := calls s; outbox := x;
     uncaught := uncaught s |}.
Definition set_uncaught (x : list Thrown) (s : State) : State :=
  {| ws := ws s; connected := connected s; reconnectAttempts := reconnectAttempts s;
     messageHandlers := messageHandlers s; eventListeners := eventListeners s;
     sockets := sockets s; timers := timers s; promises := promises s;
     console := console s; calls := calls s; outbox := outbox s;
     uncaught := x |}.

(* --------------------------------------------------------------------- *)
(** * Computations: state passing with exceptions                        *)
(* --------------------------------------------------------------------- *)

(** A method body runs on the state and either returns or throws; what
    it wrote before throwing stays written. *)
Definition M (A : Type) : Type := State -> Res A * State.

Definition ret {A} (a : A) : M A := fun s => (Ok a, s).

Definition bind {A B} (c : M A) (k : A -> M B) : M B :=
  fun s => match c s with
           | (Ok a, s') => k a s'
           | (Throw e, s') => (Throw e, s')
           end.

Definition throw {A} (e : Thrown) : M A := fun s => (Throw e, s).

(** [try { body } catch (error) { handler(error) }] *)
Definition try_catch {A} (body : M A) (handler : Thrown -> M A) : M A :=
  fun s => match body s with
           | (Ok a, s') => (Ok a, s')
           | (Throw e, s') => handler e s'
           end.

Definition lift {A} (r : Res A) : M A := fun s => (r, s).
Definition gets {A} (f : State -> A) : M A := fun s => (Ok (f s), s).
Definition modify (f : State -> State) : M unit := fun s => (Ok tt, f s).

Notation "'let*' x ':=' c 'in' k" := (bind c (fun x => k))
  (at level 10, x name, c at level 100, k at level 200).
Notation "c1 '>>' c2" := (bind c1 (fun _ => c2))
  (at level 100, c2 at level 200, right associativity).

(** Running an event handler from the event loop: an exception that
    escapes it is reported by the browser and goes no further. *)
Definition run_handler (c : M unit) (s : State) : State :=
  match c s with
  | (Ok _, s') => s'
  | (Throw e, s') => set_uncaught (uncaught s' ++ [e]) s'
  end.

(* Console. *)
Definition console_log (text : string) : M unit :=
  modify (fun s => set_console (console s ++ [LogInfo text]) s).
Definition console_error (text : string) : M unit :=
  modify (fun s => set_console (console s ++ [LogError text]) s).
Definition console_error_with (text : string) (e : Thrown) : M unit :=
  modify (fun s => set_console (console s ++ [LogErrorWith text e]) s).

(** [showError], the notification helper of utils.js, seen as one more
    line of output. *)
Definition showError (text : string) : M unit :=
  modify (fun s => set_console (console s ++ [LogNotice text]) s).

(* Promises. *)
Definition new_promise : M nat :=
  fun s => (Ok (length (promises s)), set_promises (promises s ++ [Pending]) s).

(** [resolve] and [reject] settle a pending promise and do nothing to a
    settled one. *)
Definition settle (pid : nat) (outcome : PromiseState) : M unit :=
  modify (fun s =>
    match promises s !! pid with
    | Some Pending => set_promises (<[pid := outcome]> (promises s)) s
    | _ => s
    end).
Definition resolve (pid : nat) (v : Value) : M unit := settle pid (Fulfilled v).
Definition reject (pid : nat) (e : Thrown) : M unit := settle pid (Rejected e).

(* Timers. *)
Definition setTimeout (t : TimerTask) (ms : Z) : M nat :=
  fun s => (Ok (length (timers s)),
            set_timers (timers s ++ [(mkTimer t ms, Armed)]) s).

(** [clearTimeout] cancels a timer that has not run yet. *)
Definition clearTimeout (tid : nat) : M unit :=
  modify (fun s =>
    match timers s !! tid with
    | Some (t, Armed) => set_timers (<[tid := (t, Cleared)]> (timers s)) s
    | _ => s
    end).

(* WebSocket instances. *)

(** [new WebSocket(this.url)]; whether the constructor throws is the
    environment's choice. *)
Definition new_WebSocket (ctorThrows : bool) (pid : nat) : M nat :=
  if ctorThrows then throw ConstructError
  else fun s => (Ok (length (sockets s)),
                 set_sockets (sockets s ++ [mkSocket CONNECTING pid]) s).

(** [socket.close()] *)
Definition ws_close (k : nat) : M unit :=
  modify (fun s =>
    match sockets s !! k with
    | Some (mkSocket CONNECTING p) | Some (mkSocket OPEN p) =>
        set_sockets (<[k := mkSocket CLOSING p]> (sockets s)) s
    | _ => s
    end).

(** [socket.send(JSON.stringify(data))]: an InvalidStateError while the
    socket is still connecting; the frame leaves on an open socket and
    is discarded without an exception on a closing or closed one. *)
Definition ws_send (k : nat) (data : Command) : M unit :=
  fun s =>
    match sockets s !! k with
    | Some (mkSocket CONNECTING _) => (Throw InvalidStateError, s)
    | Some (mkSocket OPEN _) => (Ok tt, set_outbox (outbox s ++ [(k, data)]) s)
    | _ => (Ok tt, s)
    end.

(* User callbacks. *)
Definition invoke (cb : Callback) (arg : Value) : M unit :=
  modify (fun s => set_calls (calls s ++ [(cb_id cb, arg)]) s) >>
  if cb_throws cb then throw (CallbackError (cb_id cb)) else ret tt.

(** [array.forEach(f)]: stops at the first call that throws. *)
Fixpoint forEach {A} (f : A -> M unit) (l : list A) : M unit :=
  match l with
  | [] => ret tt
  | x :: rest => f x >> forEach f rest
  end.

(** A [Map] with string keys looked up with an arbitrary value: only a
    string can be the same value as a key. *)
Definition map_get {V} (m : gmap string V) (key : Value) : option V :=
  match key with
  | VStr k => m !! k
  | _ => None
  end.

(* --------------------------------------------------------------------- *)
(** * The methods of MT5Connector                                         *)
(* --------------------------------------------------------------------- *)

(** [emit(event, data)] *)
Definition emit (event : Value) (data : Value) : M unit :=
  let* listeners := gets (fun s => map_get (eventListeners s) event) in
  match listeners with
  | Some callbacks => forEach (fun callback => invoke callback data) callbacks
  | None => ret tt
  end.

(** [on(type, handler)] *)
Definition on (type : string) (handler : Handler) : M unit :=
  modify (fun s => set_messageHandlers (<[type := handler]> (messageHandlers s)) s).

(** [this.messageHandlers.delete(type)] *)
Definition messageHandlers_delete (type : string) : M unit :=
  modify (fun s => set_messageHandlers (delete type (messageHandlers s)) s).

(** [addEventListener(event, callback)] *)
Definition addEventListener (event : string) (callback : Callback) : M unit :=
  modify (fun s =>
    let existing := match eventListeners s !! event with
                    | Some l => l
                    | None => []
                    end in
    set_eventListeners (<[event := (existing ++ [callback])%list]> (eventListeners s)) s).

(** Calling what [messageHandlers.get(type)] returned.  The closure of
    [sendMessage] clears its timer, deletes the entry of its
    [responseType] and resolves its promise. *)
Definition call_handler (h : Handler) (response : Value) : M unit :=
  match h with
  | UserHandler cb => invoke cb response
  | Waiter pid timeout responseType =>
      clearTimeout timeout >>
      messageHandlers_delete responseType >>
      resolve pid response
  end.

(** [handleMessage(data)] *)
Definition handleMessage (data : Frame) : M unit :=
  try_catch
    (let* message := lift (JSON_parse data) in
     let* type := lift (prop message "type") in
     let* payload := lift (prop message "data") in
     emit type (js_or payload message) >>
     let* handler := gets (fun s => map_get (messageHandlers s) type) in
     match handler with
     | Some h => call_handler h (js_or payload message)
     | None => ret tt
     end)
    (fun error => console_error_with "Mesaj işlenemedi:" error).

(** [send(data)] *)
Definition send (data : Command) : M bool :=
  let* isConnected := gets connected in
  let* socket := gets ws in
  match isConnected, socket with
  | true, Some k =>
      try_catch
        (ws_send k data >> ret true)
        (fun error => console_error_with "Mesaj gönderilemedi:" error >> ret false)
  | _, _ => console_error "Sunucuya bağlı değil" >> ret false
  end.

(** [attemptReconnect()] *)
Definition attemptReconnect : M unit :=
  let* attempts := gets reconnectAttempts in
  if (maxReconnectAttempts <=? attempts)%nat then
    console_error "Maksimum yeniden bağlanma denemesine ulaşıldı" >>
    showError "MT5 sunucusuna bağlanılamadı. Lütfen sunucunun çalıştığından emin olun."
  else
    modify (set_reconnectAttempts (S attempts)) >>
    let* attempts := gets reconnectAttempts in
    let delay := (reconnectDelay * 2 ^ (Z.of_nat attempts - 1))%Z in
    modify (fun s => set_console (console s ++ [LogReconnecting delay attempts]) s) >>
    let* _ := setTimeout ReconnectTask delay in
    ret tt.

(** [connect()]: the executor of the returned promise runs at once; the
    four callbacks it installs on the socket are the [on...] handlers
    below.  The result is the id of the promise. *)
Definition connect (ctorThrows : bool) : M nat :=
  let* pid := new_promise in
  try_catch
    (let* k := new_WebSocket ctorThrows pid in
     modify (set_ws (Some k)))
    (fun error => console_error_with "Bağlantı hatası:" error >> reject pid error) >>
  ret pid.

(** [this.ws.onopen], for the socket whose [connect] promise is [pid].
    [updateConnectionStatus], here and in [onclose], only repaints the
    status badge of the page (and hides it again after three seconds);
    it neither reads nor writes the connector and is left out. *)
Definition onopen (pid : nat) : M unit :=
  console_log "MT5 sunucusuna bağlanıldı" >>
  modify (set_connected true) >>
  modify (set_reconnectAttempts 0) >>
  emit (VStr "connected") VUndefined >>
  resolve pid VUndefined.

(** [this.ws.onmessage] *)
Definition onmessage (data : Frame) : M unit := handleMessage data.

(** [this.ws.onerror] *)
Definition onerror (error : Value) : M unit :=
  console_error "WebSocket hatası:" >>
  emit (VStr "error") error.

(** [this.ws.onclose] *)
Definition onclose : M unit :=
  console_log "MT5 sunucusu bağlantısı kesildi" >>
  modify (set_connected false) >>
  emit (VStr "disconnected") VUndefined >>
  attemptReconnect.

(** [disconnect()] *)
Definition disconnect : M unit :=
  let* socket := gets ws in
  match socket with
  | Some k =>
      ws_close k >>
      modify (set_ws None) >>
      modify (set_connected false)
  | None => ret tt
  end.

(** The callback [attemptReconnect] hands to [setTimeout]:
    [this.connect().catch(err => console.error(...))]. *)
Definition reconnect_callback (ctorThrows : bool) : M unit :=
  let* pid := connect ctorThrows in
  let* outcome := gets (fun s => promises s !! pid) in
  match outcome with
  | Some (Rejected err) => console_error_with "Yeniden bağlanma başarısız:" err
  | _ => ret tt
  end.

(** The reply type [sendMessage] infers from the action. *)
Definition responseType (data : Command) : string :=
  let a := action data in
  if String.eqb a "parse_strategy" then "strategy_parsed" else
  if String.eqb a "run_backtest" then "backtest_result" else
  if String.eqb a "load_template" then "template_loaded" else
  if String.eqb a "start_conversation" then "conversation_question" else
  if String.eqb a "answer_question" then "conversation_question" else
  if String.eqb a "generate_final_prompt" then "final_prompt" else
  if String.eqb a "optimize_strategy" then "optimization_suggestions" else
  if String.eqb a "optimize_strategy" then "optimization_suggestions" else
  if String.eqb a "find_confluences" then "confluences_found" else
  if String.eqb a "get_templates" then "templates_list" else
  if String.eqb a "get_strategies" then "strategies_list" else
  if String.eqb a "mtf_analysis" then "mtf_analysis_result" else
  if String.eqb a "get_recovery_plan" then "recovery_plan" else
  String.append a "_response".

Definition defaultTimeout (data : Command) : Z :=
  let a := action data in
  if String.eqb a "run_backtest" then 300000%Z else
  if String.eqb a "parse_strategy" then 120000%Z else
  if String.eqb a "evolve_strategy" then 180000%Z else
  60000%Z.

(** [data.requestTimeout || defaultTimeout] *)
Definition timeoutOf (data : Command) : Z :=
  match requestTimeout data with
  | Some ms => if (ms =? 0)%Z then defaultTimeout data else ms
  | None => defaultTimeout data
  end.

(** The callback [sendMessage] hands to [setTimeout]. *)
Definition timeout_callback (pid : nat) (responseType : string) : M unit :=
  messageHandlers_delete responseType >>
  reject pid (Error "İstek zaman aşımına uğradı").

(** [sendMessage(data)]; the result is the id of the returned promise. *)
Definition sendMessage (data : Command) : M nat :=
  let* pid := new_promise in
  let* isConnected := gets connected in
  (if negb isConnected then
     reject pid (Error "Sunucuya bağlı değil")
   else
     let* timeout := setTimeout (RequestTimeout pid (responseType data)) (timeoutOf data) in
     on (responseType data) (Waiter pid timeout (responseType data)) >>
     let* sent := send data in
     if negb sent then
       clearTimeout timeout >>
       messageHandlers_delete (responseType data) >>
       reject pid (Error "Mesaj gönderilemedi")
     else ret tt) >>
  ret pid.

(* --------------------------------------------------------------------- *)
(** * The event loop                                                      *)
(* --------------------------------------------------------------------- *)

(** Everything that can happen to the connector: a call from a feature
    module, an event of one of its sockets, a timer running out.  The
    loop is single-threaded: each event runs to completion.  Time is the
    order of the events: a timeout that elapses is the event
    [TimerFires], and what happens before it is what comes earlier in
    the run.  [ctorThrows] says whether [new WebSocket] throws in the
    [connect] that the event leads to.  [CallSend] stands for [send] and
    for the API methods ([ping], [getAccountData], ...), which only
    build a command and pass it to [send]. *)
Inductive Event : Type :=
| CallConnect (ctorThrows : bool)
| CallDisconnect
| CallSend (data : Command)
| CallSendMessage (data : Command)
| CallOn (type : string) (handler : Callback)
| CallAddEventListener (event : string) (callback : Callback)
| SocketOpen (k : nat)
| SocketMessage (k : nat) (data : Frame)
| SocketError (k : nat)
| SocketClose (k : nat)
| TimerFires (tid : nat) (ctorThrows : bool).

Definition set_readyState (k : nat) (r : ReadyState) (s : State) : State :=
  match sockets s !! k with
  | Some sk => set_sockets (<[k := mkSocket r (opener sk)]> (sockets s)) s
  | None => s
  end.

Definition timer_callback (t : TimerTask) (ctorThrows : bool) : M unit :=
  match t with
  | ReconnectTask => reconnect_callback ctorThrows
  | RequestTimeout pid rt => timeout_callback pid rt
  end.

(** One turn of the loop.  The browser delivers [open] to a connecting
    socket only, [message] to an open one only, and nothing once [close]
    has been delivered; a timer runs only while armed.  An event that
    cannot happen in the current state leaves it as it is. *)
Definition step (e : Event) (s : State) : State :=
  match e with
  | CallConnect ctorThrows => run_handler (connect ctorThrows >> ret tt) s
  | CallDisconnect => run_handler disconnect s
  | CallSend data => run_handler (send data >> ret tt) s
  | CallSendMessage data => run_handler (sendMessage data >> ret tt) s
  | CallOn type handler => run_handler (on type (UserHandler handler)) s
  | CallAddEventListener event callback =>
      run_handler (addEventListener event callback) s
  | SocketOpen k =>
      match sockets s !! k with
      | Some (mkSocket CONNECTING pid) =>
          run_handler (onopen pid) (set_readyState k OPEN s)
      | _ => s
      end
  | SocketMessage k data =>
      match sockets s !! k with
      | Some (mkSocket OPEN _) => run_handler (onmessage data) s
      | _ => s
      end
  | SocketError k =>
      match sockets s !! k with
      | None | Some (mkSocket CLOSED _) => s
      | Some _ => run_handler (onerror VEvent) s
      end
  | SocketClose k =>
      match sockets s !! k with
      | None | Some (mkSocket CLOSED _) => s
      | Some _ => run_handler onclose (set_readyState k CLOSED s)
      end
  | TimerFires tid ctorThrows =>
      match timers s !! tid with
      | Some (t, Armed) =>
          run_handler (timer_callback (task t) ctorThrows)
                      (set_timers (<[tid := (t, Fired)]> (timers s)) s)
      | _ => s
      end
  end.

(** A run of the loop, oldest event first. *)
Definition run (events : list Event) (s : State) : State :=
  fold_left (fun acc e => step e acc) events s.

(* --------------------------------------------------------------------- *)
(** * Scenarios                                                           *)
(* --------------------------------------------------------------------- *)

Definition get_account_data : Command :=
  mkCommand "get_account_data" None [("account_id", VStr "a1")].

Definition account_reply : Frame :=
  Text (VObj [("type", VStr "get_account_data_response");
              ("data", VObj [("balance", VNum 1000%Z)])]).

(** Connected through socket 0. *)
Definition online : State := run [CallConnect false; SocketOpen 0] initial.

(* --------------------------------------------------------------------- *)
(** * Vocabulary of the properties                                        *)
(* --------------------------------------------------------------------- *)

(** The payload [handleMessage] hands on: [message.data || message]. *)
Definition payloadOf (message : Value) : Value :=
  match prop message "data" with
  | Ok d => js_or d message
  | Throw _ => message
  end.

(** The callbacks [emit(event, _)] would call. *)
Definition listenersOf (s : State) (event : Value) : list Callback :=
  match map_get (eventListeners s) event with
  | Some l => l
  | None => []
  end.

(** What calling a list of callbacks in order amounts to: the outcome
    and the calls made, up to and including the first that throws. *)
Fixpoint notify (d : Value) (l : list Callback) : Res unit * list (nat * Value) :=
  match l with
  | [] => (Ok tt, [])
  | cb :: rest =>
      if cb_throws cb then (Throw (CallbackError (cb_id cb)), [(cb_id cb, d)])
      else (fst (notify d rest), (cb_id cb, d) :: snd (notify d rest))
  end.

(** No callback of the list throws. *)
Definition quiet (l : list Callback) : bool := forallb (fun cb => negb (cb_throws cb)) l.

(** [send] would return [true]: the connector believes it is connected
    and its current socket accepts [send]. *)
Definition sendable (s : State) : bool :=
  match connected s, ws s with
  | true, Some k =>
      match sockets s !! k with
      | Some (mkSocket CONNECTING _) => false
      | _ => true
      end
  | _, _ => false
  end.

(** Every promise a closure holds exists, a waiter sits under the key of
    its own [responseType], and the attempt counter stays within its
    bound. *)
Record Inv (s : State) : Prop := mkInv {
  inv_handlers : forall key p t r,
    messageHandlers s !! key = Some (Waiter p t r) ->
    r = key /\ p < length (promises s) /\ t < length (timers s);
  inv_timers : forall t tm st p r,
    timers s !! t = Some (tm, st) -> task tm = RequestTimeout p r ->
    p < length (promises s);
  inv_sockets : forall k sk,
    sockets s !! k = Some sk -> opener sk < length (promises s);
  inv_attempts : reconnectAttempts s <= maxReconnectAttempts
}.

(** Who can still settle promise [pid]: among the registered waiters
    only one under [key] (with timer [tid]), among the timers only
    [tid], among the sockets only [sock]; [None] stands for nobody.  No
    other waiter can clear timer [tid]. *)
Record Tracks (s : State) (pid : nat)
    (tid : option nat) (key : option string) (sock : option nat) : Prop := mkTracks {
  tr_pid : pid < length (promises s);
  tr_tid : match tid with Some t => t < length (timers s) | None => True end;
  tr_waiters : forall k p t r,
    messageHandlers s !! k = Some (Waiter p t r) ->
    p = pid \/ tid = Some t ->
    key = Some k /\ p = pid /\ tid = Some t /\ r = k;
  tr_timers : forall t tm st r,
    timers s !! t = Some (tm, st) -> task tm = RequestTimeout pid r ->
    tid = Some t;
  tr_sockets : forall k sk,
    sockets s !! k = Some sk -> opener sk = pid -> sock = Some k
}.

(** The type tag of a frame, when it parses to a message with a string
    [type]. *)
Definition typeOf (data : Frame) : option string :=
  match data with
  | Text message =>
      match prop message "type" with
      | Ok (VStr type) => Some type
      | _ => None
      end
  | Garbled _ => None
  end.

(** The events through which timer [tid], a message of type [key] or
    socket [sock] can act on a tracked promise. *)
Definition touches (tid : option nat) (key : option string) (sock : option nat)
    (e : Event) : Prop :=
  match e with
  | TimerFires t _ => tid = Some t
  | SocketMessage _ data => exists type, typeOf data = Some type /\ key = Some type
  | SocketOpen k => sock = Some k
  | _ => False
  end.

(** The delays of the reconnection timers started so far, oldest first. *)
Definition reconnectDelays (s : State) : list Z :=
  omap (fun x => match task (fst x) with
                 | ReconnectTask => Some (delay (fst x))
                 | RequestTimeout _ _ => None
                 end) (timers s).

(** [reconnectDelay * 2^(n-1)] *)
Definition backoff (n : nat) : Z := (reconnectDelay * 2 ^ (Z.of_nat n - 1))%Z.

(** No [sendMessage] timer for reply type [type] is still armed. *)
Definition noneInFlight (s : State) (type : string) : Prop :=
  forall t tm p, timers s !! t = Some (tm, Armed) -> task tm <> RequestTimeout p type.

(** The event registers something under [type] in [messageHandlers]. *)
Definition registersUnder (type : string) (e : Event) : Prop :=
  match e with
  | CallOn type' _ => type' = type
  | CallSendMessage data => responseType data = type
  | _ => False
  end.

(** The state with its console wiped. *)
Definition mute (s : State) : State := set_console [] s.

(** A frame on which the body of [handleMessage] throws before any
    dispatch, with what it throws: the frame does not parse, or parses
    to [null], which has no [type] to read. *)
Definition malformed (data : Frame) : option Thrown :=
  match data with
  | Garbled _ => Some SyntaxError
  | Text VNull => Some TypeError
  | Text _ => None
  end.

(** A page with two listeners and a handler on "tick"; the first
    listener throws. *)
Definition tick : Value := VObj [("type", VStr "tick"); ("data", VNum 7%Z)].

Definition crowded : State :=
  run [CallAddEventListener "tick" (mkCallback 1 true);
       CallAddEventListener "tick" (mkCallback 2 false);
       CallOn "tick" (mkCallback 3 false)] online.

(** The reading of the spec under which every subscriber of a type is
    called with the payload of every well-formed frame of that type,
    whatever the other subscribers do. *)
Definition subscribers_isolated : Prop :=
  forall (s : State) (k p : nat) (message : Value) (type : string) (cb : Callback),
    sockets s !! k = Some (mkSocket OPEN p) ->
    prop message "type" = Ok (VStr type) ->
    cb ∈ listenersOf s (VStr type) \/ messageHandlers s !! type = Some (UserHandler cb) ->
    (cb_id cb, payloadOf message)
      ∈ drop (length (calls s)) (calls (step (SocketMessage k (Text message)) s)).

(** The connector believes it is connected but has no socket:
    [connect] twice, [disconnect], then the first socket opens. *)
Definition limbo : State :=
  run [CallConnect false; CallConnect false; CallDisconnect; SocketOpen 0] initial.

(** The reading of the spec under which a call whose [send] returns
    false is rejected with the not-connected error without any timer
    having been started. *)
Definition failed_send_is_not_connected : Prop :=
  forall (s : State) (data : Command),
    connected s = true -> fst (send data s) = Ok false ->
    let s' := step (CallSendMessage data) s in
    promises s' !! length (promises s) = Some (Rejected (Error "Sunucuya bağlı değil"))
    /\ timers s' = timers s.

(** The server goes away: the socket closes, and each of the next five
    attempts ends in a close as well; a seventh close finds the budget
    spent. *)
Definition flaky : list Event :=
  [SocketClose 0;
   TimerFires 0 false; SocketClose 1;
   TimerFires 1 false; SocketClose 2;
   TimerFires 2 false; SocketClose 3;
   TimerFires 3 false; SocketClose 4;
   TimerFires 4 false; SocketClose 5].

(** The reading of the spec under which the close event that follows an
    explicit [disconnect] starts no reconnection. *)
Definition disconnect_is_final : Prop :=
  forall (s : State) (k p : nat),
    ws s = Some k -> sockets s !! k = Some (mkSocket OPEN p) ->
    let s1 := step CallDisconnect s in
    let s2 := step (SocketClose k) s1 in
    timers s2 = timers s1 /\ reconnectAttempts s2 = reconnectAttempts s1.

(** The reading of the spec under which no [sendMessage] call touches a
    subscription made through [on]. *)
Definition subscriptions_persist : Prop :=
  forall (s : State) (type : string) (h : Callback) (data : Command),
    messageHandlers s !! type = Some (UserHandler h) ->
    messageHandlers (step (CallSendMessage data) s) !! type = Some (UserHandler h).

(** A dashboard that listens for account replies. *)
Definition subscribed : State :=
  run [CallOn "get_account_data_response" (mkCallback 7 false)] online.

(** The event removes or replaces what [messageHandlers] holds under
    [type] in state [s]: a registration under that type, by [on] or by
    [sendMessage]; a message of that type, on which a waiter removes
    itself; or the timeout of a call with that reply type, whose
    callback deletes the entry by its name. *)
Definition unseats (s : State) (type : string) (e : Event) : Prop :=
  match e with
  | CallOn type' _ => type' = type
  | CallSendMessage data => responseType data = type
  | SocketMessage _ data => typeOf data = Some type
  | TimerFires t _ =>
      exists tm p, timers s !! t = Some (tm, Armed) /\ task tm = RequestTimeout p type
  | _ => False
  end.

(** No event of the run unseats [type], each event seen in the state it
    occurs in. *)
Fixpoint undisturbed (type : string) (events : list Event) (s : State) : Prop :=
  match events with
  | [] => True
  | e :: rest => ~ unseats s type e /\ undisturbed type rest (step e s)
  end.


(** The reading of the spec under which the first message of the reply
    type that arrives before the timer of a call fires resolves that
    call. *)
Definition reply_in_time_resolves : Prop :=
  forall (s : State) (data : Command) (events : list Event) (k p0 : nat)
         (message : Value),
    let pid := length (promises s) in
    let tid := length (timers s) in
    let T := responseType data in
    let s2 := run events (step (CallSendMessage data) s) in
    Inv s -> sendable s = true ->
    Forall (fun e => ~ touches (Some tid) (Some T) None e) events ->
    sockets s2 !! k = Some (mkSocket OPEN p0) ->
    prop message "type" = Ok (VStr T) ->
    promises (step (SocketMessage k (Text message)) s2) !! pid
    = Some (Fulfilled (payloadOf message)).

(** A listener of the account replies that throws. *)
Definition tripwire : State :=
  run [CallAddEventListener "get_account_data_response" (mkCallback 9 true)] online.

(** The dashboard of the application registers what it calls a
    permanent handler for the replies to [get_market_analysis]; the chat
    and the neural pulse ask for such an analysis through
    [sendMessage]. *)
Definition get_market_analysis : Command :=
  mkCommand "get_market_analysis" None [("symbol", VStr "EURUSD")].

Definition market_reply : Frame :=
  Text (VObj [("type", VStr "get_market_analysis_response");
              ("data", VObj [("symbol", VStr "EURUSD")])]).

Definition dashboard : State :=
  run [CallOn "get_market_analysis_response" (mkCallback 7 false)] online.

(* --------------------------------------------------------------------- *)
(** * Vocabulary of the properties beyond the claims                    *)
(* --------------------------------------------------------------------- *)

(** The last character of a string. *)
Fixpoint last_char (s : string) : option ascii :=
  match s with
  | EmptyString => None
  | String c EmptyString => Some c
  | String _ rest => last_char rest
  end.

(** Every waiter in the table is live: it sits under its own reply
    type, its promise is pending and its timer is armed.  The three
    other fields say that a promise is held by one closure only. *)
Record Live (s : State) : Prop := mkLive {
  live_inv : Inv s;
  live_waiters : forall key p t r,
    messageHandlers s !! key = Some (Waiter p t r) ->
    promises s !! p = Some Pending
    /\ exists d, timers s !! t = Some (mkTimer (RequestTimeout p r) d, Armed);
  live_timers : forall t t' tm tm' st st' p r r',
    timers s !! t = Some (tm, st) -> task tm = RequestTimeout p r ->
    timers s !! t' = Some (tm', st') -> task tm' = RequestTimeout p r' ->
    t = t';
  live_sockets : forall k sk t tm st r,
    sockets s !! k = Some sk ->
    timers s !! t = Some (tm, st) -> task tm = RequestTimeout (opener sk) r ->
    False
}.

(** The explicit rows of the table in [sendMessage], as a lookup. *)
Definition replyTable (a : string) : option string :=
  if String.eqb a "parse_strategy" then Some "strategy_parsed" else
  if String.eqb a "run_backtest" then Some "backtest_result" else
  if String.eqb a "load_template" then Some "template_loaded" else
  if String.eqb a "start_conversation" then Some "conversation_question" else
  if String.eqb a "answer_question" then Some "conversation_question" else
  if String.eqb a "generate_final_prompt" then Some "final_prompt" else
  if String.eqb a "optimize_strategy" then Some "optimization_suggestions" else
  if String.eqb a "find_confluences" then Some "confluences_found" else
  if String.eqb a "get_templates" then Some "templates_list" else
  if String.eqb a "get_strategies" then Some "strategies_list" else
  if String.eqb a "mtf_analysis" then Some "mtf_analysis_result" else
  if String.eqb a "get_recovery_plan" then Some "recovery_plan" else
  None.

(** Five reconnections have been tried; the socket of the fifth is
    still connecting. *)
Definition spent : State := run (firstn 10 flaky) online.

(** [connect] was called twice and both sockets opened: socket 1 is the
    current one, socket 0 is still open behind it. *)
Definition twoSockets : State :=
  run [CallConnect false; SocketOpen 0; CallConnect false; SocketOpen 1] initial.

(** What [send] can be handed: a command, or a value on which
    [JSON.stringify] throws a TypeError (an object that contains itself,
    a BigInt). *)
Inductive Payload : Type :=
| Plain (data : Command)
| Unserialisable.

Definition serialisable (p : Payload) : bool :=
  match p with
  | Plain _ => true
  | Unserialisable => false
  end.

Definition JSON_stringify (p : Payload) : Res Command :=
  match p with
  | Plain data => Ok data
  | Unserialisable => Throw TypeError
  end.

(** [send(data)] for any argument: [JSON.stringify(data)] is evaluated
    inside the [try], before [ws.send] is called, so what it throws is
    caught and logged like an exception of [ws.send].  On a command this
    is [send]. *)
Definition send_any (p : Payload) : M bool :=
  let* isConnected := gets connected in
  let* socket := gets ws in
  match isConnected, socket with
  | true, Some k =>
      try_catch
        (let* text := lift (JSON_stringify p) in
         ws_send k text >> ret true)
        (fun error => console_error_with "Mesaj gönderilemedi:" error >> ret false)
  | _, _ => console_error "Sunucuya bağlı değil" >> ret false
  end.

(* --------------------------------------------------------------------- *)
(** * MT5Service: the second client in src/mt5-connector.js               *)
(* --------------------------------------------------------------------- *)

(** [obj[k] = v] on an object given by its fields: the field is
    overwritten where it stands, or added at the end. *)
Fixpoint obj_set (k : string) (v : Value) (o : list (string * Value))
    : list (string * Value) :=
  match o with
  | [] => [(k, v)]
  | (k', v') :: rest =>
      if String.eqb k' k then (k, v) :: rest else (k', v') :: obj_set k v rest
  end.

(** [{...base, ...extra}]: the fields of [extra] are set one by one. *)
Definition spread (base extra : list (string * Value)) : list (string * Value) :=
  fold_left (fun o kv => obj_set (fst kv) (snd kv) o) extra base.

(** The desktop client of the local server keeps the design of
    [MT5Connector] but correlates replies by a request id carried on the
    wire, keeps a list of handlers per type, caps its backoff, and gives
    [connect] a timeout.  It is embedded the same way, on a state of its
    own. *)
Module MT5Service.

Inductive TimerTask : Type :=
| ReconnectTask
| ConnectTimeout (pid : nat)
| RequestTimeout (requestId pid : nat).

Record Timer : Type := mkTimer {
  task : TimerTask;
  delay : Z
}.

(** An entry of [pendingRequests]: [{ resolve, reject, timeoutId }],
    the two closures given by the promise they settle. *)
Record PendingRequest : Type := mkPending {
  promiseOf : nat;
  timeoutId : nat
}.

Inductive Log : Type :=
| Info (text : string)
| Reconnecting (delayMs : Z) (attempt : nat)
| Warn (text : string)
| Err (text : string)
| ErrWith (text : string) (e : Thrown).

(** The fields of the service, then the runtime as for the connector;
    [catching] lists the promises on which [attemptReconnect] hung its
    [.catch] logger. *)
Record State : Type := mkState {
  ws : option nat;
  connected : bool;
  reconnectAttempts : nat;
  handlers : gmap string (list Callback);
  eventListeners : gmap string (list Callback);
  pendingRequests : gmap nat PendingRequest;
  requestId : nat;
  sockets : list Socket;
  timers : list (Timer * TimerStatus);
  promises : list PromiseState;
  catching : list nat;
  console : list Log;
  calls : list (nat * Value);
  outbox : list (nat * list (string * Value));
  uncaught : list Thrown
}.

Definition maxReconnectAttempts : nat := 5.

(** The constructor. *)
Definition initial : State :=
  {| ws := None; connected := false; reconnectAttempts := 0;
     handlers := ∅; eventListeners := ∅; pendingRequests := ∅; requestId := 0;
     sockets := []; timers := []; promises := []; catching := [];
     console := []; calls := []; outbox := []; uncaught := [] |}.

(* Field updates. *)
Definition set_ws (x : option nat) (s : State) : State :=
  {| ws := x; connected := connected s; reconnectAttempts := reconnectAttempts s;
     handlers := handlers s; eventListeners := eventListeners s;
     pendingRequests := pendingRequests s; requestId := requestId s;
     sockets := sockets s; timers := timers s; promises := promises s;
     catching := catching s; console := console s; calls := calls s;
     outbox := outbox s; uncaught := uncaught s |}.
Definition set_connected (x : bool) (s : State) : State :=
  {| ws := ws s; connected := x; reconnectAttempts := reconnectAttempts s;
     handlers := handlers s; eventListeners := eventListeners s;
     pendingRequests := pendingRequests s; requestId := requestId s;
     sockets := sockets s; timers := timers s; promises := promises s;
     catching := catching s; console := console s; calls := calls s;
     outbox := outbox s; uncaught := uncaught s |}.
Definition set_reconnectAttempts (x : nat) (s : State) : State :=
  {| ws := ws s; connected := connected s; reconnectAttempts := x;
     handlers := handlers s; eventListeners := eventListeners s;
     pendingRequests := pendingRequests s; requestId := requestId s;
     sockets := sockets s; timers := timers s; promises := promises s;
     catching := catching s; console := console s; calls := calls s;
     outbox := outbox s; uncaught := uncaught s |}.
Definition set_handlers (x : gmap string (list Callback)) (s : State) : State :=
  {| ws := ws s; connected := connected s; reconnectAttempts := reconnectAttempts s;
     handlers := x; eventListeners := eventListeners s;
     pendingRequests := pendingRequests s; requestId := requestId s;
     sockets := sockets s; timers := timers s; promises := promises s;
     catching := catching s; console := console s; calls := calls s;
     outbox := outbox s; uncaught := uncaught s |}.
Definition set_eventListeners (x : gmap string (list Callback)) (s : State) : State :=
  {| ws := ws s; connected := connected s; reconnectAttempts := reconnectAttempts s;
     handlers := handlers s; eventListeners := x;
     pendingRequests := pendingRequests s; requestId := requestId s;
     sockets := sockets s; timers := timers s; promises := promises s;
     catching := catching s; console := console s; calls := calls s;
     outbox := outbox s; uncaught := uncaught s |}.
Definition set_pendingRequests (x : gmap nat PendingRequest) (s : State) : State :=
  {| ws := ws s; connected := connected s; reconnectAttempts := reconnectAttempts s;
     handlers := handlers s; eventListeners := eventListeners s;
     pendingRequests := x; requestId := requestId s;
     sockets := sockets s; timers := timers s; promises := promises s;
     catching := catching s; console := console s; calls := calls s;
     outbox := outbox s; uncaught := uncaught s |}.
Definition set_requestId (x : nat) (s : State) : State :=
  {| ws := ws s; connected := connected s; reconnectAttempts := reconnectAttempts s;
     handlers := handlers s; eventListeners := eventListeners s;
     pendingRequests := pendingRequests s; requestId := x;
     sockets := sockets s; timers := timers s; promises := promises s;
     catching := catching s; console := console s; calls := calls s;
     outbox := outbox s; uncaught := uncaught s |}.
Definition set_sockets (x : list Socket) (s : State) : State :=
  {| ws := ws s; connected := connected s; reconnectAttempts := reconnectAttempts s;
     handlers := handlers s; eventListeners := eventListeners s;
     pendingRequests := pendingRequests s; requestId := requestId s;
     sockets := x; timers := timers s; promises := promises s;
     catching := catching s; console := console s; calls := calls s;
     outbox := outbox s; uncaught := uncaught s |}.
Definition set_timers (x : list (Timer * TimerStatus)) (s : State) : State :=
  {| ws := ws s; connected := connected s; reconnectAttempts := reconnectAttempts s;
     handlers := handlers s; eventListeners := eventListeners s;
     pendingRequests := pendingRequests s; requestId := requestId s;
     sockets := sockets s; timers := x; promises := promises s;
     catching := catching s; console := console s; calls := calls s;
     outbox := outbox s; uncaught := uncaught s |}.
Definition set_promises (x : list PromiseState) (s : State) : State :=
  {| ws := ws s; connected := connected s; reconnectAttempts := reconnectAttempts s;
     handlers := handlers s; eventListeners := eventListeners s;
     pendingRequests := pendingRequests s; requestId := requestId s;
     sockets := sockets s; timers := timers s; promises := x;
     catching := catching s; console := console s; calls := calls s;
     outbox := outbox s; uncaught := uncaught s |}.
Definition set_catching (x : list nat) (s : State) : State :=
  {| ws := ws s; connected := connected s; reconnectAttempts := reconnectAttempts s;
     handlers := handlers s; eventListeners := eventListeners s;
     pendingRequests := pendingRequests s; requestId := requestId s;
     sockets := sockets s; timers := timers s; promises := promises s;
     catching := x; console := console s; calls := calls s;
     outbox := outbox s; uncaught := uncaught s |}.
Definition set_console (x : list Log) (s : State) : State :=
  {| ws := ws s; connected := connected s; reconnectAttempts := reconnectAttempts s;
     handlers := handlers s; eventListeners := eventListeners s;
     pendingRequests := pendingRequests s; requestId := requestId s;
     sockets := sockets s; timers := timers s; promises := promises s;
     catching := catching s; console := x; calls := calls s;
     outbox := outbox s; uncaught := uncaught s |}.
Definition set_calls (x : list (nat * Value)) (s : State) : State :=
  {| ws := ws s; connected := connected s; reconnectAttempts := reconnectAttempts s;
     handlers := handlers s; eventListeners := eventListeners s;
     pendingRequests := pendingRequests s; requestId := requestId s;
     sockets := sockets s; timers := timers s; promises := promises s;
     catching := catching s; console := console s; calls := x;
     outbox := outbox s; uncaught := uncaught s |}.
Definition set_outbox (x : list (nat * list (string * Value))) (s : State) : State :=
  {| ws := ws s; connected := connected s; reconnectAttempts := reconnectAttempts s;
     handlers := handlers s; eventListeners := eventListeners s;
     pendingRequests := pendingRequests s; requestId := requestId s;
     sockets := sockets s; timers := timers s; promises := promises s;
     catching := catching s; console := console s; calls := calls s;
     outbox := x; uncaught := uncaught s |}.
Definition set_uncaught (x : list Thrown) (s : State) : State :=
  {| ws := ws s; connected := connected s; reconnectAttempts := reconnectAttempts s;
     handlers := handlers s; eventListeners := eventListeners s;
     pendingRequests := pendingRequests s; requestId := requestId s;
     sockets := sockets s; timers := timers s; promises := promises s;
     catching := catching s; console := console s; calls := calls s;
     outbox := outbox s; uncaught := x |}.

(* Computations on the state of the service. *)
Definition M (A : Type) : Type := State -> Res A * State.

Definition ret {A} (a : A) : M A := fun s => (Ok a, s).
Definition bind {A B} (c : M A) (k : A -> M B) : M B :=
  fun s => match c s with
           | (Ok a, s') => k a s'
           | (Throw e, s') => (Throw e, s')
           end.
Definition throw {A} (e : Thrown) : M A := fun s => (Throw e, s).
Definition try_catch {A} (body : M A) (handler : Thrown -> M A) : M A :=
  fun s => match body s with
           | (Ok a, s') => (Ok a, s')
           | (Throw e, s') => handler e s'
           end.
Definition lift {A} (r : Res A) : M A := fun s => (r, s).
Definition gets {A} (f : State -> A) : M A := fun s => (Ok (f s), s).
Definition modify (f : State -> State) : M unit := fun s => (Ok tt, f s).

#[local] Set Warnings "-notation-overridden".
Notation "'let*' x ':=' c 'in' k" := (bind c (fun x => k))
  (at level 10, x name, c at level 100, k at level 200).
Notation "c1 '>>' c2" := (bind c1 (fun _ => c2))
  (at level 100, c2 at level 200, right associativity).

Definition run_handler (c : M unit) (s : State) : State :=
  match c s with
  | (Ok _, s') => s'
  | (Throw e, s') => set_uncaught (uncaught s' ++ [e]) s'
  end.

Definition log (entry : Log) : M unit :=
  modify (fun s => set_console (console s ++ [entry]) s).

Definition new_promise : M nat :=
  fun s => (Ok (length (promises s)), set_promises (promises s ++ [Pending]) s).

Definition resolve (pid : nat) (v : Value) : M unit :=
  modify (fun s =>
    match promises s !! pid with
    | Some Pending => set_promises (<[pid := Fulfilled v]> (promises s)) s
    | _ => s
    end).

(** [reject]; a promise returned to [attemptReconnect] logs its
    rejection through the [.catch] hung on it. *)
Definition reject (pid : nat) (e : Thrown) : M unit :=
  modify (fun s =>
    match promises s !! pid with
    | Some Pending =>
        let s' := set_promises (<[pid := Rejected e]> (promises s)) s in
        if existsb (Nat.eqb pid) (catching s)
        then set_console (console s' ++ [ErrWith "[MT5Service] Reconnect failed:" e]) s'
        else s'
    | _ => s
    end).

Definition setTimeout (t : TimerTask) (ms : Z) : M nat :=
  fun s => (Ok (length (timers s)),
            set_timers (timers s ++ [(mkTimer t ms, Armed)]) s).

Definition clearTimeout (tid : nat) : M unit :=
  modify (fun s =>
    match timers s !! tid with
    | Some (t, Armed) => set_timers (<[tid := (t, Cleared)]> (timers s)) s
    | _ => s
    end).

Definition new_WebSocket (ctorThrows : bool) (pid : nat) : M nat :=
  if ctorThrows then throw ConstructError
  else fun s => (Ok (length (sockets s)),
                 set_sockets (sockets s ++ [mkSocket CONNECTING pid]) s).

Definition ws_close (k : nat) : M unit :=
  modify (fun s =>
    match sockets s !! k with
    | Some (mkSocket CONNECTING p) | Some (mkSocket OPEN p) =>
        set_sockets (<[k := mkSocket CLOSING p]> (sockets s)) s
    | _ => s
    end).

Definition ws_send (k : nat) (frame : list (string * Value)) : M unit :=
  fun s =>
    match sockets s !! k with
    | Some (mkSocket CONNECTING _) => (Throw InvalidStateError, s)
    | Some (mkSocket OPEN _) => (Ok tt, set_outbox (outbox s ++ [(k, frame)]) s)
    | _ => (Ok tt, s)
    end.

Definition invoke (cb : Callback) (arg : Value) : M unit :=
  modify (fun s => set_calls (calls s ++ [(cb_id cb, arg)]) s) >>
  if cb_throws cb then throw (CallbackError (cb_id cb)) else ret tt.

Fixpoint forEach {A} (f : A -> M unit) (l : list A) : M unit :=
  match l with
  | [] => ret tt
  | x :: rest => f x >> forEach f rest
  end.

(** The key of [pendingRequests] that is the same value as [v]: ids are
    the numbers 1, 2, ... *)
Definition pending_key (v : Value) : option nat :=
  match v with
  | VNum n => if (0 <? n)%Z then Some (Z.to_nat n) else None
  | _ => None
  end.

(** [emit(event, data = null)] *)
Definition emit (event : string) (data : Value) : M unit :=
  let* listeners := gets (fun s => eventListeners s !! event) in
  match listeners with
  | Some callbacks => forEach (fun callback => invoke callback data) callbacks
  | None => ret tt
  end.

(** [on(type, handler)] *)
Definition on (type : string) (handler : Callback) : M unit :=
  modify (fun s =>
    let existing := match handlers s !! type with
                    | Some l => l
                    | None => []
                    end in
    set_handlers (<[type := existing ++ [handler]]> (handlers s)) s).

(** [addEventListener(event, callback)] *)
Definition addEventListener (event : string) (callback : Callback) : M unit :=
  modify (fun s =>
    let existing := match eventListeners s !! event with
                    | Some l => l
                    | None => []
                    end in
    set_eventListeners (<[event := existing ++ [callback]]> (eventListeners s)) s).

(** [send(action, data = {})]; [ws.send] is not guarded here. *)
Definition send (action : string) (data : list (string * Value)) : M bool :=
  let* isConnected := gets connected in
  let* socket := gets ws in
  match isConnected, socket with
  | true, Some k =>
      ws_send k (spread [("action", VStr action)] data) >>
      ret true
  | _, _ => log (Warn "[MT5Service] Not connected") >> ret false
  end.

(** The callback [sendAndWait] hands to [setTimeout]. *)
Definition request_timeout (requestId pid : nat) : M unit :=
  modify (fun s => set_pendingRequests (delete requestId (pendingRequests s)) s) >>
  reject pid (Error "Request timeout").

(** [sendAndWait(action, data = {}, timeout = 30000)]: an exception in
    the executor rejects the promise.  The result is the id of the
    promise. *)
Definition sendAndWait (action : string) (data : list (string * Value)) (timeout : Z)
    : M nat :=
  let* pid := new_promise in
  try_catch
    (modify (fun s => set_requestId (S (requestId s)) s) >>
     let* requestId := gets requestId in
     let* timeoutId := setTimeout (RequestTimeout requestId pid) timeout in
     modify (fun s =>
       set_pendingRequests
         (<[requestId := mkPending pid timeoutId]> (pendingRequests s)) s) >>
     let* _ := send action
                 (obj_set "request_id" (VNum (Z.of_nat requestId)) (spread [] data)) in
     ret tt)
    (fun error => reject pid error) >>
  ret pid.

(** [handleMessage(rawData)] *)
Definition handleMessage (rawData : Frame) : M unit :=
  try_catch
    (let* data := lift (JSON_parse rawData) in
     let* request_id := lift (prop data "request_id") in
     let* pending :=
       gets (fun s =>
         if truthy request_id then
           match pending_key request_id with
           | Some key => pendingRequests s !! key
           | None => None
           end
         else None) in
     match pending with
     | Some (mkPending pid timeoutId) =>
         clearTimeout timeoutId >>
         modify (fun s =>
           match pending_key request_id with
           | Some key => set_pendingRequests (delete key (pendingRequests s)) s
           | None => s
           end) >>
         resolve pid data
     | None =>
         let* type := lift (prop data "type") in
         let* registered :=
           gets (fun s => if truthy type then map_get (handlers s) type else None) in
         match registered with
         | Some hs => forEach (fun handler => invoke handler data) hs
         | None => ret tt
         end >>
         emit "message" data
     end)
    (fun error => log (ErrWith "[MT5Service] Message parse error:" error)).

(** [attemptReconnect()] *)
Definition attemptReconnect : M unit :=
  let* attempts := gets reconnectAttempts in
  if (maxReconnectAttempts <=? attempts)%nat then
    log (Err "[MT5Service] Max reconnect attempts reached")
  else
    modify (set_reconnectAttempts (S attempts)) >>
    let* attempts := gets reconnectAttempts in
    let delay := Z.min (1000 * 2 ^ Z.of_nat attempts) 30000 in
    log (Reconnecting delay attempts) >>
    let* _ := setTimeout ReconnectTask delay in
    ret tt.

(** [connect()]; the result is the id of the promise. *)
Definition connect (ctorThrows : bool) : M nat :=
  let* pid := new_promise in
  try_catch
    (let* k := new_WebSocket ctorThrows pid in
     modify (set_ws (Some k)) >>
     let* _ := setTimeout (ConnectTimeout pid) 10000 in
     ret tt)
    (fun error => reject pid error) >>
  ret pid.

(** The callback [connect] hands to [setTimeout]. *)
Definition connect_timeout (pid : nat) : M unit :=
  let* isConnected := gets connected in
  if negb isConnected then reject pid (Error "Connection timeout") else ret tt.

Definition onopen (pid : nat) : M unit :=
  modify (set_connected true) >>
  modify (set_reconnectAttempts 0) >>
  log (Info "[MT5Service] Connected to local server") >>
  emit "connected" VNull >>
  resolve pid VUndefined.

Definition onmessage (data : Frame) : M unit := handleMessage data.

Definition onerror (error : Value) : M unit :=
  log (Err "[MT5Service] WebSocket error:") >>
  emit "error" error.

Definition onclose : M unit :=
  modify (set_connected false) >>
  log (Info "[MT5Service] Connection closed") >>
  emit "disconnected" VNull >>
  attemptReconnect.

(** [disconnect()] *)
Definition disconnect : M unit :=
  let* socket := gets ws in
  match socket with
  | Some k =>
      ws_close k >>
      modify (set_ws None) >>
      modify (set_connected false)
  | None => ret tt
  end.

(** The callback [attemptReconnect] hands to [setTimeout]:
    [this.connect().catch(err => console.error(...))]. *)
Definition reconnect_callback (ctorThrows : bool) : M unit :=
  let* pid := connect ctorThrows in
  modify (fun s => set_catching (pid :: catching s) s) >>
  let* outcome := gets (fun s => promises s !! pid) in
  match outcome with
  | Some (Rejected err) => log (ErrWith "[MT5Service] Reconnect failed:" err)
  | _ => ret tt
  end.

(* The API methods. *)
Definition getAccountData : M nat := sendAndWait "get_account_data" [] 30000.
Definition getMarketAnalysis (symbol : Value) : M nat :=
  sendAndWait "get_market_analysis" [("symbol", symbol)] 30000.
Definition runBacktest (params : list (string * Value)) : M nat :=
  sendAndWait "run_backtest" params 120000.
Definition startLiveTrading (params : list (string * Value)) : M nat :=
  sendAndWait "start_live_trading" params 30000.
Definition stopLiveTrading : M nat := sendAndWait "stop_live_trading" [] 30000.
Definition isConnected : M bool := gets connected.

(** The events of the loop, as for the connector. *)
Inductive Event : Type :=
| CallConnect (ctorThrows : bool)
| CallDisconnect
| CallSend (action : string) (data : list (string * Value))
| CallSendAndWait (action : string) (data : list (string * Value)) (timeout : Z)
| CallOn (type : string) (handler : Callback)
| CallAddEventListener (event : string) (callback : Callback)
| SocketOpen (k : nat)
| SocketMessage (k : nat) (data : Frame)
| SocketError (k : nat)
| SocketClose (k : nat)
| TimerFires (tid : nat) (ctorThrows : bool).

Definition set_readyState (k : nat) (r : ReadyState) (s : State) : State :=
  match sockets s !! k with
  | Some sk => set_sockets (<[k := mkSocket r (opener sk)]> (sockets s)) s
  | None => s
  end.

Definition timer_callback (t : TimerTask) (ctorThrows : bool) : M unit :=
  match t with
  | ReconnectTask => reconnect_callback ctorThrows
  | ConnectTimeout pid => connect_timeout pid
  | RequestTimeout requestId pid => request_timeout requestId pid
  end.

Definition step (e : Event) (s : State) : State :=
  match e with
  | CallConnect ctorThrows => run_handler (connect ctorThrows >> ret tt) s
  | CallDisconnect => run_handler disconnect s
  | CallSend action data => run_handler (send action data >> ret tt) s
  | CallSendAndWait action data timeout =>
      run_handler (sendAndWait action data timeout >> ret tt) s
  | CallOn type handler => run_handler (on type handler) s
  | CallAddEventListener event callback =>
      run_handler (addEventListener event callback) s
  | SocketOpen k =>
      match sockets s !! k with
      | Some (mkSocket CONNECTING pid) =>
          run_handler (onopen pid) (set_readyState k OPEN s)
      | _ => s
      end
  | SocketMessage k data =>
      match sockets s !! k with
      | Some (mkSocket OPEN _) => run_handler (onmessage data) s
      | _ => s
      end
  | SocketError k =>
      match sockets s !! k with
      | None | Some (mkSocket CLOSED _) => s
      | Some _ => run_handler (onerror VEvent) s
      end
  | SocketClose k =>
      match sockets s !! k with
      | None | Some (mkSocket CLOSED _) => s
      | Some _ => run_handler onclose (set_readyState k CLOSED s)
      end
  | TimerFires tid ctorThrows =>
      match timers s !! tid with
      | Some (t, Armed) =>
          run_handler (timer_callback (task t) ctorThrows)
                      (set_timers (<[tid := (t, Fired)]> (timers s)) s)
      | _ => s
      end
  end.

Definition run (events : list Event) (s : State) : State :=
  fold_left (fun acc e => step e acc) events s.

(* Scenarios. *)

(** Connected through socket 0. *)
Definition online : State := run [CallConnect false; SocketOpen 0] initial.

Definition tick : Value := VObj [("type", VStr "tick"); ("bid", VNum 1%Z)].

(** Two handlers of 'tick' and a listener of 'message'. *)
Definition subscribed : State :=
  run [CallOn "tick" (mkCallback 1 false); CallOn "tick" (mkCallback 2 false);
       CallAddEventListener "message" (mkCallback 3 false)] online.

(** The second of three handlers of 'tick' throws. *)
Definition faulty : State :=
  run [CallOn "tick" (mkCallback 1 false); CallOn "tick" (mkCallback 2 true);
       CallOn "tick" (mkCallback 3 false);
       CallAddEventListener "message" (mkCallback 4 false)] online.

(** A listener of 'disconnected' that throws. *)
Definition guarded : State :=
  run [CallAddEventListener "disconnected" (mkCallback 5 true)] online.

(** [connect] was called twice and the first socket opened: the service
    counts as connected while its current socket is still CONNECTING. *)
Definition halfOpen : State :=
  run [CallConnect false; CallConnect false; SocketOpen 0] initial.


(* Vocabulary of the properties of the service. *)

(** The handlers [handleMessage] would call for a message of [type], and
    the callbacks [emit(event, _)] would call. *)
Definition handlersOf (s : State) (type : string) : list Callback :=
  match handlers s !! type with
  | Some l => l
  | None => []
  end.

Definition listenersOf (s : State) (event : string) : list Callback :=
  match eventListeners s !! event with
  | Some l => l
  | None => []
  end.

(** [send] would reach [ws.send] on a socket that is still CONNECTING,
    which throws. *)
Definition send_throws (s : State) : bool :=
  match connected s, ws s with
  | true, Some k =>
      match sockets s !! k with
      | Some (mkSocket CONNECTING _) => true
      | _ => false
      end
  | _, _ => false
  end.

(** The request an inbound frame answers, if it names one. *)
Definition requestIdOf (data : Frame) : option nat :=
  match data with
  | Text message =>
      match prop message "request_id" with
      | Ok v => pending_key v
      | Throw _ => None
      end
  | Garbled _ => None
  end.

(** The events through which request [id], with timer [tid], is
    answered or expires. *)
Definition touches (id tid : nat) (e : Event) : Prop :=
  match e with
  | SocketMessage _ data => requestIdOf data = Some id
  | TimerFires t _ => t = tid
  | _ => False
  end.

(** Request [id] is waiting: it is in the table, its promise is pending
    and its timer is armed. *)
Definition Waiting (s : State) (id pid tid : nat) (d : Z) : Prop :=
  pendingRequests s !! id = Some (mkPending pid tid)
  /\ promises s !! pid = Some Pending
  /\ timers s !! tid = Some (mkTimer (RequestTimeout id pid) d, Armed).

(** What the closures of the service hold on to.  An entry of
    [pendingRequests] has its own timer, still armed, and a promise that
    nothing else settled; request timers, connect timers and sockets
    own different promises; ids and promises exist. *)
Record Sound (s : State) : Prop := mkSound {
  sound_entry_timer : forall id pr,
    pendingRequests s !! id = Some pr ->
    exists d, timers s !! timeoutId pr
              = Some (mkTimer (RequestTimeout id (promiseOf pr)) d, Armed);
  sound_entry_promise : forall id pr,
    pendingRequests s !! id = Some pr ->
    promises s !! promiseOf pr = Some Pending
    \/ promises s !! promiseOf pr = Some (Rejected InvalidStateError);
  sound_timer : forall t tm st id pid,
    timers s !! t = Some (tm, st) -> task tm = RequestTimeout id pid ->
    1 <= id <= requestId s /\ pid < length (promises s);
  sound_owner : forall t t' tm tm' st st' id id' pid pid',
    timers s !! t = Some (tm, st) -> task tm = RequestTimeout id pid ->
    timers s !! t' = Some (tm', st') -> task tm' = RequestTimeout id' pid' ->
    id = id' \/ pid = pid' -> t = t';
  sound_connect : forall t tm st pid,
    timers s !! t = Some (tm, st) -> task tm = ConnectTimeout pid ->
    pid < length (promises s);
  sound_connect_apart : forall t tm st pid t' tm' st' id,
    timers s !! t = Some (tm, st) -> task tm = ConnectTimeout pid ->
    timers s !! t' = Some (tm', st') -> task tm' = RequestTimeout id pid -> False;
  sound_socket : forall k sk,
    sockets s !! k = Some sk -> opener sk < length (promises s);
  sound_socket_apart : forall k sk t tm st id,
    sockets s !! k = Some sk ->
    timers s !! t = Some (tm, st) -> task tm = RequestTimeout id (opener sk) -> False;
  sound_attempts : reconnectAttempts s <= maxReconnectAttempts
}.

(** The delay before reconnection attempt [n]. *)
Definition backoff (n : nat) : Z := Z.min (1000 * 2 ^ Z.of_nat n) 30000.

End MT5Service.

(* --------------------------------------------------------------------- *)
(** * The scenarios, run                                                  *)
(* --------------------------------------------------------------------- *)

Example online_connected : connected online = true /\ ws online = Some 0.
Proof. split; reflexivity. Qed.

Example limbo_connected_without_socket : connected limbo = true /\ ws limbo = None.
Proof. split; reflexivity. Qed.

Example backtest_timeout :
  timeoutOf (mkCommand "run_backtest" None []) = 300000%Z
  /\ timeoutOf (mkCommand "run_backtest" (Some 5000%Z) []) = 5000%Z
  /\ timeoutOf (mkCommand "get_portfolio" (Some 0%Z) []) = 60000%Z.
Proof. repeat split. Qed.

Example fallback_reply_type :
  responseType (mkCommand "get_portfolio" None []) = "get_portfolio_response"
  /\ responseType (mkCommand "answer_question" None []) = "conversation_question".
Proof. split; reflexivity. Qed.

(* --------------------------------------------------------------------- *)
(** * How the building blocks act on the state                            *)
(* --------------------------------------------------------------------- *)

Lemma set_calls_same (s : State) : set_calls (calls s ++ []) s = s.
Proof. destruct s; unfold set_calls; simpl. by rewrite app_nil_r. Qed.

Lemma forEach_invoke (d : Value) (l : list Callback) (s : State) :
  forEach (fun cb => invoke cb d) l s
  = (fst (notify d l), set_calls (calls s ++ snd (notify d l)) s).
Proof.
  revert s. induction l as [|cb l IH]; intros s; simpl.
  - unfold ret. by rewrite set_calls_same.
  - unfold bind at 1, invoke at 1, bind, modify.
    destruct (cb_throws cb); simpl; [reflexivity|].
    unfold ret. rewrite IH. unfold set_calls; simpl.
    by rewrite <- app_assoc.
Qed.

Lemma emit_notify (event d : Value) (s : State) :
  emit event d s
  = (fst (notify d (listenersOf s event)),
     set_calls (calls s ++ snd (notify d (listenersOf s event))) s).
Proof.
  unfold emit, listenersOf, bind, gets.
  destruct (map_get (eventListeners s) event); [apply forEach_invoke|].
  unfold ret; simpl. by rewrite set_calls_same.
Qed.

Lemma emit_calls (event d : Value) (s : State) :
  exists r cs, emit event d s = (r, set_calls cs s).
Proof. rewrite emit_notify. eauto. Qed.

Lemma notify_quiet (d : Value) (l : list Callback) :
  quiet l = true ->
  notify d l = (Ok tt, map (fun cb => (cb_id cb, d)) l).
Proof.
  induction l as [|cb l IH]; simpl; [done|].
  intros [Hcb Hl]%andb_prop. destruct (cb_throws cb); [done|].
  by rewrite (IH Hl).
Qed.

Lemma notify_thrower (d : Value) (pre post : list Callback) (cb : Callback) :
  quiet pre = true -> cb_throws cb = true ->
  notify d (pre ++ cb :: post)
  = (Throw (CallbackError (cb_id cb)),
     map (fun c => (cb_id c, d)) (pre ++ [cb])).
Proof.
  intros Hpre Hcb. induction pre as [|c pre IH]; simpl.
  - by rewrite Hcb.
  - simpl in Hpre. apply andb_prop in Hpre as [Hc Hpre].
    destruct (cb_throws c); [done|]. by rewrite (IH Hpre).
Qed.

Lemma set_console_same (s : State) : set_console (console s) s = s.
Proof. by destruct s. Qed.

Lemma set_outbox_same (s : State) : set_outbox (outbox s) s = s.
Proof. by destruct s. Qed.

Lemma send_sendable (data : Command) (s : State) :
  sendable s = true ->
  exists o, send data s = (Ok true, set_outbox o s).
Proof.
  unfold sendable, send, bind, gets, try_catch, ws_send, ret.
  destruct (connected s); [|done]. destruct (ws s) as [k|]; [|done].
  destruct (sockets s !! k) as [[[] p]|]; try done; intros _; simpl.
  - eauto.
  - exists (outbox s). by rewrite set_outbox_same.
  - exists (outbox s). by rewrite set_outbox_same.
  - exists (outbox s). by rewrite set_outbox_same.
Qed.

Lemma send_unsendable (data : Command) (s : State) :
  sendable s = false ->
  exists c, send data s = (Ok false, set_console c s).
Proof.
  unfold sendable, send, bind, gets, try_catch, ws_send, ret,
    console_error, console_error_with, modify.
  destruct (connected s); [|eauto]. destruct (ws s) as [k|]; [|eauto].
  destruct (sockets s !! k) as [[[] p]|]; try done; intros _; simpl. eauto.
Qed.

Lemma send_effect (data : Command) (s : State) :
  exists b c o, send data s = (Ok b, set_outbox o (set_console c s)).
Proof.
  destruct (sendable s) eqn:E.
  - destruct (send_sendable data s E) as [o ->].
    exists true, (console s), o. by rewrite set_console_same.
  - destruct (send_unsendable data s E) as [c ->].
    exists false, c, (outbox (set_console c s)). by rewrite set_outbox_same.
Qed.

(** Symbolic execution of one turn of the loop.  [emit] and [send] are
    replaced by what the lemmas above say of them; every other method
    is unfolded, and each test it makes on the state is split, innermost
    first. *)
Ltac emit_out :=
  match goal with
  | |- context [emit ?ev ?d ?s] =>
      let r := fresh "r" in let cs := fresh "cs" in let E := fresh "E" in
      destruct (emit_calls ev d s) as (r & cs & E); rewrite E; clear E; destruct r
  end.

Ltac send_out :=
  match goal with
  | |- context [send ?d ?s] =>
      let b := fresh "sent" in let c := fresh "c" in let o := fresh "o" in
      let E := fresh "E" in
      destruct (send_effect d s) as (b & c & o & E); rewrite E; clear E; destruct b
  end.

Ltac open_methods :=
  unfold step, run_handler, set_readyState, timer_callback, reconnect_callback,
    timeout_callback, sendMessage, connect, disconnect, onopen, onmessage, onerror,
    onclose, attemptReconnect, handleMessage, call_handler, invoke, on, addEventListener,
    messageHandlers_delete, resolve, reject, settle, setTimeout, clearTimeout,
    new_promise, new_WebSocket, ws_close,
    console_log, console_error, console_error_with, showError,
    try_catch, lift, gets, modify, bind, ret, throw in *.

Ltac inner_case :=
  match goal with
  | |- context [match ?x with _ => _ end] =>
      lazymatch x with
      | context [match _ with _ => _ end] => fail
      | _ => destruct x eqn:?
      end
  end.

Ltac symbolic_step :=
  open_methods; simpl;
  repeat (first [ emit_out | send_out | inner_case ]; simpl in *; simplify_eq; simpl in * ).

(** Lookups in a list or map that has just been extended or updated,
    turned into lookups in the one before. *)
Ltac invert_lookups :=
  repeat match goal with
  | H : (_ ++ [_])%list !! _ = Some _ |- _ =>
      apply lookup_snoc_Some in H as [[? H]|[? ?]]; simplify_eq; simpl in *
  | H : <[_:=_]> _ !! _ = Some _ |- _ =>
      first
        [ apply list_lookup_insert_Some in H as [(? & ? & ?)|[? H]]
        | apply lookup_insert_Some in H as [[? ?]|[? H]] ];
      simplify_eq; simpl in *
  | H : delete _ _ !! _ = Some _ |- _ =>
      apply lookup_delete_Some in H as [? H]; simplify_eq; simpl in *
  end.

(* --------------------------------------------------------------------- *)
(** * Invariants of the loop                                            *)
(* --------------------------------------------------------------------- *)

Ltac use_inv Hh Ht Hs :=
  repeat match goal with
  | H : messageHandlers _ !! _ = Some (Waiter _ _ _) |- _ =>
      pose proof (Hh _ _ _ _ H); clear H
  | H : timers _ !! _ = Some _ , H' : task _ = RequestTimeout _ _ |- _ =>
      pose proof (Ht _ _ _ _ _ H H'); clear H'
  | H : sockets _ !! _ = Some _ |- _ => pose proof (Hs _ _ H); clear H
  end.

Ltac by_invariant :=
  unfold maxReconnectAttempts in *; simpl in *;
  repeat match goal with H : _ /\ _ |- _ => destruct H end;
  simplify_eq; simpl in *;
  subst; repeat split; rewrite ?length_insert, ?length_app; simpl;
  first [ done | lia | eauto ].

Lemma Inv_step (e : Event) (s : State) : Inv s -> Inv (step e s).
Proof.
  intros [Hh Ht Hs Ha]. destruct e; symbolic_step.
  all: try (by constructor).
  all: constructor; simpl; intros; invert_lookups.
  all: try (unfold maxReconnectAttempts in *; simpl in *; lia).
  all: use_inv Hh Ht Hs.
  all: by_invariant.
Qed.

Lemma Inv_run (events : list Event) (s : State) : Inv s -> Inv (run events s).
Proof.
  revert s. induction events as [|e events IH]; intros s H; simpl; [done|].
  apply IH, Inv_step, H.
Qed.

Lemma Inv_initial : Inv initial.
Proof. constructor; simpl; intros; try done. unfold maxReconnectAttempts; lia. Qed.

(** The invariant holds in every state the loop can reach. *)
Corollary Inv_reachable (events : list Event) : Inv (run events initial).
Proof. apply Inv_run, Inv_initial. Qed.

Ltac by_freshness :=
  repeat match goal with H : _ \/ _ |- _ => destruct H end;
  simplify_eq; simpl in *;
  first [ lia | exfalso; lia | done | eauto ].

Lemma Tracks_step (e : Event) (s : State) pid tid key sock :
  Tracks s pid tid key sock -> Tracks (step e s) pid tid key sock.
Proof.
  intros [Hp Ht Hw Htm Hs]. destruct tid as [tid|]; destruct e; symbolic_step.
  all: try (by constructor).
  all: constructor; simpl; intros; invert_lookups.
  all: rewrite ?length_insert, ?length_app; simpl.
  all: try lia.
  all: eauto.
  all: by_freshness.
Qed.

Lemma typeOf_parsed (data : Frame) (message : Value) (type : string) :
  JSON_parse data = Ok message -> prop message "type" = Ok (VStr type) ->
  typeOf data = Some type.
Proof. destruct data; simpl; [done|]. intros [= ->] H. by rewrite H. Qed.

Lemma map_get_Some {V} (m : gmap string V) (key : Value) (v : V) :
  map_get m key = Some v -> exists k, key = VStr k /\ m !! k = Some v.
Proof. destruct key; simpl; try done. eauto. Qed.

Lemma pending_step (e : Event) (s : State) pid tid key sock :
  promises s !! pid = Some Pending ->
  Tracks s pid tid key sock ->
  ~ touches tid key sock e ->
  promises (step e s) !! pid = Some Pending.
Proof.
  intros Hpid [Hp Ht Hw Htm Hs] Hno. pose proof (lookup_lt_Some _ _ _ Hpid).
  destruct e; symbolic_step.
  all: try done.
  all: try (by apply lookup_app_l_Some).
  all: try (rewrite list_lookup_insert_ne by lia; by apply lookup_app_l_Some).
  all: rewrite list_lookup_insert_ne; [done|]; intros ->; apply Hno.
  all: try (by eapply Hs; eauto).
  all: try (by eapply Htm; eauto).
  all: match goal with
       | Hg : map_get _ _ = Some _ |- _ =>
           apply map_get_Some in Hg as (k' & -> & Hk)
       end.
  all: destruct (Hw _ _ _ _ Hk (or_introl eq_refl)) as (-> & _).
  all: exists k'; split; [|done]; by eapply typeOf_parsed.
Qed.

Lemma armed_step (e : Event) (s : State) pid tid key sock (tm : Timer) :
  timers s !! tid = Some (tm, Armed) ->
  Tracks s pid (Some tid) key sock ->
  ~ touches (Some tid) key sock e ->
  timers (step e s) !! tid = Some (tm, Armed).
Proof.
  intros Htid [Hp Ht Hw Htm Hs] Hno. pose proof (lookup_lt_Some _ _ _ Htid).
  destruct e; symbolic_step.
  all: try done.
  all: try (by apply lookup_app_l_Some).
  all: try (rewrite list_lookup_insert_ne by lia; by apply lookup_app_l_Some).
  all: try (rewrite lookup_app_l by (rewrite length_insert; lia)).
  all: rewrite list_lookup_insert_ne; [done|]; intros ->.
  all: try (by apply Hno).
  all: apply Hno.
  all: match goal with
       | Hg : map_get _ _ = Some _ |- _ =>
           apply map_get_Some in Hg as (k' & -> & Hk)
       end.
  all: destruct (Hw _ _ _ _ Hk (or_intror eq_refl)) as (-> & _).
  all: exists k'; split; [|done]; by eapply typeOf_parsed.
Qed.

Lemma settled_step (e : Event) (s : State) (p : nat) (st : PromiseState) :
  promises s !! p = Some st -> st <> Pending ->
  promises (step e s) !! p = Some st.
Proof.
  intros Hp Hst. pose proof (lookup_lt_Some _ _ _ Hp).
  destruct e; symbolic_step.
  all: try done.
  all: try (by apply lookup_app_l_Some).
  all: try (rewrite list_lookup_insert_ne by lia; by apply lookup_app_l_Some).
  all: rewrite list_lookup_insert_ne; [done|]; intros ->; congruence.
Qed.

Lemma disarmed_step (e : Event) (s : State) (t : nat) (tm : Timer) (st : TimerStatus) :
  timers s !! t = Some (tm, st) -> st <> Armed ->
  timers (step e s) !! t = Some (tm, st).
Proof.
  intros Ht Hst. pose proof (lookup_lt_Some _ _ _ Ht).
  destruct e; symbolic_step.
  all: try done.
  all: try (by apply lookup_app_l_Some).
  all: try (rewrite list_lookup_insert_ne by lia; by apply lookup_app_l_Some).
  all: try (rewrite lookup_app_l by (rewrite length_insert; lia)).
  all: rewrite list_lookup_insert_ne; [done|]; intros ->; congruence.
Qed.

Lemma settled_run (events : list Event) (s : State) (p : nat) (st : PromiseState) :
  promises s !! p = Some st -> st <> Pending ->
  promises (run events s) !! p = Some st.
Proof.
  revert s. induction events as [|e events IH]; intros s Hp Hst; simpl; [done|].
  apply IH; [|done]. by apply settled_step.
Qed.

Lemma disarmed_run (events : list Event) (s : State) (t : nat) (tm : Timer)
    (st : TimerStatus) :
  timers s !! t = Some (tm, st) -> st <> Armed ->
  timers (run events s) !! t = Some (tm, st).
Proof.
  revert s. induction events as [|e events IH]; intros s Hp Hst; simpl; [done|].
  apply IH; [|done]. by apply disarmed_step.
Qed.


Lemma pending_run (events : list Event) (s : State) pid tid key sock :
  promises s !! pid = Some Pending ->
  Tracks s pid tid key sock ->
  Forall (fun e => ~ touches tid key sock e) events ->
  promises (run events s) !! pid = Some Pending.
Proof.
  revert s. induction events as [|e events IH]; intros s Hp Htr Hall; simpl; [done|].
  inversion Hall; subst. apply IH; [|by apply Tracks_step|done].
  by eapply pending_step.
Qed.

Lemma armed_run (events : list Event) (s : State) pid tid key sock (tm : Timer) :
  timers s !! tid = Some (tm, Armed) ->
  Tracks s pid (Some tid) key sock ->
  Forall (fun e => ~ touches (Some tid) key sock e) events ->
  timers (run events s) !! tid = Some (tm, Armed).
Proof.
  revert s. induction events as [|e events IH]; intros s Hp Htr Hall; simpl; [done|].
  inversion Hall; subst. apply IH; [|by apply Tracks_step|done].
  by eapply armed_step.
Qed.

(* --------------------------------------------------------------------- *)
(** * The dispatcher: malformed frames and throwing callbacks (C9, C8)  *)
(* --------------------------------------------------------------------- *)

Lemma mute_step (e : Event) (s : State) : mute (step e s) = mute (step e (mute s)).
Proof.
  destruct s. unfold mute.
  destruct e; unfold step, run_handler, set_readyState, timer_callback,
    reconnect_callback, timeout_callback, sendMessage, connect, disconnect, onopen,
    onmessage, onerror, onclose, attemptReconnect, handleMessage, call_handler,
    invoke, on, addEventListener, send, ws_send,
    messageHandlers_delete, resolve, reject, settle, setTimeout, clearTimeout,
    new_promise, new_WebSocket, ws_close,
    console_log, console_error, console_error_with, showError,
    try_catch, lift, gets, modify, bind, ret, throw; simpl;
  rewrite ?emit_notify; unfold listenersOf; simpl.
  all: repeat (inner_case; simpl in *; simplify_eq; rewrite ?emit_notify;
               unfold listenersOf in *; simpl in * ).
  all: try reflexivity.
Qed.

Lemma mute_run (events : list Event) (s : State) :
  mute (run events s) = mute (run events (mute s)).
Proof.
  revert s. induction events as [|e events IH]; intros s; simpl.
  - by destruct s.
  - rewrite IH, mute_step, <- IH. reflexivity.
Qed.

Lemma handleMessage_returns (data : Frame) (s : State) :
  fst (handleMessage data s) = Ok tt.
Proof.
  unfold handleMessage, try_catch.
  match goal with |- context [match ?c s with _ => _ end] => destruct (c s) as [[[]|err] s'] end;
    reflexivity.
Qed.

Lemma payloadOf_data (message d : Value) :
  prop message "data" = Ok d -> js_or d message = payloadOf message.
Proof. unfold payloadOf. by intros ->. Qed.

Lemma prop_type_data (message type : Value) :
  prop message "type" = Ok type -> exists d, prop message "data" = Ok d.
Proof. destruct message; simpl; try done; eauto. Qed.

(** C9: a frame that does not parse as a message is logged and dropped:
    [handleMessage] returns normally with one more line on the console
    and nothing else changed, and whatever the loop does afterwards is,
    console apart, what it would have done had the frame never come. *)
Theorem malformed_frame_dropped (data : Frame) (err : Thrown) (s : State) :
  malformed data = Some err ->
  handleMessage data s
    = (Ok tt, set_console (console s ++ [LogErrorWith "Mesaj işlenemedi:" err]) s)
  /\ (forall k, uncaught (step (SocketMessage k data) s) = uncaught s)
  /\ (forall k events,
        mute (run events (step (SocketMessage k data) s)) = mute (run events s)).
Proof.
  intros Hbad.
  assert (Hdrop : handleMessage data s
    = (Ok tt, set_console (console s ++ [LogErrorWith "Mesaj işlenemedi:" err]) s)).
  { destruct data as [raw|[]]; simpl in Hbad; simplify_eq; reflexivity. }
  split; [exact Hdrop|].
  assert (Hstep : forall k, step (SocketMessage k data) s = s \/
    step (SocketMessage k data) s
      = set_console (console s ++ [LogErrorWith "Mesaj işlenemedi:" err]) s).
  { intros k. unfold step, run_handler, onmessage. rewrite Hdrop.
    destruct (sockets s !! k) as [[[] ?]|]; auto. }
  split; intros k.
  - by destruct (Hstep k) as [-> | ->].
  - intros events. rewrite mute_run, (mute_run events s). f_equal.
    destruct (Hstep k) as [-> | ->]; [done|]. by destruct s.
Qed.

Lemma malformed_frame_dropped_witness :
  malformed (Garbled "{type:") = Some SyntaxError
  /\ console (step (SocketMessage 0 (Garbled "{type:")) online)
     = console online ++ [LogErrorWith "Mesaj işlenemedi:" SyntaxError]
  /\ mute (run [SocketMessage 0 (Text tick)] (step (SocketMessage 0 (Garbled "{type:")) online))
     = mute (run [SocketMessage 0 (Text tick)] online).
Proof.
  split; [reflexivity|].
  destruct (malformed_frame_dropped (Garbled "{type:") SyntaxError online eq_refl)
    as (Hdrop & _ & Hlater).
  split; [|apply Hlater].
  unfold step, run_handler, onmessage. rewrite Hdrop. reflexivity.
Defined.

Lemma handleMessage_listener_throws (s : State) (message type : Value)
    (pre post : list Callback) (cb : Callback) :
  prop message "type" = Ok type ->
  listenersOf s type = pre ++ cb :: post ->
  quiet pre = true -> cb_throws cb = true ->
  handleMessage (Text message) s
  = (Ok tt,
     set_console
       (console s ++ [LogErrorWith "Mesaj işlenemedi:" (CallbackError (cb_id cb))])
       (set_calls
          (calls s ++ map (fun c => (cb_id c, payloadOf message)) (pre ++ [cb])) s)).
Proof.
  intros Htype Hl Hpre Hcb.
  destruct (prop_type_data _ _ Htype) as [d Hd].
  unfold handleMessage, try_catch, bind, lift; simpl.
  rewrite Htype, Hd, emit_notify, Hl, (notify_thrower _ _ _ _ Hpre Hcb); simpl.
  by rewrite (payloadOf_data _ _ Hd).
Qed.

Lemma handleMessage_handler_throws (s : State) (message type : Value) (h : Callback) :
  prop message "type" = Ok type ->
  quiet (listenersOf s type) = true ->
  map_get (messageHandlers s) type = Some (UserHandler h) ->
  cb_throws h = true ->
  handleMessage (Text message) s
  = (Ok tt,
     set_console
       (console s ++ [LogErrorWith "Mesaj işlenemedi:" (CallbackError (cb_id h))])
       (set_calls
          (calls s ++ map (fun c => (cb_id c, payloadOf message))
                          (listenersOf s type ++ [h])) s)).
Proof.
  intros Htype Hq Hh Hthrows.
  destruct (prop_type_data _ _ Htype) as [d Hd].
  unfold handleMessage, try_catch, bind, lift, gets; simpl.
  rewrite Htype, Hd, emit_notify, (notify_quiet _ _ Hq); simpl.
  rewrite Hh; simpl. unfold invoke, bind, modify, throw; simpl. rewrite Hthrows; simpl.
  rewrite (payloadOf_data _ _ Hd), map_app, app_assoc. reflexivity.
Qed.

Lemma handleMessage_all_return (s : State) (message type : Value) (h : Callback) :
  prop message "type" = Ok type ->
  quiet (listenersOf s type) = true ->
  map_get (messageHandlers s) type = Some (UserHandler h) ->
  cb_throws h = false ->
  handleMessage (Text message) s
  = (Ok tt,
     set_calls
       (calls s ++ map (fun c => (cb_id c, payloadOf message))
                       (listenersOf s type ++ [h])) s).
Proof.
  intros Htype Hq Hh Hreturns.
  destruct (prop_type_data _ _ Htype) as [d Hd].
  unfold handleMessage, try_catch, bind, lift, gets; simpl.
  rewrite Htype, Hd, emit_notify, (notify_quiet _ _ Hq); simpl.
  rewrite Hh; simpl. unfold invoke, bind, modify, ret; simpl. rewrite Hreturns; simpl.
  rewrite (payloadOf_data _ _ Hd), map_app, app_assoc. reflexivity.
Qed.

Lemma step_message (k : nat) (data : Frame) (s : State) :
  step (SocketMessage k data) s = s
  \/ step (SocketMessage k data) s = snd (handleMessage data s).
Proof.
  unfold step, run_handler, onmessage.
  pose proof (handleMessage_returns data s) as Hret.
  destruct (handleMessage data s) as [r s']; simpl in *; subst r.
  destruct (sockets s !! k) as [[[] ?]|]; auto.
Qed.

Lemma handleMessage_uncaught (data : Frame) (s : State) :
  uncaught (snd (handleMessage data s)) = uncaught s.
Proof. symbolic_step; done. Qed.

(** C8 does not hold as stated: with a throwing listener registered
    first, the second listener and the handler of that type are never
    called. *)
Lemma throwing_listener_starves_the_rest : ~ subscribers_isolated.
Proof.
  intros H.
  specialize (H crowded 0 0 tick "tick" (mkCallback 2 false) eq_refl eq_refl).
  assert (Hin : mkCallback 2 false ∈ listenersOf crowded (VStr "tick")).
  { vm_compute. apply list_elem_of_In. simpl. auto. }
  specialize (H (or_introl Hin)). vm_compute in H.
  apply list_elem_of_In in H. simpl in H. destruct H as [H|[]]. discriminate H.
Qed.

(** C8, amended: an exception thrown by a listener or by the registered
    handler while a well-formed frame is dispatched is caught and logged
    inside [handleMessage], which returns normally; it ends the dispatch
    of that frame: the calls made are those up to and including the
    callback that threw, so later listeners and the handler are skipped.
    When nobody throws, every listener and then the handler are called
    with the payload. *)
Theorem dispatch_stops_at_first_throw (s : State) (message type : Value) :
  prop message "type" = Ok type ->
  fst (handleMessage (Text message) s) = Ok tt
  /\ (forall k, uncaught (step (SocketMessage k (Text message)) s) = uncaught s)
  /\ (forall pre cb post,
        listenersOf s type = pre ++ cb :: post ->
        quiet pre = true -> cb_throws cb = true ->
        snd (handleMessage (Text message) s)
        = set_console
            (console s ++ [LogErrorWith "Mesaj işlenemedi:" (CallbackError (cb_id cb))])
            (set_calls
               (calls s ++ map (fun c => (cb_id c, payloadOf message)) (pre ++ [cb])) s))
  /\ (forall h,
        quiet (listenersOf s type) = true ->
        map_get (messageHandlers s) type = Some (UserHandler h) ->
        cb_throws h = true ->
        snd (handleMessage (Text message) s)
        = set_console
            (console s ++ [LogErrorWith "Mesaj işlenemedi:" (CallbackError (cb_id h))])
            (set_calls
               (calls s ++ map (fun c => (cb_id c, payloadOf message))
                               (listenersOf s type ++ [h])) s))
  /\ (forall h,
        quiet (listenersOf s type) = true ->
        map_get (messageHandlers s) type = Some (UserHandler h) ->
        cb_throws h = false ->
        snd (handleMessage (Text message) s)
        = set_calls
            (calls s ++ map (fun c => (cb_id c, payloadOf message))
                            (listenersOf s type ++ [h])) s).
Proof.
  intros Htype. split; [apply handleMessage_returns|]. split_and!.
  - intros k. destruct (step_message k (Text message) s) as [-> | ->]; [done|].
    apply handleMessage_uncaught.
  - intros pre cb post Hl Hpre Hcb.
    by rewrite (handleMessage_listener_throws _ _ _ _ _ _ Htype Hl Hpre Hcb).
  - intros h Hq Hh Hthrows.
    by rewrite (handleMessage_handler_throws _ _ _ _ Htype Hq Hh Hthrows).
  - intros h Hq Hh Hreturns.
    by rewrite (handleMessage_all_return _ _ _ _ Htype Hq Hh Hreturns).
Qed.

Lemma dispatch_stops_at_first_throw_witness :
  prop tick "type" = Ok (VStr "tick")
  /\ calls (snd (handleMessage (Text tick) crowded)) = [(1, VNum 7%Z)]
  /\ console (snd (handleMessage (Text tick) crowded))
     = console crowded ++ [LogErrorWith "Mesaj işlenemedi:" (CallbackError 1)].
Proof.
  split; [reflexivity|].
  destruct (dispatch_stops_at_first_throw crowded tick (VStr "tick") eq_refl)
    as (_ & _ & Hthrow & _).
  rewrite (Hthrow [] (mkCallback 1 true) [mkCallback 2 false] eq_refl eq_refl eq_refl).
  split; reflexivity.
Defined.

(* --------------------------------------------------------------------- *)
(** * sendMessage: failure, reply, timeout, superseded calls (C5, C6, C7, C1) *)
(* --------------------------------------------------------------------- *)

Lemma lookup_snoc_last {A} (l : list A) (x : A) : (l ++ [x]) !! length l = Some x.
Proof. by apply list_lookup_middle. Qed.

Lemma insert_snoc_last {A} (l : list A) (x y : A) :
  <[length l := y]> (l ++ [x]) = l ++ [y].
Proof. rewrite insert_app_r_alt by lia. by rewrite Nat.sub_diag. Qed.

(** [sendMessage] while [connected] is false. *)
Lemma sendMessage_offline (data : Command) (s : State) :
  connected s = false ->
  sendMessage data s
  = (Ok (length (promises s)),
     set_promises (promises s ++ [Rejected (Error "Sunucuya bağlı değil")]) s).
Proof.
  intros Hc. unfold sendMessage, new_promise, reject, settle, bind, gets, modify, ret; simpl.
  rewrite Hc; simpl. rewrite lookup_snoc_last, insert_snoc_last. reflexivity.
Qed.

(** [sendMessage] when [send] goes through. *)
Lemma sendMessage_sent (data : Command) (s : State) :
  sendable s = true ->
  exists o,
    sendMessage data s
    = (Ok (length (promises s)),
       set_outbox o
         (set_messageHandlers
            (<[responseType data :=
                 Waiter (length (promises s)) (length (timers s)) (responseType data)]>
               (messageHandlers s))
            (set_timers
               (timers s ++
                  [(mkTimer (RequestTimeout (length (promises s)) (responseType data))
                            (timeoutOf data), Armed)])
               (set_promises (promises s ++ [Pending]) s)))).
Proof.
  intros Hs.
  assert (Hc : connected s = true).
  { unfold sendable in Hs. by destruct (connected s). }
  unfold sendMessage, new_promise, setTimeout, on, bind, gets, modify, ret; simpl.
  rewrite Hc; simpl.
  match goal with |- context [send data ?s'] =>
    destruct (send_sendable data s' Hs) as [o ->] end.
  simpl. eauto.
Qed.

(** [sendMessage] when [connected] is true and [send] returns false. *)
Lemma sendMessage_unsent (data : Command) (s : State) :
  connected s = true -> sendable s = false ->
  exists c,
    sendMessage data s
    = (Ok (length (promises s)),
       set_promises (promises s ++ [Rejected (Error "Mesaj gönderilemedi")])
         (set_messageHandlers (delete (responseType data) (messageHandlers s))
            (set_timers
               (timers s ++
                  [(mkTimer (RequestTimeout (length (promises s)) (responseType data))
                            (timeoutOf data), Cleared)])
               (set_console c s)))).
Proof.
  intros Hc Hs.
  unfold sendMessage, new_promise, setTimeout, on, clearTimeout, messageHandlers_delete,
    reject, settle, bind, gets, modify, ret; simpl.
  rewrite Hc; simpl.
  match goal with |- context [send data ?s'] =>
    destruct (send_unsendable data s' Hs) as [c ->] end.
  simpl. rewrite lookup_snoc_last; simpl. rewrite lookup_snoc_last, !insert_snoc_last.
  rewrite delete_insert_eq. exists c. reflexivity.
Qed.

Lemma step_sendMessage (data : Command) (s : State) :
  step (CallSendMessage data) s = snd (sendMessage data s).
Proof.
  unfold step, run_handler, bind.
  destruct (connected s) eqn:Hc; [destruct (sendable s) eqn:Hs|].
  - destruct (sendMessage_sent data s Hs) as [o ->]. reflexivity.
  - destruct (sendMessage_unsent data s Hc Hs) as [c ->]. reflexivity.
  - rewrite (sendMessage_offline data s Hc). reflexivity.
Qed.

(** What a successful call leaves behind. *)
Lemma sendMessage_registers (data : Command) (s : State) :
  Inv s -> sendable s = true ->
  let pid := length (promises s) in
  let tid := length (timers s) in
  let T := responseType data in
  let s1 := step (CallSendMessage data) s in
  promises s1 !! pid = Some Pending
  /\ timers s1 !! tid = Some (mkTimer (RequestTimeout pid T) (timeoutOf data), Armed)
  /\ messageHandlers s1 !! T = Some (Waiter pid tid T)
  /\ sockets s1 = sockets s /\ eventListeners s1 = eventListeners s
  /\ connected s1 = connected s /\ ws s1 = ws s
  /\ length (promises s1) = S pid /\ length (timers s1) = S tid
  /\ Tracks s1 pid (Some tid) (Some T) None.
Proof.
  intros [Hh Ht Hs Ha] Hsend pid tid T s1. subst pid tid T s1.
  rewrite step_sendMessage.
  destruct (sendMessage_sent data s Hsend) as [o ->]; simpl.
  rewrite !lookup_snoc_last, lookup_insert_eq, !length_app; simpl.
  split_and!; try done; try lia.
  constructor; simpl; rewrite ?length_app; simpl; try lia.
  - intros k p t r Hk Hor. apply lookup_insert_Some in Hk as [[<- [= <- <- <-]]|[Hne Hk]].
    + done.
    + destruct (Hh _ _ _ _ Hk) as (_ & ? & ?).
      destruct Hor as [Hp|[= Hp]]; subst; lia.
  - intros t tm st r Hl Htask. f_equal.
    apply lookup_snoc_Some in Hl as [[_ Hl]|[-> _]]; [|done].
    pose proof (Ht _ _ _ _ _ Hl Htask). lia.
  - intros k sk Hk Hop. pose proof (Hs _ _ Hk). exfalso. lia.
Qed.

Lemma send_returns (data : Command) (s : State) : fst (send data s) = Ok (sendable s).
Proof.
  destruct (sendable s) eqn:E.
  - by destruct (send_sendable data s E) as [o ->].
  - by destruct (send_unsendable data s E) as [c ->].
Qed.

(** The reply reaches a registered waiter. *)
Lemma reply_resolves (s : State) (k p0 : nat) (message : Value) (T : string)
    (pid tid : nat) (tm : Timer) :
  sockets s !! k = Some (mkSocket OPEN p0) ->
  prop message "type" = Ok (VStr T) ->
  quiet (listenersOf s (VStr T)) = true ->
  messageHandlers s !! T = Some (Waiter pid tid T) ->
  timers s !! tid = Some (tm, Armed) ->
  promises s !! pid = Some Pending ->
  let s' := step (SocketMessage k (Text message)) s in
  promises s' = <[pid := Fulfilled (payloadOf message)]> (promises s)
  /\ timers s' = <[tid := (tm, Cleared)]> (timers s)
  /\ messageHandlers s' = delete T (messageHandlers s)
  /\ uncaught s' = uncaught s.
Proof.
  intros Hk Htype Hq Hw Ht Hp s'. subst s'.
  destruct (prop_type_data _ _ Htype) as [d Hd].
  unfold step, run_handler, onmessage, handleMessage, try_catch, bind, lift, gets.
  rewrite Hk; simpl. rewrite Htype, Hd, emit_notify, (notify_quiet _ _ Hq); simpl.
  rewrite Hw; simpl.
  unfold clearTimeout, messageHandlers_delete, resolve, settle, bind, modify; simpl.
  rewrite Ht; simpl. rewrite Hp; simpl. by rewrite (payloadOf_data _ _ Hd).
Qed.

(** The timer of a call runs out. *)
Lemma timeout_fires (s : State) (pid tid : nat) (T : string) (d : Z) (c : bool) :
  timers s !! tid = Some (mkTimer (RequestTimeout pid T) d, Armed) ->
  promises s !! pid = Some Pending ->
  let s' := step (TimerFires tid c) s in
  promises s' !! pid = Some (Rejected (Error "İstek zaman aşımına uğradı"))
  /\ messageHandlers s' !! T = None
  /\ timers s' !! tid = Some (mkTimer (RequestTimeout pid T) d, Fired).
Proof.
  intros Ht Hp s'. subst s'.
  unfold step, run_handler, timer_callback, timeout_callback, messageHandlers_delete,
    reject, settle, bind, modify.
  rewrite Ht; simpl. rewrite Hp; simpl.
  rewrite lookup_delete_eq.
  rewrite !list_lookup_insert_eq by eauto using lookup_lt_Some. done.
Qed.

(** C5 does not hold as stated for a failed [send]: the rejection
    carries the message of a failed send, not the not-connected one, and
    [setTimeout] has been called by then. *)
Lemma failed_send_rejects_differently : ~ failed_send_is_not_connected.
Proof.
  intros H. destruct (H limbo get_account_data eq_refl eq_refl) as [Hrej _].
  vm_compute in Hrej. discriminate Hrej.
Qed.

Example failed_send_had_started_a_timer :
  timers limbo = []
  /\ timers (step (CallSendMessage get_account_data) limbo)
     = [(mkTimer (RequestTimeout 2 "get_account_data_response") 60000%Z, Cleared)].
Proof. split; reflexivity. Qed.

(** C5, amended: a call made while [connected] is false is rejected at
    once with the not-connected error and starts no timer; a call whose
    [send] returns false is rejected at once with the error of a failed
    send, its waiter is removed, and the timer it had just started is
    cleared, so that it never fires. *)
Theorem sendMessage_fails_fast (data : Command) (s : State) :
  let pid := length (promises s) in
  let T := responseType data in
  let s' := step (CallSendMessage data) s in
  (connected s = false ->
     promises s' !! pid = Some (Rejected (Error "Sunucuya bağlı değil"))
     /\ timers s' = timers s
     /\ messageHandlers s' = messageHandlers s)
  /\ (connected s = true -> fst (send data s) = Ok false ->
       promises s' !! pid = Some (Rejected (Error "Mesaj gönderilemedi"))
       /\ messageHandlers s' !! T = None
       /\ timers s'
          = timers s ++ [(mkTimer (RequestTimeout pid T) (timeoutOf data), Cleared)]
       /\ forall events,
            timers (run events s') !! length (timers s)
            = Some (mkTimer (RequestTimeout pid T) (timeoutOf data), Cleared)
            /\ promises (run events s') !! pid
               = Some (Rejected (Error "Mesaj gönderilemedi"))).
Proof.
  intros pid T s'. subst pid T s'. rewrite step_sendMessage. split.
  - intros Hc. rewrite (sendMessage_offline data s Hc); simpl.
    by rewrite lookup_snoc_last.
  - intros Hc Hs. rewrite send_returns in Hs. injection Hs as Hs.
    destruct (sendMessage_unsent data s Hc Hs) as [c E].
    assert (Hp : promises (snd (sendMessage data s)) !! length (promises s)
                 = Some (Rejected (Error "Mesaj gönderilemedi"))).
    { rewrite E; simpl. apply lookup_snoc_last. }
    assert (Ht : timers (snd (sendMessage data s)) !! length (timers s)
                 = Some (mkTimer (RequestTimeout (length (promises s)) (responseType data))
                                 (timeoutOf data), Cleared)).
    { rewrite E; simpl. apply lookup_snoc_last. }
    split_and!; [done| |by rewrite E|].
    + rewrite E; simpl. apply lookup_delete_eq.
    + intros events. split.
      * by apply disarmed_run.
      * by apply settled_run.
Qed.

Lemma sendMessage_fails_fast_witness :
  connected initial = false
  /\ connected limbo = true
  /\ fst (send get_account_data limbo) = Ok false
  /\ promises (step (CallSendMessage get_account_data) initial) !! 0
     = Some (Rejected (Error "Sunucuya bağlı değil"))
  /\ promises (step (CallSendMessage get_account_data) limbo) !! 2
     = Some (Rejected (Error "Mesaj gönderilemedi")).
Proof.
  split; [reflexivity|]. split; [reflexivity|]. split; [reflexivity|]. split.
  - apply (proj1 (sendMessage_fails_fast get_account_data initial) eq_refl).
  - apply (proj2 (sendMessage_fails_fast get_account_data limbo) eq_refl eq_refl).
Defined.

(* --------------------------------------------------------------------- *)
(** * Who can unseat a waiter                                            *)
(* --------------------------------------------------------------------- *)

(** What the table holds under [type] stays there through every event
    that does not unseat the type. *)
Lemma seat_step (e : Event) (s : State) (type : string) (h : Handler) :
  Inv s ->
  messageHandlers s !! type = Some h ->
  ~ unseats s type e ->
  messageHandlers (step e s) !! type = Some h.
Proof.
  intros [Hh Ht Hs Ha] Hsub Hno. destruct e; symbolic_step.
  all: try done.
  all: repeat match goal with
       | Hg : map_get _ _ = Some (Waiter _ _ _) |- _ =>
           apply map_get_Some in Hg as (k' & -> & Hk);
           pose proof (Hh _ _ _ _ Hk) as (-> & _ & _)
       end.
  all: repeat first [ rewrite lookup_delete_ne | rewrite lookup_insert_ne ];
    try done; try congruence.
  all: intros ->; apply Hno.
  all: try (by eapply typeOf_parsed).
  all: eauto.
Qed.

Lemma untouched_of_undisturbed (s : State) (type : string) (e : Event)
    (pid tid : nat) (d : Z) (key : option string) :
  timers s !! tid = Some (mkTimer (RequestTimeout pid type) d, Armed) ->
  key = None \/ key = Some type ->
  ~ unseats s type e ->
  ~ touches (Some tid) key None e.
Proof.
  intros Ht Hkey Hno Htouch. apply Hno. destruct e; simpl in *; try done.
  - destruct Htouch as (ty & Hty & Hk). destruct Hkey as [-> | ->]; [done|].
    by injection Hk as ->.
  - injection Htouch as <-. eauto.
Qed.

(** A call in flight for [type], whether or not it still owns the entry
    of the table, keeps its promise pending and its timer armed through
    every run that does not unseat the type. *)
Lemma undisturbed_run (events : list Event) (s : State) (type : string)
    (pid tid : nat) (d : Z) (key : option string) :
  Inv s ->
  Tracks s pid (Some tid) key None ->
  key = None \/ key = Some type ->
  promises s !! pid = Some Pending ->
  timers s !! tid = Some (mkTimer (RequestTimeout pid type) d, Armed) ->
  undisturbed type events s ->
  Inv (run events s)
  /\ Tracks (run events s) pid (Some tid) key None
  /\ promises (run events s) !! pid = Some Pending
  /\ timers (run events s) !! tid = Some (mkTimer (RequestTimeout pid type) d, Armed).
Proof.
  revert s. induction events as [|e events IH]; intros s HI Htr Hkey Hp Ht Hall; simpl.
  - done.
  - destruct Hall as [Hno Hrest].
    pose proof (untouched_of_undisturbed s type e pid tid d key Ht Hkey Hno) as Hnt.
    apply IH; [by apply Inv_step|by apply Tracks_step|done| | |done].
    + by eapply pending_step.
    + by eapply armed_step.
Qed.

Lemma seat_run (events : list Event) (s : State) (type : string) (h : Handler) :
  Inv s ->
  messageHandlers s !! type = Some h ->
  undisturbed type events s ->
  messageHandlers (run events s) !! type = Some h.
Proof.
  revert s. induction events as [|e events IH]; intros s HI Hh Hall; simpl; [done|].
  destruct Hall as [Hno Hrest].
  apply IH; [by apply Inv_step| |done]. by apply seat_step.
Qed.


(** C6 does not hold as stated: the message can come before the timer of
    the call and still find the waiter gone, deleted under its name by
    the timeout of an earlier call with the same reply type; and a
    listener of the type that throws keeps the message from the waiter.
    In both runs the promise is still pending after the message. *)
Lemma reply_in_time_can_be_lost :
  ~ reply_in_time_resolves
  /\ promises (run [CallSendMessage get_account_data; SocketMessage 0 account_reply]
                 tripwire) !! 1 = Some Pending.
Proof.
  split; [|by vm_compute].
  intros H.
  assert (HI : Inv (run [CallSendMessage get_account_data] online))
    by apply Inv_run, Inv_run, Inv_initial.
  specialize (H (run [CallSendMessage get_account_data] online) get_account_data
                [TimerFires 0 false] 0 0
                (VObj [("type", VStr "get_account_data_response");
                       ("data", VObj [("balance", VNum 1000%Z)])]) HI).
  cbv zeta in H.
  assert (Hp : promises
                 (step (SocketMessage 0 account_reply)
                    (run [TimerFires 0 false]
                       (step (CallSendMessage get_account_data)
                          (run [CallSendMessage get_account_data] online))))
                 !! length (promises (run [CallSendMessage get_account_data] online))
               = Some Pending) by (vm_compute; reflexivity).
  unfold account_reply in Hp. rewrite H in Hp; [discriminate Hp|..].
  - vm_compute; reflexivity.
  - repeat constructor. intros E. vm_compute in E. discriminate E.
  - vm_compute; reflexivity.
  - reflexivity.
Qed.

(** C6, amended: when the reply to a call arrives on an open socket
    after a run that did not unseat its reply type (no timeout of a call
    with that reply type, nothing registered under the type, no earlier
    message of the type) and no listener of the type throws, the promise
    is fulfilled with the payload of that message, the timer is cleared
    and the entry leaves the table; whatever happens later, the promise
    keeps that value and the timer never fires. *)
Theorem reply_before_timeout (s : State) (data : Command) (events : list Event)
    (k p0 : nat) (message : Value) :
  let pid := length (promises s) in
  let tid := length (timers s) in
  let T := responseType data in
  let s1 := step (CallSendMessage data) s in
  let s2 := run events s1 in
  let s3 := step (SocketMessage k (Text message)) s2 in
  Inv s -> sendable s = true ->
  undisturbed T events s1 ->
  sockets s2 !! k = Some (mkSocket OPEN p0) ->
  quiet (listenersOf s2 (VStr T)) = true ->
  prop message "type" = Ok (VStr T) ->
  promises s3 !! pid = Some (Fulfilled (payloadOf message))
  /\ timers s3 !! tid
     = Some (mkTimer (RequestTimeout pid T) (timeoutOf data), Cleared)
  /\ messageHandlers s3 !! T = None
  /\ (forall later,
        promises (run later s3) !! pid = Some (Fulfilled (payloadOf message))
        /\ timers (run later s3) !! tid
           = Some (mkTimer (RequestTimeout pid T) (timeoutOf data), Cleared))
  /\ promises (run [CallSendMessage get_account_data; SocketMessage 0 account_reply]
                   online) !! 1
     = Some (Fulfilled (VObj [("balance", VNum 1000%Z)])).
Proof.
  intros pid tid T s1 s2 s3 HI Hsend Hquietly Hk Hq Htype.
  destruct (sendMessage_registers data s HI Hsend)
    as (Hp1 & Ht1 & Hw1 & _ & _ & _ & _ & _ & _ & Htr).
  fold pid tid T s1 in Hp1, Ht1, Hw1, Htr.
  assert (HI1 : Inv s1) by (by apply Inv_step).
  destruct (undisturbed_run events s1 T pid tid _ _ HI1 Htr (or_intror eq_refl)
              Hp1 Ht1 Hquietly) as (_ & _ & Hp2 & Ht2).
  pose proof (seat_run events s1 T _ HI1 Hw1 Hquietly) as Hw.
  fold s2 in Hp2, Ht2, Hw.
  destruct (reply_resolves s2 k p0 message T pid tid _ Hk Htype Hq Hw Ht2 Hp2)
    as (Ep & Et & Eh & _).
  fold s3 in Ep, Et, Eh.
  assert (Hp3 : promises s3 !! pid = Some (Fulfilled (payloadOf message))).
  { rewrite Ep. apply list_lookup_insert_eq. eauto using lookup_lt_Some. }
  assert (Ht3 : timers s3 !! tid
                = Some (mkTimer (RequestTimeout pid T) (timeoutOf data), Cleared)).
  { rewrite Et. apply list_lookup_insert_eq. eauto using lookup_lt_Some. }
  split_and!; [done|done| | |by vm_compute].
  - rewrite Eh. apply lookup_delete_eq.
  - intros later. split; [by apply settled_run|by apply disarmed_run].
Qed.

Lemma reply_before_timeout_witness :
  Inv online /\ sendable online = true
  /\ undisturbed (responseType get_account_data)
       [CallOn "tick" (mkCallback 3 false); CallSend get_account_data]
       (step (CallSendMessage get_account_data) online)
  /\ promises (step (SocketMessage 0 account_reply)
                 (run [CallOn "tick" (mkCallback 3 false); CallSend get_account_data]
                    (step (CallSendMessage get_account_data) online)))
       !! length (promises online)
     = Some (Fulfilled (payloadOf (VObj [("type", VStr "get_account_data_response");
                                         ("data", VObj [("balance", VNum 1000%Z)])]))).
Proof.
  assert (HI : Inv online) by apply Inv_run, Inv_initial.
  assert (Hsend : sendable online = true) by (vm_compute; reflexivity).
  assert (Hu : undisturbed (responseType get_account_data)
                 [CallOn "tick" (mkCallback 3 false); CallSend get_account_data]
                 (step (CallSendMessage get_account_data) online)).
  { simpl. split; [intros E; vm_compute in E; discriminate E|]. split; [tauto|exact I]. }
  split; [exact HI|]. split; [exact Hsend|]. split; [exact Hu|].
  refine (proj1 (reply_before_timeout online get_account_data _ 0 0 _
                   HI Hsend Hu _ _ _));
    vm_compute; reflexivity.
Defined.

(** C7: a call that sees neither a message of its reply type nor its
    own timer is still pending with its timer armed; when the timer then
    runs out the promise is rejected with the timeout error and the
    table has no entry under the reply type. *)
Theorem silence_times_out (s : State) (data : Command) (events : list Event)
    (ctorThrows : bool) :
  let pid := length (promises s) in
  let tid := length (timers s) in
  let T := responseType data in
  let s1 := step (CallSendMessage data) s in
  let s2 := run events s1 in
  let s3 := step (TimerFires tid ctorThrows) s2 in
  Inv s -> sendable s = true ->
  Forall (fun e => ~ touches (Some tid) (Some T) None e) events ->
  promises s2 !! pid = Some Pending
  /\ timers s2 !! tid = Some (mkTimer (RequestTimeout pid T) (timeoutOf data), Armed)
  /\ promises s3 !! pid = Some (Rejected (Error "İstek zaman aşımına uğradı"))
  /\ messageHandlers s3 !! T = None
  /\ (forall later,
        promises (run later s3) !! pid
        = Some (Rejected (Error "İstek zaman aşımına uğradı"))).
Proof.
  intros pid tid T s1 s2 s3 HI Hsend Hquietly.
  destruct (sendMessage_registers data s HI Hsend)
    as (Hp1 & Ht1 & _ & _ & _ & _ & _ & _ & _ & Htr).
  fold pid tid T s1 in Hp1, Ht1, Htr.
  assert (Hp2 : promises s2 !! pid = Some Pending) by (by eapply pending_run).
  assert (Ht2 : timers s2 !! tid
                = Some (mkTimer (RequestTimeout pid T) (timeoutOf data), Armed))
    by (by eapply armed_run).
  destruct (timeout_fires s2 pid tid T _ ctorThrows Ht2 Hp2) as (Hp3 & Hh3 & _).
  fold s3 in Hp3, Hh3.
  split_and!; try done. intros later. by apply settled_run.
Qed.

Lemma silence_times_out_witness :
  Inv online /\ sendable online = true
  /\ promises (step (TimerFires (length (timers online)) false)
                 (run [SocketMessage 0 (Text tick); CallSend get_account_data]
                    (step (CallSendMessage (mkCommand "run_backtest" None [])) online)))
       !! length (promises online)
     = Some (Rejected (Error "İstek zaman aşımına uğradı")).
Proof.
  assert (HI : Inv online) by apply Inv_run, Inv_initial.
  assert (Hsend : sendable online = true) by (vm_compute; reflexivity).
  split; [exact HI|]. split; [exact Hsend|].
  assert (Hq : Forall (fun e => ~ touches (Some (length (timers online)))
                                   (Some (responseType (mkCommand "run_backtest" None [])))
                                   None e)
                 [SocketMessage 0 (Text tick); CallSend get_account_data]).
  { repeat constructor; simpl; [|tauto]. intros (type & [= <-] & [= ?]). }
  exact (proj1 (proj2 (proj2 (silence_times_out online (mkCommand "run_backtest" None [])
              [SocketMessage 0 (Text tick); CallSend get_account_data] false HI Hsend Hq)))).
Defined.





(* --------------------------------------------------------------------- *)
(** * The promise of connect (C10)                                      *)
(* --------------------------------------------------------------------- *)











(* --------------------------------------------------------------------- *)
(** * Reconnection with backoff (C3)                                    *)
(* --------------------------------------------------------------------- *)

Lemma omap_insert_same {A B} (f : A -> option B) (l : list A) (i : nat) (x y : A) :
  l !! i = Some x -> f y = f x -> omap f (<[i := y]> l) = omap f l.
Proof.
  revert i. induction l as [|a l IH]; intros [|i] Hi Hf; simpl in *; simplify_eq.
  - by rewrite Hf.
  - destruct (f a); [f_equal|]; by apply (IH i).
Qed.

(** One turn of the loop, seen from the reconnection controller: it
    leaves the counter and the reconnection timers alone, or counts one
    more attempt and starts its timer with the delay of that attempt. *)
Lemma reconnect_step (e : Event) (s : State) :
  (forall k, e <> SocketOpen k) ->
  let s' := step e s in
  (reconnectAttempts s' = reconnectAttempts s
   /\ reconnectDelays s' = reconnectDelays s)
  \/ (reconnectAttempts s < maxReconnectAttempts
      /\ reconnectAttempts s' = S (reconnectAttempts s)
      /\ reconnectDelays s' = reconnectDelays s ++ [backoff (S (reconnectAttempts s))]).
Proof.
  intros Hno s'. subst s'. unfold reconnectDelays.
  destruct e; try (by destruct (Hno k)); symbolic_step.
  all: repeat match goal with
       | H : ?L !! ?i = Some (?t, _) |- context [omap ?f (<[?i := (?t, ?st')]> ?L)] =>
           rewrite (omap_insert_same f L i _ (t, st') H eq_refl)
       end.
  all: rewrite ?omap_app; simpl; rewrite ?app_nil_r.
  all: try (left; split; reflexivity).
  all: try (right; unfold maxReconnectAttempts, backoff in *; split_and!;
            [by apply Nat.leb_gt|done|done]).
  all: left; split; [done|reflexivity].
Qed.

Lemma reconnect_run (events : list Event) (s : State) :
  Forall (fun e => forall k, e <> SocketOpen k) events ->
  let s' := run events s in
  reconnectAttempts s <= reconnectAttempts s'
  /\ (reconnectAttempts s <= maxReconnectAttempts ->
      reconnectAttempts s' <= maxReconnectAttempts)
  /\ reconnectDelays s'
     = reconnectDelays s
       ++ map backoff (seq (S (reconnectAttempts s))
                           (reconnectAttempts s' - reconnectAttempts s)).
Proof.
  revert s. induction events as [|e events IH]; intros s Hall; simpl.
  - split_and!; [lia|done|]. by rewrite Nat.sub_diag, app_nil_r.
  - inversion Hall as [|? ? He Hrest]; subst.
    destruct (IH (step e s) Hrest) as (Hle & Hmax & Hdelays).
    destruct (reconnect_step e s He) as [[Ea Ed]|(Hlt & Ea & Ed)].
    + rewrite Ea, Ed in *. done.
    + rewrite Ea, Ed in *. split_and!; [lia|intros _; apply Hmax; lia|].
      rewrite Hdelays, <- app_assoc. f_equal.
      replace (reconnectAttempts (run events (step e s)) - reconnectAttempts s)
        with (S (reconnectAttempts (run events (step e s)) - S (reconnectAttempts s)))
        by lia.
      reflexivity.
Qed.

Lemma open_resets (s : State) (k p : nat) :
  sockets s !! k = Some (mkSocket CONNECTING p) ->
  reconnectAttempts (step (SocketOpen k) s) = 0 /\ connected (step (SocketOpen k) s) = true.
Proof. intros Hk. symbolic_step; done. Qed.

(** C3: through any run without a successful opening, starting from a
    counter within its bound, the counter only grows and never passes
    [maxReconnectAttempts]; the reconnections scheduled in the run are
    as many as the counter grew, hence at most [maxReconnectAttempts],
    and the one that made the counter [n] waits
    [reconnectDelay * 2^(n-1)]; an opening socket sets the counter back
    to zero. *)
Theorem reconnection_is_bounded (s : State) (events : list Event) :
  let s' := run events s in
  reconnectAttempts s <= maxReconnectAttempts ->
  Forall (fun e => forall k, e <> SocketOpen k) events ->
  reconnectAttempts s' <= maxReconnectAttempts
  /\ reconnectDelays s'
     = reconnectDelays s
       ++ map backoff (seq (S (reconnectAttempts s))
                           (reconnectAttempts s' - reconnectAttempts s))
  /\ length (reconnectDelays s') - length (reconnectDelays s) <= maxReconnectAttempts
  /\ (forall k p,
        sockets s' !! k = Some (mkSocket CONNECTING p) ->
        reconnectAttempts (step (SocketOpen k) s') = 0).
Proof.
  intros s' Hbound Hall.
  destruct (reconnect_run events s Hall) as (Hle & Hmax & Hdelays).
  fold s' in Hle, Hmax, Hdelays. specialize (Hmax Hbound).
  split_and!; [done|done| |].
  - rewrite Hdelays, length_app, length_map, length_seq. lia.
  - intros k p Hk. by destruct (open_resets s' k p Hk).
Qed.

Lemma reconnection_is_bounded_witness :
  reconnectAttempts online <= maxReconnectAttempts
  /\ reconnectDelays (run flaky online)
     = reconnectDelays online
       ++ map backoff (seq (S (reconnectAttempts online))
                           (reconnectAttempts (run flaky online)
                            - reconnectAttempts online))
  /\ reconnectDelays (run flaky online)
     = [2000; 4000; 8000; 16000; 32000]%Z.
Proof.
  assert (Hb : reconnectAttempts online <= maxReconnectAttempts)
    by (vm_compute; lia).
  split; [exact Hb|].
  assert (Hq : Forall (fun e => forall k, e <> SocketOpen k) flaky).
  { repeat constructor; intros k; discriminate. }
  split; [|vm_compute; reflexivity].
  exact (proj1 (proj2 (reconnection_is_bounded online flaky Hb Hq))).
Defined.

(* --------------------------------------------------------------------- *)
(** * disconnect (C2)                                                   *)
(* --------------------------------------------------------------------- *)

(** C2 does not hold as stated: the close event that follows
    [disconnect] goes through [onclose] like any other and starts the
    first reconnection. *)
Lemma disconnect_then_close_reconnects : ~ disconnect_is_final.
Proof.
  intros H. destruct (H online 0 0 eq_refl eq_refl) as [Ht _].
  vm_compute in Ht. discriminate Ht.
Qed.

Lemma disconnect_idempotent (s : State) :
  step CallDisconnect (step CallDisconnect s) = step CallDisconnect s.
Proof.
  unfold step, run_handler, disconnect, ws_close, bind, gets, modify, ret.
  destruct (ws s) as [k|] eqn:Hws; simpl; [|by rewrite Hws].
  reflexivity.
Qed.

Lemma attemptReconnect_schedules (s : State) :
  reconnectAttempts s < maxReconnectAttempts ->
  attemptReconnect s
  = (Ok tt,
     set_timers
       (timers s ++ [(mkTimer ReconnectTask (backoff (S (reconnectAttempts s))), Armed)])
       (set_console
          (console s ++ [LogReconnecting (backoff (S (reconnectAttempts s)))
                                         (S (reconnectAttempts s))])
          (set_reconnectAttempts (S (reconnectAttempts s)) s))).
Proof.
  intros Hlt. apply Nat.leb_gt in Hlt.
  unfold attemptReconnect, bind, gets. rewrite Hlt. reflexivity.
Qed.

(** C2, amended: on an open channel [disconnect] closes the socket,
    clears [ws] and [connected], and doing it again changes nothing; the
    [close] event that follows is handled like any other: with the
    "disconnected" listeners returning normally and attempts left,
    [attemptReconnect] counts one more attempt and starts its timer. *)
Theorem disconnect_closes_then_reconnects (s : State) (k p : nat) :
  let s1 := step CallDisconnect s in
  let s2 := step (SocketClose k) s1 in
  ws s = Some k -> sockets s !! k = Some (mkSocket OPEN p) ->
  sockets s1 !! k = Some (mkSocket CLOSING p)
  /\ ws s1 = None /\ connected s1 = false
  /\ step CallDisconnect s1 = s1
  /\ (quiet (listenersOf s (VStr "disconnected")) = true ->
      reconnectAttempts s < maxReconnectAttempts ->
      reconnectAttempts s2 = S (reconnectAttempts s)
      /\ timers s2
         = timers s ++ [(mkTimer ReconnectTask (backoff (S (reconnectAttempts s))), Armed)]
      /\ sockets s2 !! k = Some (mkSocket CLOSED p)).
Proof.
  intros s1 s2 Hws Hk. pose proof (lookup_lt_Some _ _ _ Hk) as Hlt.
  assert (E1 : s1 = set_connected false (set_ws None
                 (set_sockets (<[k := mkSocket CLOSING p]> (sockets s)) s))).
  { subst s1. unfold step, run_handler, disconnect, ws_close, bind, gets, modify.
    rewrite Hws; simpl. by rewrite Hk. }
  split_and!.
  - rewrite E1; simpl. by apply list_lookup_insert_eq.
  - by rewrite E1.
  - by rewrite E1.
  - subst s1. apply disconnect_idempotent.
  - intros Hq Hlt'. subst s2. rewrite E1.
    unfold step, run_handler, onclose, set_readyState,
      console_log, bind, modify; simpl.
    rewrite list_lookup_insert_eq by done; simpl.
    rewrite emit_notify. unfold listenersOf in *; simpl.
    rewrite (notify_quiet _ _ Hq); simpl.
    rewrite attemptReconnect_schedules by done; simpl.
    split_and!; try done. rewrite list_insert_insert_eq.
    by apply list_lookup_insert_eq.
Qed.

Lemma disconnect_closes_then_reconnects_witness :
  ws online = Some 0 /\ sockets online !! 0 = Some (mkSocket OPEN 0)
  /\ timers (step (SocketClose 0) (step CallDisconnect online))
     = timers online
       ++ [(mkTimer ReconnectTask (backoff (S (reconnectAttempts online))), Armed)].
Proof.
  assert (H1 : ws online = Some 0) by (vm_compute; reflexivity).
  assert (H2 : sockets online !! 0 = Some (mkSocket OPEN 0)) by (vm_compute; reflexivity).
  split; [exact H1|]. split; [exact H2|].
  destruct (disconnect_closes_then_reconnects online 0 0 H1 H2) as (_ & _ & _ & _ & H).
  apply H; vm_compute; [reflexivity|lia].
Defined.

(* --------------------------------------------------------------------- *)
(** * Subscriptions (C4)                                                *)
(* --------------------------------------------------------------------- *)

(** C4: the handler the dashboard registers as permanent is lost to the
    first [sendMessage] for a market analysis.  The call puts its waiter
    in the place of the handler; the reply goes to the waiter, which
    deletes the entry; after that nothing is registered under the type,
    and a further message of the type calls nobody. *)
Theorem permanent_handler_lost :
  messageHandlers dashboard !! "get_market_analysis_response"
  = Some (UserHandler (mkCallback 7 false))
  /\ responseType get_market_analysis = "get_market_analysis_response"
  /\ messageHandlers (run [CallSendMessage get_market_analysis] dashboard)
       !! "get_market_analysis_response"
     = Some (Waiter 1 0 "get_market_analysis_response")
  /\ messageHandlers
       (run [CallSendMessage get_market_analysis; SocketMessage 0 market_reply] dashboard)
       !! "get_market_analysis_response" = None
  /\ messageHandlers
       (run [CallSendMessage get_market_analysis; TimerFires 0 false] dashboard)
       !! "get_market_analysis_response" = None
  /\ calls (run [CallSendMessage get_market_analysis; SocketMessage 0 market_reply;
                 SocketMessage 0 market_reply] dashboard) = [].
Proof. by vm_compute. Qed.

(** No subscription is safe from [sendMessage]: a call whose reply type
    is the type of a subscription puts its waiter in the place of the
    subscription. *)
Lemma sendMessage_displaces_subscription : ~ subscriptions_persist.
Proof.
  intros H.
  specialize (H subscribed "get_account_data_response" (mkCallback 7 false)
                get_account_data eq_refl).
  vm_compute in H. discriminate H.
Qed.

Lemma subscription_step (e : Event) (s : State) (type : string) (h : Callback) :
  Inv s ->
  messageHandlers s !! type = Some (UserHandler h) ->
  noneInFlight s type ->
  ~ registersUnder type e ->
  messageHandlers (step e s) !! type = Some (UserHandler h)
  /\ noneInFlight (step e s) type.
Proof.
  intros [Hh Ht Hs Ha] Hsub Hnone Hno. unfold noneInFlight in *.
  destruct e; symbolic_step.
  all: try (split; [done|by eauto]).
  all: repeat match goal with
       | Hg : map_get _ _ = Some (Waiter _ _ _) |- _ =>
           apply map_get_Some in Hg as (k' & -> & Hk);
           pose proof (Hh _ _ _ _ Hk) as (-> & _ & _)
       end.
  all: split;
    [ repeat first [ rewrite lookup_delete_ne | rewrite lookup_insert_ne ];
      try done; try congruence
    | intros ? ? ? Hl; invert_lookups; eauto ].
  all: try congruence.
  all: try (intros ->; congruence).
  all: intros ->; eapply Hnone; eauto.
Qed.

Lemma subscription_run (events : list Event) (s : State) (type : string) (h : Callback) :
  Inv s ->
  messageHandlers s !! type = Some (UserHandler h) ->
  noneInFlight s type ->
  Forall (fun e => ~ registersUnder type e) events ->
  messageHandlers (run events s) !! type = Some (UserHandler h).
Proof.
  revert s. induction events as [|e events IH]; intros s HI Hsub Hnone Hall; simpl; [done|].
  inversion Hall as [|? ? He Hrest]; subst.
  destruct (subscription_step e s type h HI Hsub Hnone He) as [Hsub' Hnone'].
  apply IH; [by apply Inv_step|done|done|done].
Qed.

(** What the one table does ensure: a subscription made through [on]
    stays through every run in which nothing is registered under its
    type, neither by [on] nor by a [sendMessage] whose reply type it is,
    provided no such call is still waiting for its timeout.  A call that
    goes out with the reply type of the subscription puts its waiter in
    its place, and the entry is deleted when that call is answered on an
    open socket with no listener of the type throwing. *)
Theorem subscription_survives_other_types (s : State) (type : string) (h : Callback)
    (events : list Event) :
  Inv s ->
  messageHandlers s !! type = Some (UserHandler h) ->
  noneInFlight s type ->
  Forall (fun e => ~ registersUnder type e) events ->
  messageHandlers (run events s) !! type = Some (UserHandler h)
  /\ (forall data,
        sendable s = true -> responseType data = type ->
        messageHandlers (step (CallSendMessage data) s) !! type
        = Some (Waiter (length (promises s)) (length (timers s)) type)
        /\ forall k p0 message,
             sockets s !! k = Some (mkSocket OPEN p0) ->
             quiet (listenersOf s (VStr type)) = true ->
             prop message "type" = Ok (VStr type) ->
             messageHandlers (step (SocketMessage k (Text message))
                                (step (CallSendMessage data) s)) !! type = None).
Proof.
  intros HI Hsub Hnone Hall. split; [by apply subscription_run|].
  intros data Hsend <-.
  destruct (sendMessage_registers data s HI Hsend)
    as (Hp1 & Ht1 & Hw1 & Hs1 & Hl1 & _).
  split; [done|]. intros k p0 message Hk Hq Htype.
  rewrite <- Hs1 in Hk. unfold listenersOf in Hq. rewrite <- Hl1 in Hq.
  destruct (reply_resolves _ k p0 message _ _ _ _ Hk Htype Hq Hw1 Ht1 Hp1)
    as (_ & _ & -> & _).
  apply lookup_delete_eq.
Qed.

Lemma subscription_survives_other_types_witness :
  Inv subscribed
  /\ messageHandlers subscribed !! "get_account_data_response"
     = Some (UserHandler (mkCallback 7 false))
  /\ messageHandlers
       (run [CallSendMessage (mkCommand "get_portfolio" None []);
             SocketMessage 0 account_reply;
             TimerFires 0 false] subscribed) !! "get_account_data_response"
     = Some (UserHandler (mkCallback 7 false)).
Proof.
  assert (HI : Inv subscribed) by apply Inv_run, Inv_run, Inv_initial.
  assert (Hsub : messageHandlers subscribed !! "get_account_data_response"
                 = Some (UserHandler (mkCallback 7 false))) by (vm_compute; reflexivity).
  split; [exact HI|]. split; [exact Hsub|].
  refine (proj1 (subscription_survives_other_types subscribed _ _ _ HI Hsub _ _)).
  - intros t tm p Hl. vm_compute in Hl. discriminate Hl.
  - repeat constructor; simpl; try tauto. vm_compute. discriminate.
Defined.

(* --------------------------------------------------------------------- *)
(** * Waiters are never stale                                           *)
(* --------------------------------------------------------------------- *)

Lemma Live_initial : Live initial.
Proof. constructor; [apply Inv_initial|..]; simpl; intros; done. Qed.

Ltac waiter_facts Hh Hw :=
  repeat match goal with
  | H : map_get _ _ = Some _ |- _ =>
      let k := fresh "k" in apply map_get_Some in H as (k & -> & H)
  end;
  repeat match goal with
  | H : messageHandlers _ !! _ = Some (Waiter ?p ?t ?r) |- _ =>
      lazymatch goal with
      | _ : p < length (promises _) |- _ => fail
      | _ => let d := fresh "d" in
             destruct (Hw _ _ _ _ H) as [? [d ?]];
             destruct (Hh _ _ _ _ H) as (? & ? & ?)
      end
  end.

Ltac list_goal :=
  repeat first
    [ apply lookup_app_l_Some
    | rewrite list_lookup_insert_ne by (first [lia | congruence])
    | rewrite lookup_app_l by (rewrite ?length_insert; eauto using lookup_lt_Some) ].

Ltac distinct Ht Hs :=
  let E := fresh "E" in
  intros E; subst;
  first
    [ lia
    | by eapply Hs; eauto
    | simplify_eq/=; congruence
    | match goal with
      | H1 : timers _ !! ?t1 = Some _, H2 : timers _ !! ?t2 = Some _ |- _ =>
          assert (t1 = t2) by (eapply (Ht t1 t2); eauto);
          subst; simplify_eq/=; congruence
      end ].

Lemma Live_step (e : Event) (s : State) : Live s -> Live (step e s).
Proof.
  intros [HI Hw Ht Hs]. constructor; [by apply Inv_step|..].
  all: destruct HI as [Hh Htm Hsk Ha].
  all: destruct e; symbolic_step.
  all: try done.
  all: simpl; intros; invert_lookups.
  all: try (by eauto).
  all: waiter_facts Hh Hw; simplify_eq.
  all: try lia.
  all: try (split; [|eexists]; list_goal; by eauto).
  all: try (exfalso; match goal with
        | H : timers _ !! _ = Some _, H' : task _ = RequestTimeout _ _ |- _ =>
            pose proof (Htm _ _ _ _ _ H H'); lia
        | H : sockets _ !! _ = Some _ |- _ => pose proof (Hsk _ _ H); simpl in *; lia
        end).
  1: { split; [apply lookup_snoc_last|]. eexists. apply lookup_snoc_last. }
  all: try (split; [|eexists];
            repeat (rewrite list_lookup_insert_ne; [|distinct Ht Hs]);
            list_goal; by eauto).
Qed.

Lemma Live_run (events : list Event) (s : State) : Live s -> Live (run events s).
Proof.
  revert s. induction events as [|e events IH]; intros s H; simpl; [done|].
  apply IH, Live_step, H.
Qed.

(** X1: in every state the loop can reach, a waiter found in the table
    is never stale: it is filed under its own reply type, its promise is
    still pending and its timer is still armed. *)
Theorem no_stale_waiter (events : list Event) (key : string) (p t : nat) (r : string) :
  let s := run events initial in
  messageHandlers s !! key = Some (Waiter p t r) ->
  r = key
  /\ promises s !! p = Some Pending
  /\ exists d, timers s !! t = Some (mkTimer (RequestTimeout p r) d, Armed).
Proof.
  intros s Hk.
  destruct (Live_run events initial Live_initial) as [[Hh _ _ _] Hw _ _].
  fold s in Hh, Hw. destruct (Hh _ _ _ _ Hk) as (-> & _).
  destruct (Hw _ _ _ _ Hk) as (Hp & Ht). done.
Qed.

Lemma no_stale_waiter_witness :
  messageHandlers (run [CallConnect false; SocketOpen 0; CallSendMessage get_account_data]
                     initial) !! "get_account_data_response"
  = Some (Waiter 1 0 "get_account_data_response")
  /\ promises (run [CallConnect false; SocketOpen 0; CallSendMessage get_account_data]
                 initial) !! 1 = Some Pending.
Proof.
  assert (H : messageHandlers
                (run [CallConnect false; SocketOpen 0; CallSendMessage get_account_data]
                   initial) !! "get_account_data_response"
              = Some (Waiter 1 0 "get_account_data_response"))
    by (vm_compute; reflexivity).
  split; [exact H|].
  exact (proj1 (proj2 (no_stale_waiter _ _ _ _ _ H))).
Defined.

(* --------------------------------------------------------------------- *)
(** * send, listeners and handlers                                      *)
(* --------------------------------------------------------------------- *)

Lemma send_any_plain (data : Command) (s : State) : send_any (Plain data) s = send data s.
Proof. reflexivity. Qed.

(** X2: [send] never throws.  It returns [true] exactly when the
    connector believes it is connected, its current socket is past
    connecting and [JSON.stringify] accepts the data.  It touches
    nothing but the console and the wire: on [false] one line is logged
    and nothing leaves; on an open socket a command leaves on that
    socket; on a closing or closed socket [true] is returned for a
    command although nothing leaves. *)
Theorem send_contract (p : Payload) (s : State) :
  let s' := snd (send_any p s) in
  fst (send_any p s) = Ok (sendable s && serialisable p)
  /\ set_outbox (outbox s) (set_console (console s) s') = s
  /\ (sendable s && serialisable p = false ->
      outbox s' = outbox s /\ length (console s') = S (length (console s)))
  /\ (forall k p0 r data,
        connected s = true -> ws s = Some k -> sockets s !! k = Some (mkSocket r p0) ->
        r <> CONNECTING -> p = Plain data ->
        console s' = console s
        /\ outbox s' = match r with OPEN => outbox s ++ [(k, data)] | _ => outbox s end)
  /\ (forall data, p = Plain data -> send_any p s = send data s).
Proof.
  intros s'. subst s'.
  split_and!; [..|by intros data ->].
  all: unfold sendable, serialisable, send_any, JSON_stringify, ws_send, try_catch, lift,
         console_error, console_error_with, bind, gets, modify, ret.
  all: destruct s as [w c a mh el sk tm pr co ca ou un]; simpl.
  all: destruct p as [data|]; (destruct c; [destruct w as [k|]|]); simpl.
  all: try (destruct (sk !! k) as [[[] p]|] eqn:Hk; simpl).
  all: try done.
  all: try (by rewrite length_app; simpl; lia).
  all: try (intros k' p' r' d' _ [= <-] Hk' Hr Hd; simplify_eq; done).
  all: intros _; split; [done|]; rewrite length_app; simpl; lia.
Qed.

Lemma send_contract_witness :
  sendable limbo = false
  /\ fst (send_any (Plain get_account_data) limbo) = Ok false
  /\ fst (send_any Unserialisable online) = Ok false
  /\ outbox (snd (send_any (Plain get_account_data) online)) = [(0, get_account_data)].
Proof.
  assert (H : sendable limbo = false) by (vm_compute; reflexivity).
  assert (H' : sendable online = true) by (vm_compute; reflexivity).
  split; [exact H|]. split; [|split].
  - rewrite (proj1 (send_contract (Plain get_account_data) limbo)). by rewrite H.
  - rewrite (proj1 (send_contract Unserialisable online)). by rewrite H'.
  - destruct (send_contract (Plain get_account_data) online) as (_ & _ & _ & Hopen & _).
    destruct (Hopen 0 0 OPEN get_account_data) as [_ ->];
      try (vm_compute; reflexivity). discriminate.
Defined.

Lemma listenersOf_add (s : State) (ev ev' : string) (cb : Callback) :
  listenersOf (step (CallAddEventListener ev cb) s) (VStr ev')
  = if decide (ev = ev') then listenersOf s (VStr ev') ++ [cb]
    else listenersOf s (VStr ev').
Proof.
  unfold listenersOf, step, run_handler, addEventListener, modify; simpl.
  destruct (decide (ev = ev')) as [->|Hne].
  - by rewrite lookup_insert_eq.
  - by rewrite lookup_insert_ne.
Qed.

Lemma run_cons (e : Event) (events : list Event) (s : State) :
  run (e :: events) s = run events (step e s).
Proof. reflexivity. Qed.

(** X3: listeners registered through [addEventListener] pile up in the
    order of registration and leave the other events alone; [emit] then
    calls them in that order, each with the data, as long as none
    throws. *)
Theorem listeners_accumulate (s : State) (ev : string) (cbs : list Callback) (d : Value) :
  let s' := run (map (CallAddEventListener ev) cbs) s in
  listenersOf s' (VStr ev) = listenersOf s (VStr ev) ++ cbs
  /\ (forall ev', ev' <> ev -> listenersOf s' (VStr ev') = listenersOf s (VStr ev'))
  /\ messageHandlers s' = messageHandlers s
  /\ (quiet (listenersOf s (VStr ev) ++ cbs) = true ->
      emit (VStr ev) d s'
      = (Ok tt,
         set_calls (calls s' ++ map (fun cb => (cb_id cb, d))
                                    (listenersOf s (VStr ev) ++ cbs)) s')).
Proof.
  intros s'.
  assert (H : listenersOf s' (VStr ev) = listenersOf s (VStr ev) ++ cbs
              /\ (forall ev', ev' <> ev ->
                    listenersOf s' (VStr ev') = listenersOf s (VStr ev'))
              /\ messageHandlers s' = messageHandlers s).
  { subst s'. revert s. induction cbs as [|cb cbs IH]; intros s.
    - change (run (map (CallAddEventListener ev) []) s) with s. by rewrite app_nil_r.
    - rewrite map_cons, run_cons.
      destruct (IH (step (CallAddEventListener ev cb) s)) as (E1 & E2 & E3).
      rewrite E1, E3. split_and!.
      + rewrite listenersOf_add. destruct (decide (ev = ev)); [|done].
        by rewrite <- app_assoc.
      + intros ev' Hne. rewrite (E2 ev' Hne), listenersOf_add.
        by destruct (decide (ev = ev')).
      + reflexivity. }
  destruct H as (E1 & E2 & E3). split_and!; try done.
  intros Hq. rewrite emit_notify, E1, (notify_quiet _ _ Hq). reflexivity.
Qed.

Lemma listeners_accumulate_witness :
  quiet (listenersOf online (VStr "connected")
         ++ [mkCallback 4 false; mkCallback 5 false]) = true
  /\ calls (snd (emit (VStr "connected") VUndefined
                   (run (map (CallAddEventListener "connected")
                             [mkCallback 4 false; mkCallback 5 false]) online)))
     = [(4, VUndefined); (5, VUndefined)].
Proof.
  assert (Hq : quiet (listenersOf online (VStr "connected")
                      ++ [mkCallback 4 false; mkCallback 5 false]) = true)
    by (vm_compute; reflexivity).
  split; [exact Hq|].
  destruct (listeners_accumulate online "connected"
              [mkCallback 4 false; mkCallback 5 false] VUndefined) as (_ & _ & _ & H).
  rewrite (H Hq). vm_compute. reflexivity.
Defined.



(* --------------------------------------------------------------------- *)
(** * Reply types                                                       *)
(* --------------------------------------------------------------------- *)

Lemma last_char_append (a s : string) :
  s <> EmptyString -> last_char (String.append a s) = last_char s.
Proof.
  intros Hs. induction a as [|c a IH]; simpl; [done|].
  rewrite IH. destruct (String.append a s) eqn:E; [|done].
  destruct a; simpl in E; [done|discriminate].
Qed.

Lemma length_append (a s : string) :
  String.length (String.append a s) = String.length a + String.length s.
Proof. induction a as [|c a IH]; simpl; [done|]. by rewrite IH. Qed.

Lemma append_inj_suffix (a b s : string) :
  String.append a s = String.append b s -> a = b.
Proof.
  revert b. induction a as [|c a IH]; intros [|c' b] H; simpl in H.
  - done.
  - exfalso. apply (f_equal String.length) in H.
    change (String.length s = S (String.length (String.append b s))) in H.
    rewrite length_append in H. lia.
  - exfalso. apply (f_equal String.length) in H.
    change (S (String.length (String.append a s)) = String.length s) in H.
    rewrite length_append in H. lia.
  - injection H as -> H. by rewrite (IH b H).
Qed.

Lemma responseType_replyTable (data : Command) :
  responseType data
  = match replyTable (action data) with
    | Some r => r
    | None => String.append (action data) "_response"
    end.
Proof.
  unfold responseType, replyTable.
  repeat (destruct (String.eqb (action data) _); [reflexivity|]). reflexivity.
Qed.

Lemma replyTable_last_char (a r : string) :
  replyTable a = Some r -> last_char r <> Some "e"%char.
Proof.
  unfold replyTable.
  repeat (destruct (String.eqb a _); [cbv iota; intros [= <-]; simpl; congruence|]). done.
Qed.

Lemma replyTable_collision (a b r : string) :
  replyTable a = Some r -> replyTable b = Some r ->
  a = b
  \/ (a = "start_conversation" /\ b = "answer_question")
  \/ (a = "answer_question" /\ b = "start_conversation").
Proof.
  unfold replyTable.
  repeat (match goal with
          | |- context [String.eqb a ?l] => destruct (String.eqb_spec a l) as [->|_]
          end;
    [cbv iota; intros [= <-];
     repeat (match goal with
             | |- context [String.eqb b ?l] => destruct (String.eqb_spec b l) as [->|_]
             end;
       [cbv iota; intros E; first [discriminate E | by auto]|]);
     discriminate|]).
  discriminate.
Qed.

(** X5: two commands with different actions wait on the same reply
    type only when they are [start_conversation] and [answer_question]:
    every other pair of distinct actions gets distinct reply types. *)
Theorem reply_types_collide_only_for_conversation (data1 data2 : Command) :
  action data1 <> action data2 ->
  responseType data1 = responseType data2 ->
  (action data1 = "start_conversation" /\ action data2 = "answer_question")
  \/ (action data1 = "answer_question" /\ action data2 = "start_conversation").
Proof.
  intros Hne E. rewrite !responseType_replyTable in E.
  destruct (replyTable (action data1)) as [r1|] eqn:T1;
  destruct (replyTable (action data2)) as [r2|] eqn:T2.
  - subst r2. destruct (replyTable_collision _ _ _ T1 T2) as [?|[?|?]]; auto. done.
  - exfalso. apply (replyTable_last_char _ _ T1). rewrite E. by rewrite last_char_append.
  - exfalso. apply (replyTable_last_char _ _ T2). rewrite <- E. by rewrite last_char_append.
  - exfalso. apply Hne. by apply append_inj_suffix in E.
Qed.

Lemma reply_types_collide_only_for_conversation_witness :
  action (mkCommand "start_conversation" None []) <> action (mkCommand "answer_question" None [])
  /\ responseType (mkCommand "start_conversation" None [])
     = responseType (mkCommand "answer_question" None [])
  /\ ((action (mkCommand "start_conversation" None []) = "start_conversation"
       /\ action (mkCommand "answer_question" None []) = "answer_question")
      \/ (action (mkCommand "start_conversation" None []) = "answer_question"
          /\ action (mkCommand "answer_question" None []) = "start_conversation")).
Proof.
  assert (H1 : action (mkCommand "start_conversation" None [])
               <> action (mkCommand "answer_question" None [])) by (simpl; discriminate).
  assert (H2 : responseType (mkCommand "start_conversation" None [])
               = responseType (mkCommand "answer_question" None [])) by reflexivity.
  split; [exact H1|]. split; [exact H2|].
  exact (reply_types_collide_only_for_conversation _ _ H1 H2).
Defined.

(* --------------------------------------------------------------------- *)
(** * Recovery and giving up                                            *)
(* --------------------------------------------------------------------- *)

(** [close] on a socket that has not delivered it yet, with attempts
    left and the "disconnected" listeners returning normally. *)
Lemma close_schedules (s : State) (k : nat) (sk : Socket) :
  sockets s !! k = Some sk -> readyState sk <> CLOSED ->
  quiet (listenersOf s (VStr "disconnected")) = true ->
  reconnectAttempts s < maxReconnectAttempts ->
  step (SocketClose k) s
  = set_timers
      (timers s ++ [(mkTimer ReconnectTask (backoff (S (reconnectAttempts s))), Armed)])
      (set_console
         (console s ++ [LogInfo "MT5 sunucusu bağlantısı kesildi";
                        LogReconnecting (backoff (S (reconnectAttempts s)))
                                        (S (reconnectAttempts s))])
         (set_reconnectAttempts (S (reconnectAttempts s))
            (set_calls
               (calls s ++ map (fun cb => (cb_id cb, VUndefined))
                               (listenersOf s (VStr "disconnected")))
               (set_connected false
                  (set_sockets (<[k := mkSocket CLOSED (opener sk)]> (sockets s)) s))))).
Proof.
  intros Hk Hr Hq Hlt.
  unfold step, run_handler, onclose, set_readyState, console_log, bind, modify.
  rewrite Hk. destruct sk as [[] p]; simpl in *; try done.
  all: rewrite emit_notify; unfold listenersOf in *; simpl;
    rewrite (notify_quiet _ _ Hq); simpl;
    rewrite attemptReconnect_schedules by done; simpl;
    by rewrite <- app_assoc.
Qed.

(** X6: a dropped connection heals itself.  After a close with attempts
    left, the reconnection timer is armed with the delay of the attempt;
    when it fires a new socket becomes the current one, and when that
    socket opens the connector is connected again with its attempt
    counter at zero.  Through all of it the handler table and the
    listeners are kept, and no promise that was pending is settled. *)
Theorem reconnection_recovers (s : State) (k : nat) (sk : Socket) :
  let s1 := step (SocketClose k) s in
  let s2 := step (TimerFires (length (timers s)) false) s1 in
  let s3 := step (SocketOpen (length (sockets s))) s2 in
  sockets s !! k = Some sk -> readyState sk <> CLOSED ->
  quiet (listenersOf s (VStr "disconnected")) = true ->
  quiet (listenersOf s (VStr "connected")) = true ->
  reconnectAttempts s < maxReconnectAttempts ->
  connected s1 = false
  /\ timers s1 !! length (timers s)
     = Some (mkTimer ReconnectTask (backoff (S (reconnectAttempts s))), Armed)
  /\ ws s2 = Some (length (sockets s))
  /\ connected s3 = true /\ ws s3 = Some (length (sockets s))
  /\ sendable s3 = true
  /\ reconnectAttempts s3 = 0
  /\ messageHandlers s3 = messageHandlers s
  /\ eventListeners s3 = eventListeners s
  /\ promises s3 = promises s ++ [Fulfilled VUndefined].
Proof.
  intros s1 s2 s3 Hk Hr Hqd Hqc Hlt.
  assert (E1 : s1 = _) by exact (close_schedules s k sk Hk Hr Hqd Hlt).
  assert (Hlen : length (<[k := mkSocket CLOSED (opener sk)]> (sockets s))
                 = length (sockets s)) by apply length_insert.
  assert (E2 : timers s1 !! length (timers s)
               = Some (mkTimer ReconnectTask (backoff (S (reconnectAttempts s))), Armed)).
  { rewrite E1; simpl. apply lookup_snoc_last. }
  assert (E3 : s2 = set_ws (Some (length (sockets s)))
                 (set_sockets (sockets s1 ++ [mkSocket CONNECTING (length (promises s))])
                    (set_promises (promises s ++ [Pending])
                       (set_timers (<[length (timers s) :=
                          (mkTimer ReconnectTask (backoff (S (reconnectAttempts s))), Fired)]>
                          (timers s1)) s1)))).
  { subst s2. unfold step, run_handler, timer_callback, reconnect_callback, connect,
      new_promise, new_WebSocket, try_catch, bind, gets, modify, ret.
    rewrite E2; simpl. rewrite E1; simpl.
    rewrite lookup_snoc_last; simpl. by rewrite Hlen. }
  assert (Hk2 : sockets s2 !! length (sockets s)
                = Some (mkSocket CONNECTING (length (promises s)))).
  { rewrite E3; simpl. rewrite E1; simpl. rewrite <- Hlen. apply lookup_snoc_last. }
  assert (Hp2 : promises s2 !! length (promises s) = Some Pending).
  { rewrite E3; simpl. apply lookup_snoc_last. }
  assert (E4 : connected s3 = true /\ ws s3 = Some (length (sockets s))
               /\ reconnectAttempts s3 = 0
               /\ sockets s3 = <[length (sockets s) :=
                     mkSocket OPEN (length (promises s))]> (sockets s2)
               /\ messageHandlers s3 = messageHandlers s
               /\ eventListeners s3 = eventListeners s
               /\ promises s3 = promises s ++ [Fulfilled VUndefined]).
  { subst s3. unfold step, run_handler, onopen, set_readyState, resolve, settle,
      console_log, bind, modify.
    rewrite Hk2; simpl. rewrite emit_notify.
    assert (Hl : eventListeners s2 = eventListeners s).
    { rewrite E3, E1. reflexivity. }
    unfold listenersOf in *; simpl in *. rewrite Hl, (notify_quiet _ _ Hqc); simpl.
    rewrite Hp2; simpl. rewrite E3; simpl. rewrite E1; simpl.
    split_and!; try done. apply insert_snoc_last. }
  destruct E4 as (Ec & Ew & Ea & Es & Eh & El & Ep).
  split_and!; try done; try (by rewrite E1); try (by rewrite E3).
  unfold sendable. rewrite Ec, Ew, Es.
  rewrite list_lookup_insert_eq by eauto using lookup_lt_Some. done.
Qed.

Lemma reconnection_recovers_witness :
  sockets online !! 0 = Some (mkSocket OPEN 0)
  /\ sendable (step (SocketOpen (length (sockets online)))
                 (step (TimerFires (length (timers online)) false)
                    (step (SocketClose 0) online))) = true.
Proof.
  assert (Hk : sockets online !! 0 = Some (mkSocket OPEN 0)) by (vm_compute; reflexivity).
  split; [exact Hk|].
  refine (proj1 (proj2 (proj2 (proj2 (proj2 (proj2
           (reconnection_recovers online 0 _ Hk _ _ _ _))))))).
  - simpl; discriminate.
  - vm_compute; reflexivity.
  - vm_compute; reflexivity.
  - vm_compute; lia.
Defined.

Lemma attemptReconnect_gives_up (s : State) :
  maxReconnectAttempts <= reconnectAttempts s ->
  attemptReconnect s
  = (Ok tt,
     set_console
       (console s ++
          [LogError "Maksimum yeniden bağlanma denemesine ulaşıldı";
           LogNotice "MT5 sunucusuna bağlanılamadı. Lütfen sunucunun çalıştığından emin olun."])
       s).
Proof.
  intros Hle. apply Nat.leb_le in Hle.
  unfold attemptReconnect, console_error, showError, bind, gets, modify.
  rewrite Hle; simpl. by rewrite <- app_assoc.
Qed.

(** Only an opening socket sets [connected]. *)
Lemma offline_step (e : Event) (s : State) :
  connected s = false -> (forall k, e <> SocketOpen k) ->
  connected (step e s) = false.
Proof.
  intros Hc Hno. destruct e; symbolic_step; try done.
  all: by destruct (Hno k).
Qed.

Lemma offline_run (events : list Event) (s : State) :
  connected s = false -> Forall (fun e => forall k, e <> SocketOpen k) events ->
  connected (run events s) = false.
Proof.
  revert s. induction events as [|e events IH]; intros s Hc Hall; simpl; [done|].
  inversion Hall; subst. apply IH; [|done]. by apply offline_step.
Qed.

(** X7: once the attempts are spent the connector gives up.  A further
    close (no listener of 'disconnected' throwing) arms no timer and
    creates no socket, leaves the counter where it is, marks the
    connector disconnected and reports the failure once through the
    console and [showError].  Through every run without an opening
    socket after it the connector stays disconnected and schedules no
    reconnection, and a [sendMessage] then is rejected at once as not
    connected. *)
Theorem exhausted_budget_gives_up (s : State) (k : nat) (sk : Socket)
    (events : list Event) (data : Command) :
  let s1 := step (SocketClose k) s in
  let s2 := run events s1 in
  reconnectAttempts s = maxReconnectAttempts ->
  sockets s !! k = Some sk -> readyState sk <> CLOSED ->
  quiet (listenersOf s (VStr "disconnected")) = true ->
  Forall (fun e => forall k, e <> SocketOpen k) events ->
  timers s1 = timers s
  /\ sockets s1 = <[k := mkSocket CLOSED (opener sk)]> (sockets s)
  /\ reconnectAttempts s1 = maxReconnectAttempts
  /\ connected s1 = false
  /\ console s1
     = console s ++
       [LogInfo "MT5 sunucusu bağlantısı kesildi";
        LogError "Maksimum yeniden bağlanma denemesine ulaşıldı";
        LogNotice "MT5 sunucusuna bağlanılamadı. Lütfen sunucunun çalıştığından emin olun."]
  /\ connected s2 = false
  /\ reconnectAttempts s2 = maxReconnectAttempts
  /\ reconnectDelays s2 = reconnectDelays s
  /\ promises (step (CallSendMessage data) s2) !! length (promises s2)
     = Some (Rejected (Error "Sunucuya bağlı değil")).
Proof.
  intros s1 s2 Ha Hk Hr Hq Hall.
  assert (E : s1
              = set_console
                  (console s ++
                   [LogInfo "MT5 sunucusu bağlantısı kesildi";
                    LogError "Maksimum yeniden bağlanma denemesine ulaşıldı";
                    LogNotice "MT5 sunucusuna bağlanılamadı. Lütfen sunucunun çalıştığından emin olun."])
                  (set_calls
                     (calls s ++ map (fun cb => (cb_id cb, VUndefined))
                                     (listenersOf s (VStr "disconnected")))
                     (set_connected false
                        (set_sockets (<[k := mkSocket CLOSED (opener sk)]> (sockets s)) s)))).
  { unfold s1, step, run_handler, onclose, set_readyState, console_log, bind, modify.
    rewrite Hk. destruct sk as [[] p]; simpl in *; try done.
    all: rewrite emit_notify; unfold listenersOf in *; simpl;
      rewrite (notify_quiet _ _ Hq); simpl;
      rewrite attemptReconnect_gives_up by (simpl; lia); simpl;
      by rewrite <- app_assoc. }
  assert (Ht1 : timers s1 = timers s) by (by rewrite E).
  assert (Ha1 : reconnectAttempts s1 = maxReconnectAttempts) by (by rewrite E).
  assert (Hc1 : connected s1 = false) by (by rewrite E).
  destruct (reconnect_run events s1 Hall) as (Hle & Hmax & Hdelays).
  fold s2 in Hle, Hmax, Hdelays.
  assert (Hsame : reconnectAttempts s2 = maxReconnectAttempts).
  { specialize (Hmax ltac:(lia)). lia. }
  assert (Hc2 : connected s2 = false) by (by apply offline_run).
  split_and!; try done; try (by rewrite E).
  - rewrite Hdelays, Hsame, Ha1, Nat.sub_diag. simpl. rewrite app_nil_r.
    unfold reconnectDelays. by rewrite Ht1.
  - rewrite step_sendMessage, (sendMessage_offline data s2 Hc2); simpl.
    apply lookup_snoc_last.
Qed.

Lemma exhausted_budget_gives_up_witness :
  reconnectAttempts spent = maxReconnectAttempts
  /\ sockets spent !! 5 = Some (mkSocket CONNECTING 5)
  /\ timers (step (SocketClose 5) spent) = timers spent
  /\ connected (run [CallSend get_account_data] (step (SocketClose 5) spent)) = false.
Proof.
  assert (Ha : reconnectAttempts spent = maxReconnectAttempts) by (vm_compute; reflexivity).
  assert (Hk : sockets spent !! 5 = Some (mkSocket CONNECTING 5))
    by (vm_compute; reflexivity).
  split; [exact Ha|]. split; [exact Hk|].
  assert (Hq : quiet (listenersOf spent (VStr "disconnected")) = true)
    by (vm_compute; reflexivity).
  assert (Hall : Forall (fun e => forall k, e <> SocketOpen k)
                   [CallSend get_account_data]).
  { repeat constructor; intros k; discriminate. }
  destruct (exhausted_budget_gives_up spent 5 _ _ get_account_data Ha Hk
              ltac:(simpl; discriminate) Hq Hall)
    as (Ht & _ & _ & _ & _ & Hc & _).
  split; [exact Ht|exact Hc].
Defined.

(** X8: the [close] of any socket the connector ever created, the
    current one or an older one, marks the connector as disconnected and
    leaves [ws] alone; the next [sendMessage] is rejected at once as not
    connected, even when the current socket is open. *)
Theorem any_close_disconnects (s : State) (k : nat) (sk : Socket) (data : Command) :
  let s1 := step (SocketClose k) s in
  sockets s !! k = Some sk -> readyState sk <> CLOSED ->
  connected s1 = false
  /\ ws s1 = ws s
  /\ (forall k' sk', k' <> k -> sockets s !! k' = Some sk' -> sockets s1 !! k' = Some sk')
  /\ promises (step (CallSendMessage data) s1) !! length (promises s1)
     = Some (Rejected (Error "Sunucuya bağlı değil")).
Proof.
  intros s1 Hk Hr.
  assert (H : connected s1 = false /\ ws s1 = ws s
              /\ forall k' sk', k' <> k -> sockets s !! k' = Some sk' ->
                                sockets s1 !! k' = Some sk').
  { subst s1. destruct sk as [r p]; simpl in Hr.
    symbolic_step; try done; split_and!; try done.
    all: intros k' sk' Hne Hk'; by rewrite list_lookup_insert_ne. }
  destruct H as (Hc & Hw & Hs). split_and!; try done.
  rewrite step_sendMessage, (sendMessage_offline data s1 Hc); simpl.
  apply lookup_snoc_last.
Qed.

Lemma any_close_disconnects_witness :
  sockets twoSockets !! 0 = Some (mkSocket OPEN 0)
  /\ ws twoSockets = Some 1
  /\ sockets (step (SocketClose 0) twoSockets) !! 1 = Some (mkSocket OPEN 1)
  /\ connected (step (SocketClose 0) twoSockets) = false.
Proof.
  assert (Hk : sockets twoSockets !! 0 = Some (mkSocket OPEN 0)) by (vm_compute; reflexivity).
  split; [exact Hk|]. split; [vm_compute; reflexivity|].
  destruct (any_close_disconnects twoSockets 0 _ get_account_data Hk
              ltac:(simpl; discriminate)) as (Hc & _ & Hs & _).
  split; [|exact Hc]. apply Hs; [lia|vm_compute; reflexivity].
Defined.

(* --------------------------------------------------------------------- *)
(** * MT5Service: the building blocks and the invariant                 *)
(* --------------------------------------------------------------------- *)

Section Service.
#[local] Set Warnings "-notation-overridden".
Import MT5Service.
#[local] Set Warnings "notation-overridden".

Lemma svc_set_calls_same (s : State) : set_calls (calls s ++ []) s = s.
Proof. destruct s; unfold set_calls; simpl. by rewrite app_nil_r. Qed.

Lemma svc_forEach_invoke (d : Value) (l : list Callback) (s : State) :
  forEach (fun cb => invoke cb d) l s
  = (fst (notify d l), set_calls (calls s ++ snd (notify d l)) s).
Proof.
  revert s. induction l as [|cb l IH]; intros s; simpl.
  - unfold ret. by rewrite svc_set_calls_same.
  - unfold bind at 1, invoke at 1, bind, modify.
    destruct (cb_throws cb); simpl; [reflexivity|].
    unfold ret. rewrite IH. unfold set_calls; simpl.
    by rewrite <- app_assoc.
Qed.

Lemma svc_emit_notify (event : string) (d : Value) (s : State) :
  emit event d s
  = (fst (notify d (listenersOf s event)),
     set_calls (calls s ++ snd (notify d (listenersOf s event))) s).
Proof.
  unfold emit, listenersOf, bind, gets.
  destruct (eventListeners s !! event); [apply svc_forEach_invoke|].
  unfold ret; simpl. by rewrite svc_set_calls_same.
Qed.

Lemma svc_emit_calls (event : string) (d : Value) (s : State) :
  exists r cs, emit event d s = (r, set_calls cs s).
Proof. rewrite svc_emit_notify. eauto. Qed.

Lemma svc_forEach_calls (d : Value) (l : list Callback) (s : State) :
  exists r cs, forEach (fun cb => invoke cb d) l s = (r, set_calls cs s).
Proof. rewrite svc_forEach_invoke. eauto. Qed.

(** [send] in closed form: it throws on a socket still CONNECTING,
    hands the frame to an OPEN one, drops it silently on a closing or
    closed one, and warns when the service is not connected. *)
Lemma svc_send_spec (action : string) (data : list (string * Value)) (s : State) :
  send action data s
  = match connected s, ws s with
    | true, Some k =>
        match sockets s !! k with
        | Some (mkSocket CONNECTING _) => (Throw InvalidStateError, s)
        | Some (mkSocket OPEN _) =>
            (Ok true,
             set_outbox (outbox s ++ [(k, spread [("action", VStr action)] data)]) s)
        | _ => (Ok true, s)
        end
    | _, _ => (Ok false, set_console (console s ++ [Warn "[MT5Service] Not connected"]) s)
    end.
Proof.
  unfold send, bind, gets, ws_send, log, modify, ret.
  destruct (connected s); [|done]. destruct (ws s) as [k|]; [|done].
  by destruct (sockets s !! k) as [[[] p]|].
Qed.

Lemma svc_send_effect (action : string) (data : list (string * Value)) (s : State) :
  exists r c o,
    send action data s = (r, set_outbox o (set_console c s))
    /\ (r = Ok true \/ r = Ok false \/ r = Throw InvalidStateError).
Proof.
  rewrite svc_send_spec.
  assert (Hs : set_outbox (outbox s) (set_console (console s) s) = s) by by destruct s.
  destruct (connected s); [destruct (ws s) as [k|]|].
  - destruct (sockets s !! k) as [[[] p]|].
    + exists (Throw InvalidStateError), (console s), (outbox s). rewrite Hs; eauto.
    + exists (Ok true), (console s),
        (outbox s ++ [(k, spread [("action", VStr action)] data)]).
      split; [|eauto]. by destruct s.
    + exists (Ok true), (console s), (outbox s). rewrite Hs; eauto.
    + exists (Ok true), (console s), (outbox s). rewrite Hs; eauto.
    + exists (Ok true), (console s), (outbox s). rewrite Hs; eauto.
  - exists (Ok false), (console s ++ [Warn "[MT5Service] Not connected"]), (outbox s).
    split; [|eauto]. by destruct s.
  - exists (Ok false), (console s ++ [Warn "[MT5Service] Not connected"]), (outbox s).
    split; [|eauto]. by destruct s.
Qed.

Ltac svc_emit_out :=
  match goal with
  | |- context [emit ?ev ?d ?s] =>
      let r := fresh "r" in let cs := fresh "cs" in let E := fresh "E" in
      destruct (svc_emit_calls ev d s) as (r & cs & E); rewrite E; clear E; destruct r
  | |- context [forEach (fun cb => invoke cb ?d) ?l ?s] =>
      let r := fresh "r" in let cs := fresh "cs" in let E := fresh "E" in
      destruct (svc_forEach_calls d l s) as (r & cs & E); rewrite E; clear E; destruct r
  end.

Ltac svc_send_out :=
  match goal with
  | |- context [send ?a ?d ?s] =>
      let r := fresh "sent" in let c := fresh "c" in let o := fresh "o" in
      let E := fresh "E" in let Hr := fresh "Hr" in
      destruct (svc_send_effect a d s) as (r & c & o & E & [Hr|[Hr|Hr]]);
      rewrite E; clear E; subst r
  end.

Ltac svc_open_methods :=
  unfold step, run_handler, set_readyState, timer_callback, reconnect_callback,
    request_timeout, connect_timeout, sendAndWait, connect, disconnect, onopen,
    onmessage, onerror, onclose, attemptReconnect, handleMessage, on, addEventListener,
    resolve, reject, setTimeout, clearTimeout, new_promise, new_WebSocket, ws_close,
    log, try_catch, lift, gets, modify, bind, ret, throw in *.

Ltac svc_step :=
  svc_open_methods; simpl;
  repeat (first [ svc_emit_out | svc_send_out | inner_case ];
          simpl in *; simplify_eq; simpl in * ).

Lemma Sound_initial : Sound initial.
Proof. constructor; simpl; intros; try done. unfold maxReconnectAttempts; lia. Qed.

Ltac sound_facts He Ht Hc Hs :=
  repeat match goal with
  | H : pendingRequests _ !! ?i = Some ?pr |- _ =>
      lazymatch goal with
      | _ : timers _ !! timeoutId pr = Some _ |- _ => fail
      | _ => let d := fresh "d" in destruct (He _ _ H) as [d ?]
      end
  end;
  repeat match goal with
  | H : timers _ !! _ = Some (?tm, _), H' : task ?tm = RequestTimeout ?i ?p |- _ =>
      lazymatch goal with
      | _ : p < length (promises _) |- _ => fail
      | _ => destruct (Ht _ _ _ _ _ H H') as [[? ?] ?]
      end
  | H : timers _ !! _ = Some (mkTimer (RequestTimeout ?i ?p) _, _) |- _ =>
      lazymatch goal with
      | _ : p < length (promises _) |- _ => fail
      | _ => destruct (Ht _ _ _ _ _ H eq_refl) as [[? ?] ?]
      end
  | H : timers _ !! _ = Some (?tm, _), H' : task ?tm = ConnectTimeout ?p |- _ =>
      lazymatch goal with
      | _ : p < length (promises _) |- _ => fail
      | _ => pose proof (Hc _ _ _ _ H H')
      end
  | H : sockets _ !! _ = Some ?sk |- _ =>
      lazymatch goal with
      | _ : opener sk < length (promises _) |- _ => fail
      | _ => pose proof (Hs _ _ H)
      end
  end.

Ltac sound_distinct Ho Hca Hsa :=
  let E := fresh "E" in
  intros E; subst; simplify_eq/=;
  first
    [ lia
    | congruence
    | by eapply Hsa; eauto
    | match goal with
      | Hx : timers _ !! _ = Some (?tm, _), Hy : task ?tm = ConnectTimeout _,
        Hz : timers _ !! _ = Some (mkTimer (RequestTimeout _ _) _, _) |- _ =>
          exact (Hca _ _ _ _ _ _ _ _ Hx Hy Hz eq_refl)
      end
    | match goal with
      | H1 : timers _ !! ?t1 = Some _, H2 : timers _ !! ?t2 = Some _ |- _ =>
          assert (t1 = t2) by (eapply (Ho t1 t2); eauto);
          subst; simplify_eq/=; first [congruence | lia]
      end ].

Ltac sound_lookup Ho Hca Hsa :=
  rewrite ?insert_snoc_last;
  repeat first
    [ rewrite list_lookup_insert_ne; [|sound_distinct Ho Hca Hsa]
    | apply lookup_app_l_Some ];
  list_goal;
  first [ by eauto | apply lookup_snoc_last ].

Lemma Sound_step (e : Event) (s : State) : Sound s -> Sound (step e s).
Proof.
  intros [He Hp Ht Ho Hc Hca Hs Hsa Ha]. destruct e; svc_step.
  all: try (by constructor).
  all: constructor; simpl; intros; invert_lookups.
  all: try (unfold maxReconnectAttempts in *; simpl in *; lia).
  all: try (by eauto).
  all: sound_facts He Ht Hc Hs; simpl in *; simplify_eq.
  all: rewrite ?length_insert, ?length_app; simpl.
  all: try lia.
  all: try (eexists; by apply lookup_snoc_last).
  all: try (left; by apply lookup_snoc_last).
  all: try (right; rewrite insert_snoc_last; by apply lookup_snoc_last).
  all: try (eexists; by sound_lookup Ho Hca Hsa).
  all: try (match goal with
            | H : pendingRequests _ !! _ = Some _ |- _ \/ _ =>
                destruct (Hp _ _ H) as [?|?]; [left|right]; by sound_lookup Ho Hca Hsa
            end).
  all: try (left; by sound_lookup Ho Hca Hsa).
  all: try (right; by sound_lookup Ho Hca Hsa).
Qed.

Lemma Sound_run (events : list Event) (s : State) : Sound s -> Sound (run events s).
Proof.
  revert s. induction events as [|e events IH]; intros s H; simpl; [done|].
  apply IH, Sound_step, H.
Qed.

Lemma requestIdOf_parsed (data : Frame) (message v : Value) (key : nat) :
  JSON_parse data = Ok message -> prop message "request_id" = Ok v ->
  pending_key v = Some key -> requestIdOf data = Some key.
Proof. destruct data; simpl; [done|]. intros [= ->] ->. done. Qed.

Ltac waiting_distinct Ho Hca Hsa Hno :=
  let E := fresh "E" in
  intros E; subst; simplify_eq/=;
  first
    [ lia
    | congruence
    | done
    | by eapply Hsa; eauto
    | match goal with
      | Hx : timers _ !! _ = Some (?tm, _), Hy : task ?tm = ConnectTimeout _,
        Hz : timers _ !! _ = Some (mkTimer (RequestTimeout _ _) _, _) |- _ =>
          exact (Hca _ _ _ _ _ _ _ _ Hx Hy Hz eq_refl)
      end
    | apply Hno; by eapply requestIdOf_parsed
    | match goal with
      | H1 : timers _ !! ?t1 = Some _, H2 : timers _ !! ?t2 = Some _ |- _ =>
          assert (t1 = t2) by (eapply (Ho t1 t2); eauto);
          subst; simplify_eq/=;
          first [ congruence | lia | done | apply Hno; by eapply requestIdOf_parsed ]
      end ].

Lemma Waiting_step (e : Event) (s : State) (id pid tid : nat) (d : Z) :
  Sound s -> Waiting s id pid tid d -> ~ touches id tid e ->
  Waiting (step e s) id pid tid d.
Proof.
  intros [He Hp Ht Ho Hc Hca Hs Hsa Ha] (Hid & Hpid & Htid) Hno.
  destruct (Ht _ _ _ _ _ Htid eq_refl) as [[? ?] ?].
  pose proof (lookup_lt_Some _ _ _ Htid).
  unfold Waiting. destruct e; svc_step.
  all: try done.
  all: split_and!.
  all: try done.
  all: sound_facts He Ht Hc Hs; simpl in *; simplify_eq.
  all: rewrite ?insert_snoc_last.
  all: repeat first
         [ rewrite list_lookup_insert_ne; [|waiting_distinct Ho Hca Hsa Hno]
         | rewrite lookup_insert_ne; [|waiting_distinct Ho Hca Hsa Hno]
         | rewrite lookup_delete_ne; [|waiting_distinct Ho Hca Hsa Hno]
         | apply lookup_app_l_Some ].
  all: done.
Qed.

Lemma Waiting_run (events : list Event) (s : State) (id pid tid : nat) (d : Z) :
  Sound s -> Waiting s id pid tid d ->
  Forall (fun e => ~ touches id tid e) events ->
  Waiting (run events s) id pid tid d.
Proof.
  revert s. induction events as [|e events IH]; intros s Hs Hw Hall; simpl; [done|].
  inversion Hall; subst. apply IH; [by apply Sound_step| |done].
  by apply Waiting_step.
Qed.

(* --------------------------------------------------------------------- *)
(** * MT5Service: requests and their replies                            *)
(* --------------------------------------------------------------------- *)

(** [sendAndWait] when [send] does not throw. *)
Lemma sendAndWait_registers (action : string) (data : list (string * Value))
    (timeout : Z) (s : State) :
  send_throws s = false ->
  Waiting (step (CallSendAndWait action data timeout) s)
          (S (requestId s)) (length (promises s)) (length (timers s)) timeout.
Proof.
  intros Hs. unfold Waiting, step, run_handler, sendAndWait, new_promise, setTimeout,
    try_catch, gets, modify, bind, ret.
  rewrite svc_send_spec. unfold send_throws in Hs. simpl.
  destruct (connected s); [destruct (ws s) as [k|]|]; simpl.
  1: destruct (sockets s !! k) as [[[] p]|]; try done; simpl.
  all: split_and!; [by rewrite lookup_insert_eq | apply lookup_snoc_last
                    | apply lookup_snoc_last].
Qed.

(** A frame that names a waiting request, on an open socket. *)
Lemma reply_settles (s : State) (k p : nat) (message : Value) (id pid tid : nat) (d : Z) :
  sockets s !! k = Some (mkSocket OPEN p) ->
  requestIdOf (Text message) = Some id ->
  Waiting s id pid tid d ->
  step (SocketMessage k (Text message)) s
  = set_promises (<[pid := Fulfilled message]> (promises s))
      (set_pendingRequests (delete id (pendingRequests s))
         (set_timers (<[tid := (mkTimer (RequestTimeout id pid) d, Cleared)]> (timers s)) s)).
Proof.
  intros Hk Hid (He & Hp & Ht). unfold step. rewrite Hk.
  unfold requestIdOf in Hid. destruct (prop message "request_id") as [v|] eqn:Hv; [|done].
  assert (Htr : truthy v = true).
  { destruct v; simpl in *; try done. destruct (0 <? n)%Z eqn:E; [|done].
    apply Z.ltb_lt in E. apply negb_true_iff, Z.eqb_neq. lia. }
  unfold run_handler, onmessage, handleMessage, try_catch, lift, gets, bind, JSON_parse.
  rewrite Hv, Htr, Hid, He.
  unfold clearTimeout, resolve, modify, ret; simpl. rewrite Ht; simpl. by rewrite Hp.
Qed.

(** The timer of a waiting request fires. *)
Lemma expiry_settles (s : State) (c : bool) (id pid tid : nat) (d : Z) :
  Waiting s id pid tid d ->
  let s' := step (TimerFires tid c) s in
  promises s' = <[pid := Rejected (Error "Request timeout")]> (promises s)
  /\ pendingRequests s' = delete id (pendingRequests s)
  /\ timers s' = <[tid := (mkTimer (RequestTimeout id pid) d, Fired)]> (timers s).
Proof.
  intros (He & Hp & Ht). unfold step. rewrite Ht.
  unfold run_handler, timer_callback, request_timeout, reject, modify, bind; simpl.
  rewrite Hp. by destruct (existsb (Nat.eqb pid) (catching s)).
Qed.

(** X9: in every state the service can reach, a request found in
    [pendingRequests] carries an id handed out before, its own timer is
    still armed, and its promise is still pending unless the [send] of
    its own call threw. *)
Theorem pending_request_keeps_its_timer (events : list Event) (id : nat)
    (pr : PendingRequest) :
  let s := run events initial in
  pendingRequests s !! id = Some pr ->
  1 <= id <= requestId s
  /\ (exists d, timers s !! timeoutId pr
                = Some (mkTimer (RequestTimeout id (promiseOf pr)) d, Armed))
  /\ (promises s !! promiseOf pr = Some Pending
      \/ promises s !! promiseOf pr = Some (Rejected InvalidStateError)).
Proof.
  intros s Hid.
  destruct (Sound_run events initial Sound_initial) as [He Hp Ht _ _ _ _ _ _].
  fold s in He, Hp, Ht. destruct (He _ _ Hid) as [d Hd].
  split_and!; [eapply Ht; eauto..|by eauto|by eauto].
Qed.

Lemma pending_request_keeps_its_timer_witness :
  pendingRequests
    (run [CallConnect false; SocketOpen 0; CallSendAndWait "get_account_data" [] 30000]
       initial) !! 1 = Some (mkPending 1 1)
  /\ 1 <= 1 <= requestId
       (run [CallConnect false; SocketOpen 0; CallSendAndWait "get_account_data" [] 30000]
          initial).
Proof.
  assert (H : pendingRequests
                (run [CallConnect false; SocketOpen 0;
                      CallSendAndWait "get_account_data" [] 30000] initial) !! 1
              = Some (mkPending 1 1)) by (vm_compute; reflexivity).
  split; [exact H|].
  exact (proj1 (pending_request_keeps_its_timer _ _ _ H)).
Defined.

(** X10: a call of [sendAndWait] whose [send] does not throw gets the
    next id; whatever happens afterwards, its promise stays pending
    until a frame naming that id arrives or its own timer fires.  Such a
    frame, on an open socket, fulfils the promise with the whole
    message, clears the timer and removes the entry without calling any
    handler or listener; the timer rejects the promise with
    'Request timeout' and removes the entry. *)
Theorem request_settles_by_reply_or_timeout (events later : list Event)
    (action : string) (data : list (string * Value)) (timeout : Z) :
  let s := run events initial in
  let id := S (requestId s) in
  let pid := length (promises s) in
  let tid := length (timers s) in
  let s2 := run later (step (CallSendAndWait action data timeout) s) in
  send_throws s = false ->
  Forall (fun e => ~ touches id tid e) later ->
  promises s2 !! pid = Some Pending
  /\ (forall k p message,
        sockets s2 !! k = Some (mkSocket OPEN p) ->
        requestIdOf (Text message) = Some id ->
        let s3 := step (SocketMessage k (Text message)) s2 in
        promises s3 !! pid = Some (Fulfilled message)
        /\ pendingRequests s3 !! id = None
        /\ timers s3 !! tid = Some (mkTimer (RequestTimeout id pid) timeout, Cleared)
        /\ calls s3 = calls s2)
  /\ (forall c,
        let s3 := step (TimerFires tid c) s2 in
        promises s3 !! pid = Some (Rejected (Error "Request timeout"))
        /\ pendingRequests s3 !! id = None).
Proof.
  intros s id pid tid s2 Hs Hall.
  assert (Hw : Waiting s2 id pid tid timeout).
  { apply Waiting_run; [|by apply sendAndWait_registers|done].
    apply Sound_step, Sound_run, Sound_initial. }
  pose proof Hw as (He & Hp & Ht).
  pose proof (lookup_lt_Some _ _ _ Hp). pose proof (lookup_lt_Some _ _ _ Ht).
  split_and!; [done|..].
  - intros k p message Hk Hid s3. unfold s3.
    rewrite (reply_settles _ _ _ _ _ _ _ _ Hk Hid Hw); simpl.
    split_and!; [by apply list_lookup_insert_eq | by rewrite lookup_delete_eq
                 | by apply list_lookup_insert_eq | done].
  - intros c s3. destruct (expiry_settles s2 c _ _ _ _ Hw) as (E1 & E2 & _).
    unfold s3. rewrite E1, E2.
    split; [by apply list_lookup_insert_eq | by rewrite lookup_delete_eq].
Qed.

Lemma request_settles_by_reply_or_timeout_witness :
  promises
    (run [CallOn "tick" (mkCallback 7 false)]
       (step (CallSendAndWait "get_account_data" [] 30000)
          (run [CallConnect false; SocketOpen 0] initial)))
    !! length (promises (run [CallConnect false; SocketOpen 0] initial))
  = Some Pending.
Proof.
  assert (H1 : send_throws (run [CallConnect false; SocketOpen 0] initial) = false)
    by (vm_compute; reflexivity).
  refine (proj1 (request_settles_by_reply_or_timeout
                   [CallConnect false; SocketOpen 0] [CallOn "tick" (mkCallback 7 false)]
                   "get_account_data" [] 30000 H1 _)).
  constructor; [|constructor]. simpl. tauto.
Defined.

(** X21: in every state the service can reach, two requests in
    [pendingRequests] under different ids share neither their timer nor
    their promise: what settles one cannot settle the other. *)
Theorem requests_do_not_share (events : list Event) (id id' : nat)
    (pr pr' : PendingRequest) :
  let s := run events initial in
  pendingRequests s !! id = Some pr -> pendingRequests s !! id' = Some pr' ->
  id <> id' ->
  timeoutId pr <> timeoutId pr' /\ promiseOf pr <> promiseOf pr'.
Proof.
  intros s H1 H2 Hne.
  destruct (Sound_run events initial Sound_initial) as [He _ _ Ho _ _ _ _ _].
  fold s in He, Ho.
  destruct (He _ _ H1) as [d1 T1]. destruct (He _ _ H2) as [d2 T2].
  assert (Hd : timeoutId pr <> timeoutId pr').
  { intros E. rewrite E in T1. rewrite T1 in T2. by injection T2. }
  split; [done|]. intros E. apply Hd.
  eapply (Ho _ _ _ _ _ _ _ _ _ _ T1 eq_refl T2 eq_refl). by right.
Qed.

Lemma requests_do_not_share_witness :
  timeoutId (mkPending 1 1) <> timeoutId (mkPending 2 2)
  /\ promiseOf (mkPending 1 1) <> promiseOf (mkPending 2 2).
Proof.
  assert (H1 : pendingRequests
                 (run [CallConnect false; SocketOpen 0;
                       CallSendAndWait "get_account_data" [] 30000;
                       CallSendAndWait "get_account_data" [] 30000] initial) !! 1
               = Some (mkPending 1 1)) by (vm_compute; reflexivity).
  assert (H2 : pendingRequests
                 (run [CallConnect false; SocketOpen 0;
                       CallSendAndWait "get_account_data" [] 30000;
                       CallSendAndWait "get_account_data" [] 30000] initial) !! 2
               = Some (mkPending 2 2)) by (vm_compute; reflexivity).
  assert (H3 : 1 <> 2) by lia.
  exact (requests_do_not_share _ 1 2 _ _ H1 H2 H3).
Defined.


(* --------------------------------------------------------------------- *)
(** * MT5Service: routing of inbound messages                           *)
(* --------------------------------------------------------------------- *)

(** The request of [pendingRequests] an inbound frame answers. *)
Lemma pending_lookup (s : State) (message v : Value) :
  prop message "request_id" = Ok v ->
  (if truthy v then
     match pending_key v with
     | Some key => pendingRequests s !! key
     | None => None
     end
   else None)
  = requestIdOf (Text message) ≫= (fun id => pendingRequests s !! id).
Proof.
  intros Hv. unfold requestIdOf. rewrite Hv.
  destruct (pending_key v) as [key|] eqn:Hk; simpl; [|by destruct (truthy v)].
  destruct v; simpl in *; try done. destruct (0 <? n)%Z eqn:E; [|done].
  apply Z.ltb_lt in E. destruct (Z.eqb_spec n 0); [lia|done].
Qed.

Lemma prop_defined (message v : Value) (name : string) :
  prop message name = Ok v -> exists w, prop message "request_id" = Ok w.
Proof. destruct message; simpl; try done; eauto. Qed.

(** A message that answers no pending request goes to the handlers of
    its type, then to the listeners of 'message'; whatever one of them
    throws ends the dispatch and is logged as a parse error. *)
Lemma message_dispatch (s : State) (k p : nat) (message : Value) (ty : string) :
  sockets s !! k = Some (mkSocket OPEN p) ->
  prop message "type" = Ok (VStr ty) -> ty <> "" ->
  requestIdOf (Text message) ≫= (fun id => pendingRequests s !! id) = None ->
  step (SocketMessage k (Text message)) s
  = match fst (notify message (handlersOf s ty)) with
    | Throw e =>
        set_console (console s ++ [ErrWith "[MT5Service] Message parse error:" e])
          (set_calls (calls s ++ snd (notify message (handlersOf s ty))) s)
    | Ok _ =>
        match fst (notify message (listenersOf s "message")) with
        | Throw e =>
            set_console (console s ++ [ErrWith "[MT5Service] Message parse error:" e])
              (set_calls (calls s ++ snd (notify message (handlersOf s ty))
                                  ++ snd (notify message (listenersOf s "message"))) s)
        | Ok _ =>
            set_calls (calls s ++ snd (notify message (handlersOf s ty))
                                ++ snd (notify message (listenersOf s "message"))) s
        end
    end.
Proof.
  intros Hk Hty Hne Hid. unfold step. rewrite Hk.
  destruct (prop_defined _ _ _ Hty) as [v Hv].
  unfold run_handler, onmessage, handleMessage, try_catch, lift, gets, bind at 1 2 3,
    JSON_parse.
  rewrite Hv, (pending_lookup s message v Hv), Hid, Hty.
  assert (Htr : truthy (VStr ty) = true).
  { simpl. by destruct (String.eqb_spec ty ""). }
  unfold bind at 1 2. rewrite Htr. unfold map_get, handlersOf, bind.
  destruct (handlers s !! ty) as [hs|]; simpl.
  - rewrite svc_forEach_invoke. destruct (fst (notify message hs)); simpl.
    + rewrite svc_emit_notify. unfold listenersOf; simpl.
      destruct (fst (notify message _)); simpl; unfold log, modify; simpl;
        unfold set_calls, set_console; simpl; by rewrite <- app_assoc.
    + by unfold log, modify.
  - unfold ret. rewrite svc_emit_notify. unfold listenersOf; simpl.
    destruct (fst (notify message _)); simpl; unfold log, modify; simpl; done.
Qed.

(** A message that answers a pending request calls nobody. *)
Lemma reply_calls_nobody (s : State) (k p : nat) (message : Value) (pr : PendingRequest) :
  sockets s !! k = Some (mkSocket OPEN p) ->
  requestIdOf (Text message) ≫= (fun id => pendingRequests s !! id) = Some pr ->
  calls (step (SocketMessage k (Text message)) s) = calls s
  /\ console (step (SocketMessage k (Text message)) s) = console s.
Proof.
  intros Hk Hid. unfold step. rewrite Hk.
  assert (exists v, prop message "request_id" = Ok v) as [v Hv].
  { unfold requestIdOf in Hid. destruct (prop message "request_id"); [eauto|done]. }
  split.
  all: unfold run_handler, onmessage, handleMessage, try_catch, lift, gets,
         bind at 1 2 3, JSON_parse.
  all: rewrite Hv, (pending_lookup s message v Hv), Hid; destruct pr as [pid tid].
  all: unfold clearTimeout, resolve, modify, bind, ret; simpl.
  all: destruct (timers s !! tid) as [[t []]|]; simpl;
         destruct (pending_key v); simpl;
         by destruct (promises s !! pid) as [[]|].
Qed.

(** X11: on an open socket, a message that names a pending request is
    consumed by that request: no handler of its type and no listener of
    'message' is called, whatever is registered.  Any other message with
    a non-empty type is handed to every handler of that type in order
    of registration, then to every listener of 'message'. *)
Theorem reply_bypasses_subscribers (s : State) (k p : nat) (message : Value)
    (ty : string) :
  sockets s !! k = Some (mkSocket OPEN p) ->
  prop message "type" = Ok (VStr ty) -> ty <> "" ->
  quiet (handlersOf s ty) = true -> quiet (listenersOf s "message") = true ->
  calls (step (SocketMessage k (Text message)) s)
  = match requestIdOf (Text message) ≫= (fun id => pendingRequests s !! id) with
    | Some _ => calls s
    | None => calls s ++ map (fun cb => (cb_id cb, message))
                             (handlersOf s ty ++ listenersOf s "message")
    end.
Proof.
  intros Hk Hty Hne Hq1 Hq2.
  destruct (requestIdOf (Text message) ≫= _) as [pr|] eqn:Hid.
  - by destruct (reply_calls_nobody s k p message pr Hk Hid).
  - rewrite (message_dispatch s k p message ty Hk Hty Hne Hid).
    rewrite (notify_quiet _ _ Hq1), (notify_quiet _ _ Hq2); simpl.
    by rewrite map_app.
Qed.

Lemma reply_bypasses_subscribers_witness :
  calls (step (SocketMessage 0 (Text tick)) subscribed)
  = match requestIdOf (Text tick) ≫= (fun id => pendingRequests subscribed !! id) with
    | Some _ => calls subscribed
    | None => calls subscribed ++ map (fun cb => (cb_id cb, tick))
                                      (handlersOf subscribed "tick"
                                       ++ listenersOf subscribed "message")
    end.
Proof.
  assert (H1 : sockets subscribed !! 0 = Some (mkSocket OPEN 0))
    by (vm_compute; reflexivity).
  assert (H2 : quiet (handlersOf subscribed "tick") = true) by (vm_compute; reflexivity).
  assert (H3 : quiet (listenersOf subscribed "message") = true)
    by (vm_compute; reflexivity).
  assert (H4 : "tick" <> "") by discriminate.
  exact (reply_bypasses_subscribers subscribed 0 0 tick "tick" H1 eq_refl H4 H2 H3).
Defined.

(** X12: when a handler of the message's type throws, the handlers after
    it and the listeners of 'message' are not called, the exception does
    not leave [handleMessage], and it is logged as a message parse
    error. *)
Theorem handler_error_logged_as_parse_error (s : State) (k p : nat) (message : Value)
    (ty : string) (pre post : list Callback) (cb : Callback) :
  let s' := step (SocketMessage k (Text message)) s in
  sockets s !! k = Some (mkSocket OPEN p) ->
  prop message "type" = Ok (VStr ty) -> ty <> "" ->
  requestIdOf (Text message) ≫= (fun id => pendingRequests s !! id) = None ->
  handlersOf s ty = pre ++ cb :: post ->
  quiet pre = true -> cb_throws cb = true ->
  calls s' = calls s ++ map (fun c => (cb_id c, message)) (pre ++ [cb])
  /\ console s'
     = console s ++ [ErrWith "[MT5Service] Message parse error:" (CallbackError (cb_id cb))]
  /\ uncaught s' = uncaught s.
Proof.
  intros s' Hk Hty Hne Hid Hh Hpre Hcb. unfold s'.
  rewrite (message_dispatch s k p message ty Hk Hty Hne Hid), Hh.
  by rewrite (notify_thrower message pre post cb Hpre Hcb).
Qed.

Lemma handler_error_logged_as_parse_error_witness :
  uncaught (step (SocketMessage 0 (Text tick)) faulty) = uncaught faulty.
Proof.
  assert (H1 : sockets faulty !! 0 = Some (mkSocket OPEN 0)) by (vm_compute; reflexivity).
  assert (H2 : requestIdOf (Text tick) ≫= (fun id => pendingRequests faulty !! id) = None)
    by (vm_compute; reflexivity).
  assert (H3 : handlersOf faulty "tick"
               = [mkCallback 1 false] ++ mkCallback 2 true :: [mkCallback 3 false])
    by (vm_compute; reflexivity).
  assert (H4 : "tick" <> "") by discriminate.
  exact (proj2 (proj2 (handler_error_logged_as_parse_error faulty 0 0 tick "tick"
                         [mkCallback 1 false] [mkCallback 3 false] (mkCallback 2 true)
                         H1 eq_refl H4 H2 H3 eq_refl eq_refl))).
Defined.

(* --------------------------------------------------------------------- *)
(** * MT5Service: reconnection                                          *)
(* --------------------------------------------------------------------- *)

Lemma svc_close_step (s : State) (k : nat) (sk : Socket) :
  sockets s !! k = Some sk -> readyState sk <> CLOSED ->
  step (SocketClose k) s
  = run_handler onclose
      (set_sockets (<[k := mkSocket CLOSED (opener sk)]> (sockets s)) s).
Proof.
  intros Hk Hr. unfold step, set_readyState. rewrite Hk.
  destruct sk as [[] p]; simpl in *; done.
Qed.

Lemma attemptReconnect_spec (s : State) :
  attemptReconnect s
  = if (maxReconnectAttempts <=? reconnectAttempts s)%nat then
      (Ok tt, set_console (console s ++ [Err "[MT5Service] Max reconnect attempts reached"]) s)
    else
      (Ok tt,
       set_timers (timers s ++ [(mkTimer ReconnectTask (backoff (S (reconnectAttempts s))),
                                 Armed)])
         (set_console (console s ++ [Reconnecting (backoff (S (reconnectAttempts s)))
                                       (S (reconnectAttempts s))])
            (set_reconnectAttempts (S (reconnectAttempts s)) s))).
Proof.
  unfold attemptReconnect, bind, gets, log, modify, setTimeout, ret, backoff.
  by destruct (maxReconnectAttempts <=? reconnectAttempts s)%nat.
Qed.

Lemma close_spec (s : State) (k : nat) (sk : Socket) :
  sockets s !! k = Some sk -> readyState sk <> CLOSED ->
  quiet (listenersOf s "disconnected") = true ->
  step (SocketClose k) s
  = run_handler attemptReconnect
      (set_calls (calls s ++ map (fun cb => (cb_id cb, VNull))
                                 (listenersOf s "disconnected"))
         (set_console (console s ++ [Info "[MT5Service] Connection closed"])
            (set_connected false
               (set_sockets (<[k := mkSocket CLOSED (opener sk)]> (sockets s)) s)))).
Proof.
  intros Hk Hr Hq. rewrite (svc_close_step s k sk Hk Hr).
  unfold run_handler, onclose, bind at 1 2 3, modify at 1, log at 1, modify at 1.
  rewrite svc_emit_notify. unfold listenersOf in *; simpl.
  by rewrite (notify_quiet _ _ Hq).
Qed.

Lemma close_reconnects (s : State) (k : nat) (sk : Socket) :
  let s' := step (SocketClose k) s in
  let n := reconnectAttempts s in
  sockets s !! k = Some sk -> readyState sk <> CLOSED ->
  quiet (listenersOf s "disconnected") = true ->
  connected s' = false
  /\ (n < 5 ->
      timers s' = timers s ++ [(mkTimer ReconnectTask (backoff (S n)), Armed)]
      /\ reconnectAttempts s' = S n)
  /\ (5 <= n ->
      timers s' = timers s
      /\ reconnectAttempts s' = n
      /\ console s' = console s ++ [Info "[MT5Service] Connection closed";
                                    Err "[MT5Service] Max reconnect attempts reached"]).
Proof.
  intros s' n Hk Hr Hq. unfold s'. rewrite (close_spec s k sk Hk Hr Hq).
  unfold run_handler. rewrite attemptReconnect_spec.
  cbn [reconnectAttempts set_calls set_console set_connected set_sockets]. fold n.
  destruct (Nat.leb_spec maxReconnectAttempts n) as [Hn|Hn];
    unfold maxReconnectAttempts in Hn; simpl.
  - split_and!; [done|lia|]. intros _. by rewrite <- app_assoc.
  - split_and!; [done| |lia]. done.
Qed.

(** X13: when a socket closes and nobody listening to 'disconnected'
    throws, the service marks itself disconnected and, while fewer than
    five attempts were made, arms one reconnection timer whose delay
    doubles from 2000 ms with each attempt and is capped at 30000 ms;
    from the fifth attempt on it arms none and logs that it gives up. *)
Theorem service_backoff_is_capped (s : State) (k : nat) (sk : Socket) :
  let s' := step (SocketClose k) s in
  let n := reconnectAttempts s in
  sockets s !! k = Some sk -> readyState sk <> CLOSED ->
  quiet (listenersOf s "disconnected") = true ->
  connected s' = false
  /\ (n < 5 ->
      timers s' = timers s ++ [(mkTimer ReconnectTask (backoff (S n)), Armed)]
      /\ reconnectAttempts s' = S n
      /\ backoff (S n) = nth n [2000; 4000; 8000; 16000; 30000]%Z 0%Z)
  /\ (5 <= n ->
      timers s' = timers s
      /\ reconnectAttempts s' = n
      /\ console s' = console s ++ [Info "[MT5Service] Connection closed";
                                    Err "[MT5Service] Max reconnect attempts reached"]).
Proof.
  intros s' n Hk Hr Hq.
  destruct (close_reconnects s k sk Hk Hr Hq) as (H1 & H2 & H3).
  split_and!; [done| |done].
  intros Hn. destruct (H2 Hn) as (? & ?). split_and!; [done..|].
  clear -Hn. subst n. revert Hn. generalize (reconnectAttempts s). intros n Hn.
  do 5 (destruct n as [|n]; [by vm_compute|]). lia.
Qed.

Lemma service_backoff_is_capped_witness :
  connected (step (SocketClose 0) online) = false.
Proof.
  assert (H1 : sockets online !! 0 = Some (mkSocket OPEN 0)) by (vm_compute; reflexivity).
  assert (H2 : readyState (mkSocket OPEN 0) <> CLOSED) by discriminate.
  assert (H3 : quiet (listenersOf online "disconnected") = true)
    by (vm_compute; reflexivity).
  exact (proj1 (service_backoff_is_capped online 0 (mkSocket OPEN 0) H1 H2 H3)).
Defined.

(** X14: a listener of 'disconnected' that throws keeps [onclose] from
    reaching [attemptReconnect]: no timer is armed, the attempt counter
    stays, and the exception leaves the handler. *)
Theorem throwing_listener_blocks_reconnect (s : State) (k : nat) (sk : Socket)
    (pre post : list Callback) (cb : Callback) :
  let s' := step (SocketClose k) s in
  sockets s !! k = Some sk -> readyState sk <> CLOSED ->
  listenersOf s "disconnected" = pre ++ cb :: post ->
  quiet pre = true -> cb_throws cb = true ->
  connected s' = false
  /\ timers s' = timers s
  /\ reconnectAttempts s' = reconnectAttempts s
  /\ uncaught s' = uncaught s ++ [CallbackError (cb_id cb)].
Proof.
  intros s' Hk Hr Hl Hq Hcb.
  assert (E : s' = set_uncaught (uncaught s ++ [CallbackError (cb_id cb)])
                     (set_calls (calls s ++ map (fun c => (cb_id c, VNull)) (pre ++ [cb]))
                        (set_console (console s ++ [Info "[MT5Service] Connection closed"])
                           (set_connected false
                              (set_sockets (<[k := mkSocket CLOSED (opener sk)]> (sockets s))
                                 s))))).
  { unfold s'. rewrite (svc_close_step s k sk Hk Hr).
    unfold run_handler, onclose, bind at 1 2 3, modify at 1, log at 1, modify at 1.
    rewrite svc_emit_notify. unfold listenersOf in *; simpl. rewrite Hl.
    by rewrite (notify_thrower VNull pre post cb Hq Hcb). }
  by rewrite E.
Qed.

Lemma throwing_listener_blocks_reconnect_witness :
  timers (step (SocketClose 0) guarded) = timers guarded.
Proof.
  assert (H1 : sockets guarded !! 0 = Some (mkSocket OPEN 0)) by (vm_compute; reflexivity).
  assert (H2 : readyState (mkSocket OPEN 0) <> CLOSED) by discriminate.
  assert (H3 : listenersOf guarded "disconnected" = [] ++ mkCallback 5 true :: [])
    by (vm_compute; reflexivity).
  exact (proj1 (proj2 (throwing_listener_blocks_reconnect guarded 0 (mkSocket OPEN 0)
                         [] [] (mkCallback 5 true) H1 H2 H3 eq_refl eq_refl))).
Defined.



(* --------------------------------------------------------------------- *)
(** * MT5Service: what goes on the wire                                 *)
(* --------------------------------------------------------------------- *)

Lemma assoc_obj_set_eq (k : string) (v : Value) (o : list (string * Value)) :
  assoc k (obj_set k v o) = v.
Proof.
  induction o as [|[k' v'] o IH]; simpl.
  - by rewrite String.eqb_refl.
  - destruct (String.eqb_spec k' k) as [->|Hne]; simpl.
    + by rewrite String.eqb_refl.
    + by destruct (String.eqb_spec k' k).
Qed.

Lemma assoc_obj_set_ne (k k' : string) (v : Value) (o : list (string * Value)) :
  k <> k' -> assoc k (obj_set k' v o) = assoc k o.
Proof.
  intros Hne. induction o as [|[k1 v1] o IH]; simpl.
  - by destruct (String.eqb_spec k' k) as [->|_].
  - destruct (String.eqb_spec k1 k') as [->|H1]; simpl.
    + by destruct (String.eqb_spec k' k) as [->|_].
    + by rewrite IH.
Qed.

Lemma keys_obj_set (k k' : string) (v : Value) (o : list (string * Value)) :
  In k (map fst (obj_set k' v o)) <-> k = k' \/ In k (map fst o).
Proof.
  induction o as [|[k1 v1] o IH]; simpl.
  - split; [intros [<-|[]]; by left|intros [->|[]]; by left].
  - destruct (String.eqb_spec k1 k') as [->|H1]; simpl; [intuition congruence|].
    rewrite IH. intuition congruence.
Qed.

Lemma NoDup_obj_set (k : string) (v : Value) (o : list (string * Value)) :
  NoDup (map fst o) -> NoDup (map fst (obj_set k v o)).
Proof.
  induction o as [|[k1 v1] o IH]; simpl; intros Hnd.
  - constructor; [by intros []%elem_of_nil|constructor].
  - apply NoDup_cons in Hnd as [Hk1 Hnd].
    destruct (String.eqb_spec k1 k) as [->|H1]; simpl.
    + by apply NoDup_cons.
    + apply NoDup_cons. split; [|by apply IH].
      rewrite list_elem_of_In, keys_obj_set. rewrite list_elem_of_In in Hk1.
      intros [->|?]; done.
Qed.

Lemma keys_spread (k : string) (base extra : list (string * Value)) :
  In k (map fst (spread base extra)) <-> In k (map fst base) \/ In k (map fst extra).
Proof.
  unfold spread. revert base. induction extra as [|[k1 v1] extra IH]; intros base; simpl.
  - tauto.
  - rewrite IH, keys_obj_set. intuition congruence.
Qed.

Lemma NoDup_spread (base extra : list (string * Value)) :
  NoDup (map fst base) -> NoDup (map fst (spread base extra)).
Proof.
  unfold spread. revert base. induction extra as [|[k1 v1] extra IH]; intros base H; simpl.
  - done.
  - by apply IH, NoDup_obj_set.
Qed.

Lemma assoc_spread_absent (k : string) (base extra : list (string * Value)) :
  ~ In k (map fst extra) -> assoc k (spread base extra) = assoc k base.
Proof.
  unfold spread. revert base. induction extra as [|[k1 v1] extra IH]; intros base H; simpl.
  - done.
  - simpl in H. rewrite IH by tauto. apply assoc_obj_set_ne. intros ->. tauto.
Qed.

(** Spreading an object with distinct field names over another gives
    each of its fields the value it has in the object. *)
Lemma assoc_spread_present (k : string) (base o : list (string * Value)) :
  NoDup (map fst o) -> In k (map fst o) -> assoc k (spread base o) = assoc k o.
Proof.
  revert base. induction o as [|[k1 v1] o IH]; intros base Hnd Hin; simpl in *; [done|].
  apply NoDup_cons in Hnd as [Hk1 Hnd]. rewrite list_elem_of_In in Hk1.
  destruct (String.eqb_spec k1 k) as [->|Hne].
  - change (assoc k (spread (obj_set k v1 base) o) = v1).
    rewrite assoc_spread_absent by done. apply assoc_obj_set_eq.
  - destruct Hin as [?|Hin]; [done|].
    change (assoc k (spread (obj_set k1 v1 base) o) = assoc k o). by apply IH.
Qed.

(** X16: the object [sendAndWait] serialises for an open socket carries
    the fresh request id under [request_id], whatever [data] says there;
    every other field of [data] goes out as given, the last value
    winning, and that includes a field named [action], which then
    replaces the action of the call. *)
Theorem request_id_on_the_wire (s : State) (action : string)
    (data : list (string * Value)) (timeout : Z) (k p : nat) :
  let s' := step (CallSendAndWait action data timeout) s in
  connected s = true -> ws s = Some k -> sockets s !! k = Some (mkSocket OPEN p) ->
  exists frame,
    outbox s' = outbox s ++ [(k, frame)]
    /\ assoc "request_id" frame = VNum (Z.of_nat (S (requestId s)))
    /\ (forall key, key <> "request_id" -> In key (map fst data) ->
        assoc key frame = assoc key (spread [] data))
    /\ (~ In "action" (map fst data) -> assoc "action" frame = VStr action).
Proof.
  intros s' Hc Hws Hk.
  set (data' := obj_set "request_id" (VNum (Z.of_nat (S (requestId s)))) (spread [] data)).
  exists (spread [("action", VStr action)] data').
  assert (Hnd : NoDup (map fst data')).
  { apply NoDup_obj_set, NoDup_spread. constructor. }
  split_and!.
  - unfold s', step, run_handler, sendAndWait, new_promise, setTimeout,
      try_catch, gets, modify, bind, ret.
    rewrite svc_send_spec; simpl. by rewrite Hc, Hws, Hk.
  - rewrite assoc_spread_present; [apply assoc_obj_set_eq|done|].
    apply keys_obj_set. by left.
  - intros key Hne Hin. rewrite assoc_spread_present; [by apply assoc_obj_set_ne|done|].
    apply keys_obj_set. right. apply keys_spread. by right.
  - intros Hno. rewrite assoc_spread_absent; [done|].
    unfold data'. rewrite keys_obj_set, keys_spread. simpl. intros [?|[[]|?]]; done.
Qed.

Lemma request_id_on_the_wire_witness :
  exists frame,
    outbox (step (CallSendAndWait "get_market_analysis"
                    [("symbol", VStr "EURUSD"); ("request_id", VStr "mine")] 30000) online)
    = outbox online ++ [(0, frame)]
    /\ assoc "request_id" frame = VNum (Z.of_nat (S (requestId online))).
Proof.
  assert (H1 : connected online = true) by (vm_compute; reflexivity).
  assert (H2 : ws online = Some 0) by (vm_compute; reflexivity).
  assert (H3 : sockets online !! 0 = Some (mkSocket OPEN 0)) by (vm_compute; reflexivity).
  destruct (request_id_on_the_wire online "get_market_analysis"
              [("symbol", VStr "EURUSD"); ("request_id", VStr "mine")] 30000 0 0
              H1 H2 H3) as (frame & E1 & E2 & _).
  exists frame. split; [exact E1 | exact E2].
Defined.

(* --------------------------------------------------------------------- *)
(** * MT5Service: connect, and send before the socket is open           *)
(* --------------------------------------------------------------------- *)






(** X18: while the service counts as connected but its current socket
    is still CONNECTING, [send] lets the exception of [ws.send] out to
    its caller.  [sendAndWait] turns it into an immediate rejection of
    its promise, yet the request stays in [pendingRequests] with its
    timer armed until that timer fires, which removes it and leaves the
    promise as it was. *)
Theorem send_throws_while_connecting (s : State) (action : string)
    (data : list (string * Value)) (timeout : Z) (c : bool) :
  let id := S (requestId s) in
  let pid := length (promises s) in
  let tid := length (timers s) in
  let s1 := step (CallSendAndWait action data timeout) s in
  let s2 := step (TimerFires tid c) s1 in
  send_throws s = true ->
  uncaught (step (CallSend action data) s) = uncaught s ++ [InvalidStateError]
  /\ outbox (step (CallSend action data) s) = outbox s
  /\ promises s1 !! pid = Some (Rejected InvalidStateError)
  /\ pendingRequests s1 !! id = Some (mkPending pid tid)
  /\ timers s1 !! tid = Some (mkTimer (RequestTimeout id pid) timeout, Armed)
  /\ uncaught s1 = uncaught s
  /\ outbox s1 = outbox s
  /\ promises s2 !! pid = Some (Rejected InvalidStateError)
  /\ pendingRequests s2 !! id = None.
Proof.
  intros id pid tid s1 s2 Hs.
  assert (Hc : connected s = true /\ exists k p, ws s = Some k
               /\ sockets s !! k = Some (mkSocket CONNECTING p)).
  { unfold send_throws in Hs. destruct (connected s); [|done].
    destruct (ws s) as [k|]; [|done].
    destruct (sockets s !! k) as [[[] p]|] eqn:E; try done. split; [done|eauto]. }
  destruct Hc as (Hc & k & p & Hws & Hk).
  assert (E0 : step (CallSend action data) s
               = set_uncaught (uncaught s ++ [InvalidStateError]) s).
  { unfold step, run_handler, bind. rewrite svc_send_spec. by rewrite Hc, Hws, Hk. }
  assert (E1 : exists c', s1 = set_console c'
                 (set_promises (promises s ++ [Rejected InvalidStateError])
                    (set_pendingRequests (<[id := mkPending pid tid]> (pendingRequests s))
                       (set_timers (timers s ++ [(mkTimer (RequestTimeout id pid) timeout,
                                                   Armed)])
                          (set_requestId id s))))).
  { unfold s1, step, run_handler, sendAndWait, new_promise, setTimeout,
      try_catch, gets, modify, bind, ret.
    rewrite svc_send_spec; simpl. rewrite Hc, Hws, Hk.
    unfold reject, modify; simpl. subst id pid tid.
    rewrite lookup_snoc_last, insert_snoc_last.
    destruct (existsb _ _); eauto. }
  destruct E1 as [c' E1].
  assert (E2 : s2 = set_pendingRequests (delete id (pendingRequests s1))
                      (set_timers (timers s ++ [(mkTimer (RequestTimeout id pid) timeout,
                                                  Fired)]) s1)).
  { unfold s2, step. rewrite E1. subst id pid tid. simpl. rewrite lookup_snoc_last.
    unfold run_handler, timer_callback, request_timeout, reject, modify, bind; simpl.
    by rewrite lookup_snoc_last, insert_snoc_last. }
  split_and!.
  - by rewrite E0.
  - by rewrite E0.
  - rewrite E1; simpl. apply lookup_snoc_last.
  - rewrite E1; simpl. apply lookup_insert_eq.
  - rewrite E1; simpl. apply lookup_snoc_last.
  - by rewrite E1.
  - by rewrite E1.
  - rewrite E2, E1; simpl. apply lookup_snoc_last.
  - rewrite E2; simpl. apply lookup_delete_eq.
Qed.

Lemma send_throws_while_connecting_witness :
  uncaught (step (CallSend "ping" []) halfOpen) = uncaught halfOpen ++ [InvalidStateError].
Proof.
  assert (H1 : send_throws halfOpen = true) by (vm_compute; reflexivity).
  exact (proj1 (send_throws_while_connecting halfOpen "ping" [] 30000 false H1)).
Defined.

(** X19: [sendAndWait] while the service is not connected puts nothing
    on the wire and only warns; the promise is not rejected then but
    waits, registered like any request, for its timer, which rejects it
    with 'Request timeout'. *)
Theorem sendAndWait_offline_waits_for_timeout (s : State) (action : string)
    (data : list (string * Value)) (timeout : Z) (c : bool) :
  let id := S (requestId s) in
  let pid := length (promises s) in
  let tid := length (timers s) in
  let s1 := step (CallSendAndWait action data timeout) s in
  let s2 := step (TimerFires tid c) s1 in
  connected s = false ->
  outbox s1 = outbox s
  /\ console s1 = console s ++ [Warn "[MT5Service] Not connected"]
  /\ uncaught s1 = uncaught s
  /\ Waiting s1 id pid tid timeout
  /\ promises s2 !! pid = Some (Rejected (Error "Request timeout"))
  /\ pendingRequests s2 !! id = None.
Proof.
  intros id pid tid s1 s2 Hc.
  assert (Hs : send_throws s = false) by (unfold send_throws; by rewrite Hc).
  pose proof (sendAndWait_registers action data timeout s Hs) as Hw.
  fold s1 id pid tid in Hw.
  assert (E1 : s1 = set_console (console s ++ [Warn "[MT5Service] Not connected"])
                 (set_pendingRequests (<[id := mkPending pid tid]> (pendingRequests s))
                    (set_timers (timers s ++ [(mkTimer (RequestTimeout id pid) timeout,
                                                Armed)])
                       (set_requestId id
                          (set_promises (promises s ++ [Pending]) s))))).
  { unfold s1, step, run_handler, sendAndWait, new_promise, setTimeout,
      try_catch, gets, modify, bind, ret.
    rewrite svc_send_spec; simpl. by rewrite Hc. }
  destruct (expiry_settles s1 c _ _ _ _ Hw) as (E2 & E3 & _). fold s2 in E2, E3.
  pose proof Hw as (_ & Hp & _). apply lookup_lt_Some in Hp.
  split_and!; [by rewrite E1..|done| |].
  - rewrite E2. by apply list_lookup_insert_eq.
  - rewrite E3. apply lookup_delete_eq.
Qed.

Lemma sendAndWait_offline_waits_for_timeout_witness :
  outbox (step (CallSendAndWait "get_account_data" [] 30000) initial) = outbox initial.
Proof.
  assert (H1 : connected initial = false) by reflexivity.
  exact (proj1 (sendAndWait_offline_waits_for_timeout initial "get_account_data" []
                  30000 false H1)).
Defined.

(* --------------------------------------------------------------------- *)
(** * MT5Service: subscriptions                                         *)
(* --------------------------------------------------------------------- *)





End Service.
